(** * RentDirect: deal confirmation and payment settlement

    A shallow embedding of the deal state machine
    ([src/services/deal.service.ts]), the success-fee schedule
    ([src/config/index.ts]), the payment reconciliation service
    ([src/services/payment.service.ts]) and the payment and deal
    controllers ([src/controllers/payment.controller.ts],
    [src/controllers/deal.controller.ts]) together with the response
    helper, the error classes and the central error handler they rely on.

    Conventions of the embedding:
    - Prisma tables are finite maps from the primary key to the row; the
      append-only [paymentLog] table is a list in insertion order.
    - Every service method is a computation in a state-and-exception
      monad over the store. A thrown exception keeps the writes made
      before it: the source opens no database transaction.
    - [new Date()] and the identifier the database generates for a new row
      are inputs of a request ([Env]).
    - JavaScript numbers that are Prisma [Int] columns are integers ([Z]).
      The amount of a payment order is computed by the code in floating
      point ([Math.round(amount * 100)]); it and what is derived from it
      are IEEE 754 binary64 numbers ([JsNumber.t]) until they are
      written to a column.
    - [logger.*] and [console.error] calls write no application state and
      are left out. *)

From Stdlib Require Import ZArith String Ascii List Bool Lia Sorting.Sorted Sorting.Permutation.
From Stdlib Require SpecFloat.
From stdpp Require Import base option list strings pretty sorting gmap.

Local Open Scope string_scope.
Local Open Scope Z_scope.

(** ** [src/config/index.ts] *)

Module Config.

(** [maxRent] is a JavaScript number that may be [Infinity]. *)
Inductive Bound :=
| Finite (z : Z)
| Infinity.

Record Slab := { maxRent : Bound; fee : Z }.

(** [rentAmount < slab.maxRent] *)
Definition lt_bound (x : Z) (b : Bound) : bool :=
  match b with
  | Finite m => x <? m
  | Infinity => true
  end.

Definition successFeeSlabs : list Slab :=
  [ {| maxRent := Finite 10000; fee := 299 |};
    {| maxRent := Finite 25000; fee := 499 |};
    {| maxRent := Infinity; fee := 999 |} ].

(** The [for ... of] loop of [calculateSuccessFee], with the fall-through
    value passed as [dflt]. *)
Fixpoint firstSlab (slabs : list Slab) (rentAmount : Z) (dflt : Z) : Z :=
  match slabs with
  | [] => dflt
  | slab :: rest =>
      if lt_bound rentAmount (maxRent slab) then fee slab
      else firstSlab rest rentAmount dflt
  end.

(** [config.successFeeSlabs[config.successFeeSlabs.length - 1].fee] *)
Definition lastFee (slabs : list Slab) : Z :=
  match List.last (List.map Some slabs) None with
  | Some s => fee s
  | None => 0
  end.

Definition calculateSuccessFee (rentAmount : Z) : Z :=
  firstSlab successFeeSlabs rentAmount (lastFee successFeeSlabs).

End Config.

(** ** JavaScript numbers *)

(** A JavaScript number is an IEEE 754 binary64 value: a signed zero, a
    signed infinity, NaN, or [(-1)^s * m * 2^e]. The arithmetic is that
    of the standard, rounding to nearest, ties to even. *)
Module JsNumber.

Definition t : Type := SpecFloat.spec_float.

Definition prec : Z := 53.
Definition emax : Z := 1024.

(** The number an integer literal denotes: the binary64 value nearest to
    it. *)
Definition of_Z (z : Z) : t := SpecFloat.binary_normalize prec emax z 0 false.

(** [x * y] *)
Definition mul (x y : t) : t := SpecFloat.SFmul prec emax x y.

(** [Math.round(x)]: the integer nearest to [x], the larger one of two
    that are equally near; NaN, the infinities and the zeros are returned
    as they are, and a result of zero keeps the sign of [x]. A finite
    number with [0 <= e] is an integer already; otherwise the result is
    [floor(x + 1/2)], computed exactly. *)
Definition Math_round (x : t) : t :=
  match x with
  | SpecFloat.S754_finite s m e =>
      if 0 <=? e then x
      else
        let v := if s then Z.neg m else Z.pos m in
        let n := (2 * v + 2 ^ (- e)) / 2 ^ (- e + 1) in
        if n =? 0 then SpecFloat.S754_zero s else of_Z n
  | _ => x
  end.

(** The integer a number is, if it is one: what an [Int] column holds
    after the number was written to it. NaN, the infinities and the
    numbers with a fractional part are no integers. *)
Definition toInt (x : t) : option Z :=
  match x with
  | SpecFloat.S754_zero _ => Some 0
  | SpecFloat.S754_finite s m e =>
      let v := if s then Z.neg m else Z.pos m in
      if 0 <=? e then Some (v * 2 ^ e)
      else if Z.pos m mod 2 ^ (- e) =? 0 then Some (v / 2 ^ (- e))
      else None
  | SpecFloat.S754_infinity _ | SpecFloat.S754_nan => None
  end.

End JsNumber.

(** ** Data model (the Prisma models the services read and write) *)

Inductive DealStatus :=
| PENDING_BOTH | PENDING_OWNER | PENDING_TENANT | DEAL_COMPLETED | DEAL_CANCELLED.

Inductive DealPaymentStatus := UNPAID | PAID.

Inductive PropertyStatus := DRAFT | ACTIVE | RENTED | SUSPENDED.

Inductive PaymentStatus :=
| PENDING | INITIATED | COMPLETED | FAILED | REFUNDED | CANCELLED.

Inductive LogStatus := SUCCESS | LOG_FAILED.

#[global] Instance DealStatus_eq_dec : EqDecision DealStatus.
Proof. solve_decision. Defined.
#[global] Instance PaymentStatus_eq_dec : EqDecision PaymentStatus.
Proof. solve_decision. Defined.

Module User.
Record t := mk { firstName : string; lastName : string; email : string }.
End User.

Module Property.
Record t := mk { title : string; rentAmount : Z; status : PropertyStatus }.
End Property.

Module Conversation.
Record t := mk { propertyId : string; ownerId : string; tenantId : string }.
End Conversation.

Module Deal.
Record t := mk {
  conversationId : string;
  propertyId : string;
  ownerId : string;
  tenantId : string;
  agreedRent : Z;
  ownerConfirmed : bool;
  ownerConfirmedAt : option Z;
  tenantConfirmed : bool;
  tenantConfirmedAt : option Z;
  status : DealStatus;
  successFeeAmount : option Z;
  completedAt : option Z;
  paymentStatus : DealPaymentStatus;
  paymentId : option string
}.

(** Modelled from the spec: the Prisma schema is not part of the sources,
    so the column defaults a [deal.create] relies on are taken from the
    data model of the specification: both confirmation flags false, the
    nullable columns null, [paymentStatus] UNPAID. Every [create] in the
    service gives [status] and [agreedRent] explicitly. *)
Definition create (conversationId propertyId ownerId tenantId : string)
    (agreedRent : Z) (status : DealStatus) : t :=
  {| conversationId := conversationId; propertyId := propertyId;
     ownerId := ownerId; tenantId := tenantId; agreedRent := agreedRent;
     ownerConfirmed := false; ownerConfirmedAt := None;
     tenantConfirmed := false; tenantConfirmedAt := None;
     status := status; successFeeAmount := None; completedAt := None;
     paymentStatus := UNPAID; paymentId := None |}.

(** Field assignments of an [update]'s [data] object. *)
Definition set_agreedRent (v : Z) (d : t) : t :=
  {| conversationId := conversationId d;
     propertyId := propertyId d;
     ownerId := ownerId d;
     tenantId := tenantId d;
     agreedRent := v;
     ownerConfirmed := ownerConfirmed d;
     ownerConfirmedAt := ownerConfirmedAt d;
     tenantConfirmed := tenantConfirmed d;
     tenantConfirmedAt := tenantConfirmedAt d;
     status := status d;
     successFeeAmount := successFeeAmount d;
     completedAt := completedAt d;
     paymentStatus := paymentStatus d;
     paymentId := paymentId d |}.
Definition set_ownerConfirmed (v : bool) (d : t) : t :=
  {| conversationId := conversationId d;
     propertyId := propertyId d;
     ownerId := ownerId d;
     tenantId := tenantId d;
     agreedRent := agreedRent d;
     ownerConfirmed := v;
     ownerConfirmedAt := ownerConfirmedAt d;
     tenantConfirmed := tenantConfirmed d;
     tenantConfirmedAt := tenantConfirmedAt d;
     status := status d;
     successFeeAmount := successFeeAmount d;
     completedAt := completedAt d;
     paymentStatus := paymentStatus d;
     paymentId := paymentId d |}.
Definition set_ownerConfirmedAt (v : option Z) (d : t) : t :=
  {| conversationId := conversationId d;
     propertyId := propertyId d;
     ownerId := ownerId d;
     tenantId := tenantId d;
     agreedRent := agreedRent d;
     ownerConfirmed := ownerConfirmed d;
     ownerConfirmedAt := v;
     tenantConfirmed := tenantConfirmed d;
     tenantConfirmedAt := tenantConfirmedAt d;
     status := status d;
     successFeeAmount := successFeeAmount d;
     completedAt := completedAt d;
     paymentStatus := paymentStatus d;
     paymentId := paymentId d |}.
Definition set_tenantConfirmed (v : bool) (d : t) : t :=
  {| conversationId := conversationId d;
     propertyId := propertyId d;
     ownerId := ownerId d;
     tenantId := tenantId d;
     agreedRent := agreedRent d;
     ownerConfirmed := ownerConfirmed d;
     ownerConfirmedAt := ownerConfirmedAt d;
     tenantConfirmed := v;
     tenantConfirmedAt := tenantConfirmedAt d;
     status := status d;
     successFeeAmount := successFeeAmount d;
     completedAt := completedAt d;
     paymentStatus := paymentStatus d;
     paymentId := paymentId d |}.
Definition set_tenantConfirmedAt (v : option Z) (d : t) : t :=
  {| conversationId := conversationId d;
     propertyId := propertyId d;
     ownerId := ownerId d;
     tenantId := tenantId d;
     agreedRent := agreedRent d;
     ownerConfirmed := ownerConfirmed d;
     ownerConfirmedAt := ownerConfirmedAt d;
     tenantConfirmed := tenantConfirmed d;
     tenantConfirmedAt := v;
     status := status d;
     successFeeAmount := successFeeAmount d;
     completedAt := completedAt d;
     paymentStatus := paymentStatus d;
     paymentId := paymentId d |}.
Definition set_status (v : DealStatus) (d : t) : t :=
  {| conversationId := conversationId d;
     propertyId := propertyId d;
     ownerId := ownerId d;
     tenantId := tenantId d;
     agreedRent := agreedRent d;
     ownerConfirmed := ownerConfirmed d;
     ownerConfirmedAt := ownerConfirmedAt d;
     tenantConfirmed := tenantConfirmed d;
     tenantConfirmedAt := tenantConfirmedAt d;
     status := v;
     successFeeAmount := successFeeAmount d;
     completedAt := completedAt d;
     paymentStatus := paymentStatus d;
     paymentId := paymentId d |}.
Definition set_successFeeAmount (v : option Z) (d : t) : t :=
  {| conversationId := conversationId d;
     propertyId := propertyId d;
     ownerId := ownerId d;
     tenantId := tenantId d;
     agreedRent := agreedRent d;
     ownerConfirmed := ownerConfirmed d;
     ownerConfirmedAt := ownerConfirmedAt d;
     tenantConfirmed := tenantConfirmed d;
     tenantConfirmedAt := tenantConfirmedAt d;
     status := status d;
     successFeeAmount := v;
     completedAt := completedAt d;
     paymentStatus := paymentStatus d;
     paymentId := paymentId d |}.
Definition set_completedAt (v : option Z) (d : t) : t :=
  {| conversationId := conversationId d;
     propertyId := propertyId d;
     ownerId := ownerId d;
     tenantId := tenantId d;
     agreedRent := agreedRent d;
     ownerConfirmed := ownerConfirmed d;
     ownerConfirmedAt := ownerConfirmedAt d;
     tenantConfirmed := tenantConfirmed d;
     tenantConfirmedAt := tenantConfirmedAt d;
     status := status d;
     successFeeAmount := successFeeAmount d;
     completedAt := v;
     paymentStatus := paymentStatus d;
     paymentId := paymentId d |}.
Definition set_paymentStatus (v : DealPaymentStatus) (d : t) : t :=
  {| conversationId := conversationId d;
     propertyId := propertyId d;
     ownerId := ownerId d;
     tenantId := tenantId d;
     agreedRent := agreedRent d;
     ownerConfirmed := ownerConfirmed d;
     ownerConfirmedAt := ownerConfirmedAt d;
     tenantConfirmed := tenantConfirmed d;
     tenantConfirmedAt := tenantConfirmedAt d;
     status := status d;
     successFeeAmount := successFeeAmount d;
     completedAt := completedAt d;
     paymentStatus := v;
     paymentId := paymentId d |}.
Definition set_paymentId (v : option string) (d : t) : t :=
  {| conversationId := conversationId d;
     propertyId := propertyId d;
     ownerId := ownerId d;
     tenantId := tenantId d;
     agreedRent := agreedRent d;
     ownerConfirmed := ownerConfirmed d;
     ownerConfirmedAt := ownerConfirmedAt d;
     tenantConfirmed := tenantConfirmed d;
     tenantConfirmedAt := tenantConfirmedAt d;
     status := status d;
     successFeeAmount := successFeeAmount d;
     completedAt := completedAt d;
     paymentStatus := paymentStatus d;
     paymentId := v |}.
End Deal.

Inductive PaymentMethod :=
| CREDIT_CARD | DEBIT_CARD | NET_BANKING | UPI | WALLET | EMI.

(** The object whose [JSON.stringify] is stored in [Payment.notes]. *)
Record PayerNotes := { userName : string; email : string; phone : string }.

Module Payment.
Record t := mk {
  dealId : string;
  payerId : string;
  amount : Z;
  description : string;
  razorpayOrderId : option string;
  razorpayPaymentId : option string;
  razorpaySignature : option string;
  status : PaymentStatus;
  method : option PaymentMethod;
  notes : option PayerNotes;
  completedAt : option Z;
  failedAt : option Z;
  refundedAt : option Z
}.

(** Field assignments of an [update]'s [data] object. *)
Definition set_razorpayOrderId (v : option string) (d : t) : t :=
  {| dealId := dealId d;
     payerId := payerId d;
     amount := amount d;
     description := description d;
     razorpayOrderId := v;
     razorpayPaymentId := razorpayPaymentId d;
     razorpaySignature := razorpaySignature d;
     status := status d;
     method := method d;
     notes := notes d;
     completedAt := completedAt d;
     failedAt := failedAt d;
     refundedAt := refundedAt d |}.
Definition set_razorpayPaymentId (v : option string) (d : t) : t :=
  {| dealId := dealId d;
     payerId := payerId d;
     amount := amount d;
     description := description d;
     razorpayOrderId := razorpayOrderId d;
     razorpayPaymentId := v;
     razorpaySignature := razorpaySignature d;
     status := status d;
     method := method d;
     notes := notes d;
     completedAt := completedAt d;
     failedAt := failedAt d;
     refundedAt := refundedAt d |}.
Definition set_razorpaySignature (v : option string) (d : t) : t :=
  {| dealId := dealId d;
     payerId := payerId d;
     amount := amount d;
     description := description d;
     razorpayOrderId := razorpayOrderId d;
     razorpayPaymentId := razorpayPaymentId d;
     razorpaySignature := v;
     status := status d;
     method := method d;
     notes := notes d;
     completedAt := completedAt d;
     failedAt := failedAt d;
     refundedAt := refundedAt d |}.
Definition set_status (v : PaymentStatus) (d : t) : t :=
  {| dealId := dealId d;
     payerId := payerId d;
     amount := amount d;
     description := description d;
     razorpayOrderId := razorpayOrderId d;
     razorpayPaymentId := razorpayPaymentId d;
     razorpaySignature := razorpaySignature d;
     status := v;
     method := method d;
     notes := notes d;
     completedAt := completedAt d;
     failedAt := failedAt d;
     refundedAt := refundedAt d |}.
Definition set_method (v : option PaymentMethod) (d : t) : t :=
  {| dealId := dealId d;
     payerId := payerId d;
     amount := amount d;
     description := description d;
     razorpayOrderId := razorpayOrderId d;
     razorpayPaymentId := razorpayPaymentId d;
     razorpaySignature := razorpaySignature d;
     status := status d;
     method := v;
     notes := notes d;
     completedAt := completedAt d;
     failedAt := failedAt d;
     refundedAt := refundedAt d |}.
Definition set_completedAt (v : option Z) (d : t) : t :=
  {| dealId := dealId d;
     payerId := payerId d;
     amount := amount d;
     description := description d;
     razorpayOrderId := razorpayOrderId d;
     razorpayPaymentId := razorpayPaymentId d;
     razorpaySignature := razorpaySignature d;
     status := status d;
     method := method d;
     notes := notes d;
     completedAt := v;
     failedAt := failedAt d;
     refundedAt := refundedAt d |}.
Definition set_failedAt (v : option Z) (d : t) : t :=
  {| dealId := dealId d;
     payerId := payerId d;
     amount := amount d;
     description := description d;
     razorpayOrderId := razorpayOrderId d;
     razorpayPaymentId := razorpayPaymentId d;
     razorpaySignature := razorpaySignature d;
     status := status d;
     method := method d;
     notes := notes d;
     completedAt := completedAt d;
     failedAt := v;
     refundedAt := refundedAt d |}.
Definition set_refundedAt (v : option Z) (d : t) : t :=
  {| dealId := dealId d;
     payerId := payerId d;
     amount := amount d;
     description := description d;
     razorpayOrderId := razorpayOrderId d;
     razorpayPaymentId := razorpayPaymentId d;
     razorpaySignature := razorpaySignature d;
     status := status d;
     method := method d;
     notes := notes d;
     completedAt := completedAt d;
     failedAt := failedAt d;
     refundedAt := v |}.
End Payment.

(** Entities of the gateway. *)
Record GatewayOrder := {
  order_id : string;
  order_currency : string;
  order_customer_id : option string;
  order_receipt : string
}.

Record GatewayRefund := { refund_id : string }.

Record PaymentEntity := {
  pe_id : string;
  pe_order_id : string;
  pe_method : string
}.

Record RefundEntity := { re_payment_id : string }.

(** What [JSON.stringify] was applied to when a log row was written. The
    serialised text itself is never read back by the services. *)
Inductive RazorpayData :=
| OrderJson (o : GatewayOrder)
| IdsJson (orderId paymentId : string)
| PaymentJson (p : PaymentEntity)
| RefundEntityJson (r : RefundEntity)
| RefundJson (r : GatewayRefund).

Module PaymentLog.
Record t := mk {
  paymentId : string;
  event : string;
  status : LogStatus;
  razorpayData : option RazorpayData;
  errorMessage : option string;
  createdAt : Z
}.
End PaymentLog.

(** A call handed to [emailService]; the promise is not awaited and a
    rejection is only printed, so a call is recorded and nothing else. *)
Inductive Email :=
| DealCreatedEmail (to firstName propertyTitle : string) (rent : Z)
    (otherParty role userId : string)
| DealCompletedEmail (to firstName propertyTitle : string) (rent : Z)
    (role userId : string).

(** A request sent to the payment gateway through the Razorpay client. *)
Inductive GatewayCall :=
| OrdersCreate (amount : JsNumber.t) (currency receipt : string)
    (dealId propertyId tenantName ownerName : string)
| PaymentsRefund (razorpayPaymentId : string) (amount : Z)
    (dealId reason : string).

Record Store := {
  users : gmap string User.t;
  properties : gmap string Property.t;
  conversations : gmap string Conversation.t;
  deals : gmap string Deal.t;
  payments : gmap string Payment.t;
  paymentLogs : list PaymentLog.t;
  outbox : list Email;
  gatewayCalls : list GatewayCall
}.

Definition emptyStore : Store :=
  {| users := ∅; properties := ∅; conversations := ∅; deals := ∅;
     payments := ∅; paymentLogs := []; outbox := [];
     gatewayCalls := [] |}.

Definition set_properties (f : gmap string Property.t → gmap string Property.t)
    (s : Store) : Store :=
  {| users := users s; properties := f (properties s);
     conversations := conversations s; deals := deals s;
     payments := payments s; paymentLogs := paymentLogs s;
     outbox := outbox s; gatewayCalls := gatewayCalls s |}.

Definition set_deals (f : gmap string Deal.t → gmap string Deal.t)
    (s : Store) : Store :=
  {| users := users s; properties := properties s;
     conversations := conversations s; deals := f (deals s);
     payments := payments s; paymentLogs := paymentLogs s;
     outbox := outbox s; gatewayCalls := gatewayCalls s |}.

Definition set_payments (f : gmap string Payment.t → gmap string Payment.t)
    (s : Store) : Store :=
  {| users := users s; properties := properties s;
     conversations := conversations s; deals := deals s;
     payments := f (payments s); paymentLogs := paymentLogs s;
     outbox := outbox s; gatewayCalls := gatewayCalls s |}.

Definition set_paymentLogs (f : list PaymentLog.t → list PaymentLog.t)
    (s : Store) : Store :=
  {| users := users s; properties := properties s;
     conversations := conversations s; deals := deals s;
     payments := payments s; paymentLogs := f (paymentLogs s);
     outbox := outbox s; gatewayCalls := gatewayCalls s |}.

Definition set_outbox (f : list Email → list Email) (s : Store) : Store :=
  {| users := users s; properties := properties s;
     conversations := conversations s; deals := deals s;
     payments := payments s; paymentLogs := paymentLogs s;
     outbox := f (outbox s); gatewayCalls := gatewayCalls s |}.

Definition set_gatewayCalls (f : list GatewayCall → list GatewayCall)
    (s : Store) : Store :=
  {| users := users s; properties := properties s;
     conversations := conversations s; deals := deals s;
     payments := payments s; paymentLogs := paymentLogs s;
     outbox := outbox s; gatewayCalls := f (gatewayCalls s) |}.

(** Inputs of one request that the program does not choose: the clock
    reading of [new Date()] and the key the database gives a created row. *)
Record Env := { now : Z; newId : string }.

(** ** Exceptions ([src/utils/errors.ts]) *)

Inductive AppErrorClass :=
| BadRequestError | UnauthorizedError | ForbiddenError | NotFoundError.

(** What can be thrown: a plain [Error] (or [TypeError]), an [AppError]
    of [src/utils/errors.ts], and the two classes of exception of the
    Prisma client that the error handler tells apart. *)
Inductive Exn :=
| Error (message : string)
| AppError (cls : AppErrorClass) (message : string) (code : string)
| PrismaKnownRequestError (code : string) (target : option string)
    (message : string)
| PrismaValidationError (message : string).

Definition uniqueConstraintFailed (target : string) : Exn :=
  PrismaKnownRequestError "P2002" (Some target) "Unique constraint failed".

Definition recordNotFound : Exn :=
  PrismaKnownRequestError "P2025" None "Record to update not found".

Definition statusCode (c : AppErrorClass) : Z :=
  match c with
  | BadRequestError => 400
  | UnauthorizedError => 401
  | ForbiddenError => 403
  | NotFoundError => 404
  end.

Definition defaultCode (c : AppErrorClass) : string :=
  match c with
  | BadRequestError => "BAD_REQUEST"
  | UnauthorizedError => "UNAUTHORIZED"
  | ForbiddenError => "FORBIDDEN"
  | NotFoundError => "NOT_FOUND"
  end.

Definition mkAppError (c : AppErrorClass) (msg : string) : Exn :=
  AppError c msg (defaultCode c).

Definition exn_message (e : Exn) : string :=
  match e with
  | Error m => m
  | AppError _ m _ => m
  | PrismaKnownRequestError _ _ m => m
  | PrismaValidationError m => m
  end.

(** The prototype objects an exception can have. *)
Inductive Prototype :=
| Error_prototype
| AppError_prototype
| Subclass_prototype (c : AppErrorClass)
| PrismaKnownRequestError_prototype
| PrismaValidationError_prototype.

(** The prototype of a thrown object. [new NotFoundError(..)] and the
    like run the constructor of [AppError] through [super(..)], and that
    constructor ends with [Object.setPrototypeOf(this, AppError.prototype)]
    (errors.ts, line 24). No subclass constructor sets the prototype
    again, so an object built by a subclass has the prototype of
    [AppError], not [Subclass_prototype]; the fields [statusCode] and
    [code] are those the subclass passed. *)
Definition prototypeOf (e : Exn) : Prototype :=
  match e with
  | Error _ => Error_prototype
  | AppError _ _ _ => AppError_prototype
  | PrismaKnownRequestError _ _ _ => PrismaKnownRequestError_prototype
  | PrismaValidationError _ => PrismaValidationError_prototype
  end.

#[global] Instance AppErrorClass_eq_dec : EqDecision AppErrorClass.
Proof. solve_decision. Defined.

(** [e instanceof C] for a subclass [C] of [AppError]: whether
    [C.prototype] is on the prototype chain of [e]. The chain of
    [AppError.prototype] holds no subclass prototype. *)
Definition instanceof (e : Exn) (C : AppErrorClass) : bool :=
  match prototypeOf e with
  | Subclass_prototype c => bool_decide (c = C)
  | _ => false
  end.

(** ** The monad of service methods *)

Inductive Outcome (A : Type) :=
| Ok (a : A)
| Throw (e : Exn).
Arguments Ok {A} a.
Arguments Throw {A} e.

Definition M (A : Type) : Type := Store → Outcome A * Store.

Definition ret {A} (a : A) : M A := λ s, (Ok a, s).
Definition throw {A} (e : Exn) : M A := λ s, (Throw e, s).
Definition bind {A B} (c : M A) (k : A → M B) : M B :=
  λ s, match c s with
       | (Ok a, s') => k a s'
       | (Throw e, s') => (Throw e, s')
       end.
Definition gets {A} (f : Store → A) : M A := λ s, (Ok (f s), s).
Definition modify (f : Store → Store) : M unit := λ s, (Ok tt, f s).

(** [try { c } catch (error) { h error }] *)
Definition try_catch {A} (c : M A) (h : Exn → M A) : M A :=
  λ s, match c s with
       | (Ok a, s') => (Ok a, s')
       | (Throw e, s') => h e s'
       end.

Notation "'let*' x ':=' c 'in' k" := (bind c (λ x, k))
  (at level 10, x pattern, c at level 100, k at level 200).
Notation "c ';;' k" := (bind c (λ _, k))
  (at level 100, k at level 200, right associativity).

Definition when (b : bool) (c : M unit) : M unit := if b then c else ret tt.

(** ** Prisma queries used by the services *)

(** [findFirst]/[findUnique] on a column that is not the primary key. *)
Definition findDealByConversation (conversationId : string)
    (ds : gmap string Deal.t) : option (string * Deal.t) :=
  snd <$> list_find (λ kd, Deal.conversationId kd.2 = conversationId)
            (map_to_list ds).

Definition findPaymentBy (P : Payment.t → Prop) `{∀ p, Decision (P p)}
    (ps : gmap string Payment.t) : option (string * Payment.t) :=
  snd <$> list_find (λ kp, P kp.2) (map_to_list ps).

(** [prisma.deal.create]: the key is the one the database generated.
    Modelled from the spec: the Prisma schema is not part of the sources;
    by the data model of the specification there is at most one deal per
    conversation, so a second deal of a conversation violates a unique
    constraint, as a taken key does. *)
Definition deal_create (env : Env) (d : Deal.t) : M (string * Deal.t) :=
  λ s, match deals s !! newId env,
             findDealByConversation (Deal.conversationId d) (deals s) with
       | None, None => (Ok (newId env, d), set_deals (insert (newId env) d) s)
       | Some _, _ => (Throw (uniqueConstraintFailed "id"), s)
       | None, Some _ => (Throw (uniqueConstraintFailed "conversationId"), s)
       end.

(** [prisma.deal.update({ where: { id }, data })] returns the updated row
    and rejects when no row has the key. *)
Definition deal_update (id : string) (data : Deal.t → Deal.t)
    : M (string * Deal.t) :=
  λ s, match deals s !! id with
       | Some d => (Ok (id, data d), set_deals (insert id (data d)) s)
       | None => (Throw recordNotFound, s)
       end.

Definition property_update (id : string) (data : Property.t → Property.t)
    : M unit :=
  λ s, match properties s !! id with
       | Some p => (Ok tt, set_properties (insert id (data p)) s)
       | None => (Throw recordNotFound, s)
       end.

Definition send (e : Email) : M unit :=
  modify (set_outbox (λ o, (o ++ [e])%list)).

(** The JavaScript expression [a || b] on an optional number: [undefined]
    and [0] are falsy, and [b] is evaluated only when [a] is falsy. *)
Definition js_or (a : option Z) (b : M Z) : M Z :=
  match a with
  | Some x => if x =? 0 then b else ret x
  | None => b
  end.

(** ** [src/services/deal.service.ts] *)

Module DealService.

(** A conversation with the relations a query includes. *)
Record ConversationIncl := {
  conv : Conversation.t;
  property : option Property.t;
  deal : option (string * Deal.t);
  owner : option (string * User.t);
  tenant : option (string * User.t)
}.

Definition includeRelations (conversationId : string) (c : Conversation.t)
    (s : Store) : ConversationIncl :=
  {| conv := c;
     property := properties s !! Conversation.propertyId c;
     deal := findDealByConversation conversationId (deals s);
     owner := (λ u, (Conversation.ownerId c, u)) <$> users s !! Conversation.ownerId c;
     tenant := (λ u, (Conversation.tenantId c, u)) <$> users s !! Conversation.tenantId c |}.

(** [prisma.conversation.findFirst({ where: { id, ...who }, include })] *)
Definition findConversation (conversationId : string)
    (who : Conversation.t → bool) : M (option ConversationIncl) :=
  gets (λ s,
    match conversations s !! conversationId with
    | Some c => if who c then Some (includeRelations conversationId c s) else None
    | None => None
    end).

(** Reading the field [field] of [conversation.property]: the relation is
    required, a missing row makes the property access throw a
    [TypeError]. *)
Definition propertyOf (field : string) (c : ConversationIncl) : M Property.t :=
  match property c with
  | Some p => ret p
  | None =>
      throw (Error ("Cannot read properties of null (reading '" ++ field ++ "')"))
  end.

Definition rentAmountOf (c : ConversationIncl) : M Z :=
  let* p := propertyOf "rentAmount" c in ret (Property.rentAmount p).

Definition fullName (u : User.t) : string :=
  (User.firstName u ++ " " ++ User.lastName u)%string.

Definition getDealWithDetails (dealId : string) : M (option Deal.t) :=
  gets (λ s, deals s !! dealId).

Definition completeDeal (env : Env) (dealId : string) : M Deal.t :=
  let* found := gets (λ s, deals s !! dealId) in
  match found with
  | None => throw (Error "Deal not found")
  | Some deal =>
      let* prop := gets (λ s, properties s !! Deal.propertyId deal) in
      let* owner := gets (λ s, users s !! Deal.ownerId deal) in
      let* tenant := gets (λ s, users s !! Deal.tenantId deal) in
      let successFee := Config.calculateSuccessFee (Deal.agreedRent deal) in
      deal_update dealId (λ d,
        Deal.set_successFeeAmount (Some successFee)
          (Deal.set_completedAt (Some (now env))
             (Deal.set_status DEAL_COMPLETED d))) ;;
      property_update (Deal.propertyId deal) (λ p,
        {| Property.title := Property.title p;
           Property.rentAmount := Property.rentAmount p;
           Property.status := RENTED |}) ;;
      let title := from_option Property.title "" prop in
      match owner with
      | Some o =>
          send (DealCompletedEmail (User.email o) (User.firstName o) title
                  (Deal.agreedRent deal) "owner" (Deal.ownerId deal))
      | None => ret tt
      end ;;
      match tenant with
      | Some t =>
          send (DealCompletedEmail (User.email t) (User.firstName t) title
                  (Deal.agreedRent deal) "tenant" (Deal.tenantId deal))
      | None => ret tt
      end ;;
      ret deal
  end.

Definition getOrCreateDeal (env : Env) (conversationId userId : string)
    (agreedRent : Z) : M (string * Deal.t) :=
  let* conversation := findConversation conversationId (λ c,
    bool_decide (Conversation.ownerId c = userId)
    || bool_decide (Conversation.tenantId c = userId)) in
  match conversation with
  | None => throw (Error "Conversation not found")
  | Some conversation =>
      let* existing := gets (λ s, findDealByConversation conversationId (deals s)) in
      match existing with
      | Some deal => ret deal
      | None =>
          let* rentAmount := js_or (Some agreedRent) (rentAmountOf conversation) in
          deal_create env
            (Deal.create conversationId
               (Conversation.propertyId (conv conversation))
               (Conversation.ownerId (conv conversation))
               (Conversation.tenantId (conv conversation))
               rentAmount PENDING_BOTH)
      end
  end.

Definition ownerConfirmDeal (env : Env) (conversationId ownerId : string)
    (agreedRent : option Z) : M (option Deal.t) :=
  let* conversation := findConversation conversationId (λ c,
    bool_decide (Conversation.ownerId c = ownerId)) in
  match conversation with
  | None => throw (Error "Conversation not found or you are not the owner")
  | Some conversation =>
      let* rentAmount := js_or agreedRent (rentAmountOf conversation) in
      let isNewDeal := bool_decide (deal conversation = None) in
      let* deal :=
        match deal conversation with
        | None =>
            deal_create env
              (Deal.set_ownerConfirmedAt (Some (now env))
                 (Deal.set_ownerConfirmed true
                    (Deal.create conversationId
                       (Conversation.propertyId (conv conversation))
                       (Conversation.ownerId (conv conversation))
                       (Conversation.tenantId (conv conversation))
                       rentAmount PENDING_TENANT)))
        | Some (id, deal) =>
            deal_update id (λ d,
              Deal.set_status
                (if Deal.tenantConfirmed deal then DEAL_COMPLETED
                 else PENDING_TENANT)
                (Deal.set_agreedRent rentAmount
                   (Deal.set_ownerConfirmedAt (Some (now env))
                      (Deal.set_ownerConfirmed true d))))
        end in
      match isNewDeal, tenant conversation, owner conversation with
      | true, Some (tid, t), Some (_, o) =>
          let* prop := propertyOf "title" conversation in
          send (DealCreatedEmail (User.email t) (User.firstName t)
                  (Property.title prop) rentAmount (fullName o) "tenant" tid)
      | _, _, _ => ret tt
      end ;;
      when (Deal.ownerConfirmed deal.2 && Deal.tenantConfirmed deal.2)
        (completeDeal env deal.1 ;; ret tt) ;;
      getDealWithDetails deal.1
  end.

Definition tenantConfirmDeal (env : Env) (conversationId tenantId : string)
    : M (option Deal.t) :=
  let* conversation := findConversation conversationId (λ c,
    bool_decide (Conversation.tenantId c = tenantId)) in
  match conversation with
  | None => throw (Error "Conversation not found or you are not the tenant")
  | Some conversation =>
      let isNewDeal := bool_decide (deal conversation = None) in
      let* deal :=
        match deal conversation with
        | None =>
            let* rentAmount := rentAmountOf conversation in
            deal_create env
              (Deal.set_tenantConfirmedAt (Some (now env))
                 (Deal.set_tenantConfirmed true
                    (Deal.create conversationId
                       (Conversation.propertyId (conv conversation))
                       (Conversation.ownerId (conv conversation))
                       (Conversation.tenantId (conv conversation))
                       rentAmount PENDING_OWNER)))
        | Some (id, deal) =>
            deal_update id (λ d,
              Deal.set_status
                (if Deal.ownerConfirmed deal then DEAL_COMPLETED
                 else PENDING_OWNER)
                (Deal.set_tenantConfirmedAt (Some (now env))
                   (Deal.set_tenantConfirmed true d)))
        end in
      match isNewDeal, owner conversation, tenant conversation with
      | true, Some (oid, o), Some (_, t) =>
          let* prop := propertyOf "title" conversation in
          send (DealCreatedEmail (User.email o) (User.firstName o)
                  (Property.title prop) (Property.rentAmount prop)
                  (fullName t) "owner" oid)
      | _, _, _ => ret tt
      end ;;
      when (Deal.ownerConfirmed deal.2 && Deal.tenantConfirmed deal.2)
        (completeDeal env deal.1 ;; ret tt) ;;
      getDealWithDetails deal.1
  end.

Definition cancelDeal (dealId userId : string) : M string :=
  let* found := gets (λ s,
    match deals s !! dealId with
    | Some d =>
        if (bool_decide (Deal.ownerId d = userId)
            || bool_decide (Deal.tenantId d = userId))
           && negb (bool_decide (Deal.status d = DEAL_COMPLETED))
        then Some d else None
    | None => None
    end) in
  match found with
  | None => throw (Error "Deal not found or cannot be cancelled")
  | Some _ =>
      deal_update dealId (Deal.set_status DEAL_CANCELLED) ;;
      ret "Deal cancelled"
  end.

(** [prisma.deal.findFirst({ where: { conversationId, OR: [owner, tenant] } })] *)
Definition getDealByConversation (conversationId userId : string)
    : M (option (string * Deal.t)) :=
  gets (λ s,
    snd <$> list_find
      (λ kd, Deal.conversationId kd.2 = conversationId
             ∧ (Deal.ownerId kd.2 = userId ∨ Deal.tenantId kd.2 = userId))
      (map_to_list (deals s))).

End DealService.

(** ** [src/services/payment.service.ts] *)

(** The parsed body of a webhook delivery ([PaymentWebhookData]; the
    handlers also read [payload.refund]). *)
Record WebhookPayload := {
  payment : option PaymentEntity;
  refund : option RefundEntity
}.

Record PaymentWebhookData := {
  event : string;
  payload : WebhookPayload
}.

(** What the deployment fixes and the services only use: the keyed hash of
    Node's [crypto] module, [JSON.stringify] on a webhook body, the two
    secrets of [config.razorpay], [NODE_ENV], and the default of the
    [status] column of a payment (the Prisma schema is not part of the
    sources). *)
Record Platform := {
  hmac_sha256_hex : string → string → string;
  JSON_stringify : PaymentWebhookData → string;
  keySecret : string;
  webhookSecret : string;
  isProduction : bool;
  paymentStatusDefault : PaymentStatus
}.

Definition findPaymentByDeal (dealId : string) :=
  findPaymentBy (λ p, Payment.dealId p = dealId).

Definition findPaymentByOrder (orderId : string) :=
  findPaymentBy (λ p, Payment.razorpayOrderId p = Some orderId).

Definition findPaymentByPaymentId (paymentId : string) :=
  findPaymentBy (λ p, Payment.razorpayPaymentId p = Some paymentId).

(** [prisma.payment.update({ where: { id }, data })] *)
Definition payment_update (id : string) (data : Payment.t → Payment.t)
    : M (string * Payment.t) :=
  λ s, match payments s !! id with
       | Some p => (Ok (id, data p), set_payments (insert id (data p)) s)
       | None => (Throw recordNotFound, s)
       end.

(** [prisma.payment.upsert({ where: { dealId }, create, update })] *)
Definition payment_upsert (env : Env) (dealId : string) (create : Payment.t)
    (update : Payment.t → Payment.t) : M (string * Payment.t) :=
  λ s, match findPaymentByDeal dealId (payments s) with
       | Some (id, p) => (Ok (id, update p), set_payments (insert id (update p)) s)
       | None =>
           match payments s !! newId env with
           | None => (Ok (newId env, create),
                      set_payments (insert (newId env) create) s)
           | Some _ => (Throw (uniqueConstraintFailed "id"), s)
           end
       end.

(** [prisma.paymentLog.create]; [createdAt] is the column default, the
    time of the insertion. *)
Definition paymentLog_create (env : Env) (paymentId event : string)
    (status : LogStatus) (razorpayData : option RazorpayData)
    (errorMessage : option string) : M unit :=
  modify (set_paymentLogs (λ l, (l ++
    [ {| PaymentLog.paymentId := paymentId; PaymentLog.event := event;
         PaymentLog.status := status;
         PaymentLog.razorpayData := razorpayData;
         PaymentLog.errorMessage := errorMessage;
         PaymentLog.createdAt := now env |} ])%list)).

(** A request to the gateway: the call is recorded and the gateway's reply
    is the result (a rejected promise is a thrown exception). *)
Definition callGateway {A} (c : GatewayCall) (reply : Outcome A) : M A :=
  λ s, (reply, set_gatewayCalls (λ l, (l ++ [c])%list) s).

Module PaymentService.

Record CreatePaymentOrderDto := {
  cpo_dealId : string;
  cpo_amount : JsNumber.t; (* [amount: number], in rupees *)
  cpo_description : string;
  cpo_payerId : string;
  cpo_email : string;
  cpo_phone : string;
  cpo_userName : string
}.

Record VerifyPaymentDto := {
  razorpayOrderId : string;
  razorpayPaymentId : string;
  razorpaySignature : string;
  dealId : string
}.

Record PaymentOrderResponse := {
  orderId : string;
  amount : JsNumber.t;
  amountInPaise : JsNumber.t;
  currency : string;
  customerId : option string;
  receipt : string
}.

Record PaymentWithLogs := {
  id : string;
  row : Payment.t;
  logs : list PaymentLog.t
}.

(** [methodMap[method] || method]: a name outside the map is passed on as
    it is. Modelled from the spec: [method] is a nullable enum column (the
    Prisma schema is not part of the sources), with the six values of the
    declared return type; the client rejects any other value before it
    writes. *)
Definition mapPaymentMethod (method : string) : PaymentMethod + string :=
  if String.eqb method "card" then inl CREDIT_CARD
  else if String.eqb method "debit_card" then inl DEBIT_CARD
  else if String.eqb method "netbanking" then inl NET_BANKING
  else if String.eqb method "upi" then inl UPI
  else if String.eqb method "wallet" then inl WALLET
  else if String.eqb method "emandate" then inl EMI
  else inr method.

(** [orderBy: { createdAt: 'desc' }] *)
Definition notOlder (a b : PaymentLog.t) : Prop :=
  PaymentLog.createdAt b ≤ PaymentLog.createdAt a.

#[global] Instance notOlder_dec : RelDecision notOlder.
Proof. intros a b. unfold notOlder. apply _. Defined.

Definition newestFirst (l : list PaymentLog.t) : list PaymentLog.t :=
  merge_sort notOlder l.

Section WithPlatform.
Context (pf : Platform).

(** The [upsert] of the payment row is given [amount: amountInPaise].
    Modelled from the spec: [amount] is an integer column (the Prisma
    schema is not part of the sources), so the client rejects, before it
    writes, a number that is no integer; after [Math.round] that is NaN or
    an infinity. The width of the column is not modelled. *)
Definition createPaymentOrder (env : Env) (gateway : Outcome GatewayOrder)
    (data : CreatePaymentOrderDto) : M PaymentOrderResponse :=
  try_catch
    (let dealId := cpo_dealId data in
     let* deal := gets (λ s, deals s !! dealId) in
     match deal with
     | None => throw (Error "Deal not found")
     | Some deal =>
         if negb (bool_decide (Deal.status deal = DEAL_COMPLETED))
         then throw (Error "Deal must be completed before processing payment")
         else
           let* existingPayment := gets (λ s, findPaymentByDeal dealId (payments s)) in
           if match existingPayment with
              | Some (_, p) => bool_decide (Payment.status p = COMPLETED)
              | None => false
              end
           then throw (Error "Payment already completed for this deal")
           else
             let amountInPaise :=
               JsNumber.Math_round
                 (JsNumber.mul (cpo_amount data) (JsNumber.of_Z 100)) in
             let* tenant := gets (λ s, users s !! Deal.tenantId deal) in
             let* owner := gets (λ s, users s !! Deal.ownerId deal) in
             match tenant, owner with
             | Some tenant, Some owner =>
                 let* order := callGateway
                   (OrdersCreate amountInPaise "INR"
                      ("deal_" ++ dealId ++ "_" ++ pretty (now env))%string
                      dealId (Deal.propertyId deal)
                      (DealService.fullName tenant) (DealService.fullName owner))
                   gateway in
                 let* payment :=
                   match JsNumber.toInt amountInPaise with
                   | None =>
                       throw (PrismaValidationError "Invalid value for argument amount")
                   | Some paise =>
                       payment_upsert env dealId
                         {| Payment.dealId := dealId;
                            Payment.payerId := cpo_payerId data;
                            Payment.amount := paise;
                            Payment.description := cpo_description data;
                            Payment.razorpayOrderId := Some (order_id order);
                            Payment.razorpayPaymentId := None;
                            Payment.razorpaySignature := None;
                            Payment.status := paymentStatusDefault pf;
                            Payment.method := None;
                            Payment.notes :=
                              Some {| userName := cpo_userName data;
                                      email := cpo_email data;
                                      phone := cpo_phone data |};
                            Payment.completedAt := None;
                            Payment.failedAt := None;
                            Payment.refundedAt := None |}
                         (λ p, Payment.set_status INITIATED
                                 (Payment.set_razorpayOrderId
                                    (Some (order_id order)) p))
                   end in
                 paymentLog_create env payment.1 "PAYMENT_INITIATED" SUCCESS
                   (Some (OrderJson order)) None ;;
                 ret {| orderId := order_id order;
                        amount := cpo_amount data;
                        amountInPaise := amountInPaise;
                        currency := order_currency order;
                        customerId := order_customer_id order;
                        receipt := order_receipt order |}
             | _, _ =>
                 throw (Error "Cannot read properties of null (reading 'firstName')")
             end
     end)
    (λ error, throw error).

Definition verifyPayment (env : Env) (data : VerifyPaymentDto)
    : M (string * Payment.t) :=
  try_catch
    (let* payment := gets (λ s, findPaymentByDeal (dealId data) (payments s)) in
     match payment with
     | None => throw (Error "Payment record not found")
     | Some (id, payment) =>
         if negb (bool_decide (Payment.razorpayOrderId payment
                               = Some (razorpayOrderId data)))
         then throw (Error "Order ID mismatch")
         else
           let body := (razorpayOrderId data ++ "|" ++ razorpayPaymentId data)%string in
           let expectedSignature := hmac_sha256_hex pf (keySecret pf) body in
           if negb (String.eqb expectedSignature (razorpaySignature data))
           then
             paymentLog_create env id "SIGNATURE_VERIFICATION_FAILED" LOG_FAILED
               None (Some "Signature verification failed") ;;
             throw (Error "Invalid payment signature")
           else
             let* updatedPayment := payment_update id (λ p,
               Payment.set_completedAt (Some (now env))
                 (Payment.set_status COMPLETED
                    (Payment.set_razorpaySignature (Some (razorpaySignature data))
                       (Payment.set_razorpayPaymentId
                          (Some (razorpayPaymentId data)) p)))) in
             deal_update (dealId data) (λ d,
               Deal.set_paymentId (Some (razorpayPaymentId data))
                 (Deal.set_paymentStatus PAID d)) ;;
             paymentLog_create env id "PAYMENT_COMPLETED" SUCCESS
               (Some (IdsJson (razorpayOrderId data) (razorpayPaymentId data)))
               None ;;
             ret updatedPayment
     end)
    (λ error, throw error).

Definition handlePaymentAuthorized (env : Env) (payload : WebhookPayload)
    : M unit :=
  match payment payload with
  | None => ret tt
  | Some payment =>
      let* dbPayment := gets (λ s, findPaymentByOrder (pe_order_id payment) (payments s)) in
      match dbPayment with
      | None => ret tt
      | Some (id, _) =>
          paymentLog_create env id "PAYMENT_AUTHORIZED" SUCCESS
            (Some (PaymentJson payment)) None
      end
  end.

Definition handlePaymentCompleted (env : Env) (payload : WebhookPayload)
    : M unit :=
  match payment payload with
  | None => ret tt
  | Some payment =>
      let* dbPayment := gets (λ s, findPaymentByPaymentId (pe_id payment) (payments s)) in
      match dbPayment with
      | None => ret tt
      | Some (id, dbPayment) =>
          match mapPaymentMethod (pe_method payment) with
          | inr _ => throw (PrismaValidationError "Invalid value for argument method")
          | inl method =>
              payment_update id (λ p,
                Payment.set_completedAt (Some (now env))
                  (Payment.set_method (Some method)
                     (Payment.set_status COMPLETED p))) ;;
              deal_update (Payment.dealId dbPayment) (λ d,
                Deal.set_paymentId (Some (pe_id payment))
                  (Deal.set_paymentStatus PAID d)) ;;
              paymentLog_create env id "PAYMENT_COMPLETED" SUCCESS
                (Some (PaymentJson payment)) None
          end
      end
  end.

Definition handlePaymentFailed (env : Env) (payload : WebhookPayload)
    : M unit :=
  match payment payload with
  | None => ret tt
  | Some payment =>
      let* dbPayment := gets (λ s, findPaymentByOrder (pe_order_id payment) (payments s)) in
      match dbPayment with
      | None => ret tt
      | Some (id, _) =>
          payment_update id (λ p,
            Payment.set_failedAt (Some (now env))
              (Payment.set_status FAILED p)) ;;
          paymentLog_create env id "PAYMENT_FAILED" LOG_FAILED
            (Some (PaymentJson payment)) None
      end
  end.

Definition handleRefundCompleted (env : Env) (payload : WebhookPayload)
    : M unit :=
  match refund payload with
  | None => ret tt
  | Some refund =>
      let* dbPayment := gets (λ s, findPaymentByPaymentId (re_payment_id refund) (payments s)) in
      match dbPayment with
      | None => ret tt
      | Some (id, _) =>
          payment_update id (λ p,
            Payment.set_refundedAt (Some (now env))
              (Payment.set_status REFUNDED p)) ;;
          paymentLog_create env id "REFUND_COMPLETED" SUCCESS
            (Some (RefundEntityJson refund)) None
      end
  end.

Definition handleWebhook (env : Env) (webhookData : PaymentWebhookData)
    (webhookSignature : string) : M unit :=
  try_catch
    (let body := JSON_stringify pf webhookData in
     let expectedSignature := hmac_sha256_hex pf (webhookSecret pf) body in
     if negb (String.eqb expectedSignature webhookSignature)
     then throw (Error "Invalid webhook signature")
     else
       let event := event webhookData in
       let payload := payload webhookData in
       if String.eqb event "payment.authorized" then handlePaymentAuthorized env payload
       else if String.eqb event "payment.completed" then handlePaymentCompleted env payload
       else if String.eqb event "payment.failed" then handlePaymentFailed env payload
       else if String.eqb event "refund.completed" then handleRefundCompleted env payload
       else ret tt)
    (λ error, throw error).

Definition getPaymentDetails (dealId : string) : M (option PaymentWithLogs) :=
  try_catch
    (gets (λ s,
       match findPaymentByDeal dealId (payments s) with
       | Some (id, p) =>
           Some {| id := id; row := p;
                   logs := newestFirst
                     (filter (λ l, PaymentLog.paymentId l = id) (paymentLogs s)) |}
       | None => None
       end))
    (λ error, throw error).

Definition refundPayment (env : Env) (gateway : Outcome GatewayRefund)
    (dealId : string) (reason : option string) : M GatewayRefund :=
  try_catch
    (let* payment := gets (λ s, findPaymentByDeal dealId (payments s)) in
     match payment with
     | None => throw (Error "Payment not found")
     | Some (id, payment) =>
         match Payment.razorpayPaymentId payment with
         | None => throw (Error "No Razorpay payment to refund")
         | Some "" => throw (Error "No Razorpay payment to refund")
         | Some razorpayPaymentId =>
             if negb (bool_decide (Payment.status payment = COMPLETED))
             then throw (Error "Can only refund completed payments")
             else
               let* refund := callGateway
                 (PaymentsRefund razorpayPaymentId (Payment.amount payment) dealId
                    (match reason with
                     | None => "Manual refund"
                     | Some "" => "Manual refund"
                     | Some r => r
                     end))
                 gateway in
               paymentLog_create env id "REFUND_INITIATED" SUCCESS
                 (Some (RefundJson refund)) None ;;
               ret refund
         end
     end)
    (λ error, throw error).

End WithPlatform.
End PaymentService.

(** ** [src/utils/validators.ts] *)

Definition isHexDigit (c : ascii) : bool :=
  let n := N_of_ascii c in
  ((48 <=? n) && (n <=? 57) || (97 <=? n) && (n <=? 102)
   || (65 <=? n) && (n <=? 70))%N.

Definition isOneOf (cs : string) (c : ascii) : bool :=
  existsb (Ascii.eqb c) (list_ascii_of_string cs).

(** The character classes of
    [/^[0-9a-f]{8}-[0-9a-f]{4}-[1-5][0-9a-f]{3}-[89ab][0-9a-f]{3}-[0-9a-f]{12}$/i],
    one per position. *)
Definition uuidPattern : list (ascii → bool) :=
  (replicate 8 isHexDigit ++ [isOneOf "-"] ++
   replicate 4 isHexDigit ++ [isOneOf "-"] ++
   [isOneOf "12345"] ++ replicate 3 isHexDigit ++ [isOneOf "-"] ++
   [isOneOf "89abAB"] ++ replicate 3 isHexDigit ++ [isOneOf "-"] ++
   replicate 12 isHexDigit)%list.

Fixpoint matchClasses (pat : list (ascii → bool)) (s : list ascii) : bool :=
  match pat, s with
  | [], [] => true
  | p :: pat, c :: s => p c && matchClasses pat s
  | _, _ => false
  end.

Definition isValidUUID (uuid : string) : bool :=
  matchClasses uuidPattern (list_ascii_of_string uuid).

Definition isValidRentAmount (amount : Z) : bool :=
  (1000 <=? amount) && (amount <=? 10000000).

(** [haystack.includes(needle)] *)
Fixpoint includes (needle haystack : string) : bool :=
  String.prefix needle haystack
  || match haystack with
     | EmptyString => false
     | String _ rest => includes needle rest
     end.

(** ** JavaScript values handed to [res.json] *)

(** A string column that holds the text [JSON.stringify] produced. *)
Inductive Serialized :=
| NotesText (notes : PayerNotes)
| DataText (data : RazorpayData).

Unset Elimination Schemes.
Inductive JsValue :=
| JsUndefined
| JsNull
| JsBoolean (b : bool)
| JsNum (x : JsNumber.t)
| JsString (s : string)
| JsText (t : Serialized)
| JsDate (time : Z)
| JsArray (items : list JsValue)
| JsObject (entries : list (string * JsValue)).
Set Elimination Schemes.

Definition nullable {A} (f : A → JsValue) (o : option A) : JsValue :=
  match o with
  | Some a => f a
  | None => JsNull
  end.

Definition DealStatus_name (st : DealStatus) : string :=
  match st with
  | PENDING_BOTH => "PENDING_BOTH"
  | PENDING_OWNER => "PENDING_OWNER"
  | PENDING_TENANT => "PENDING_TENANT"
  | DEAL_COMPLETED => "COMPLETED"
  | DEAL_CANCELLED => "CANCELLED"
  end.

Definition DealPaymentStatus_name (st : DealPaymentStatus) : string :=
  match st with
  | UNPAID => "UNPAID"
  | PAID => "PAID"
  end.

Definition PaymentStatus_name (st : PaymentStatus) : string :=
  match st with
  | PENDING => "PENDING"
  | INITIATED => "INITIATED"
  | COMPLETED => "COMPLETED"
  | FAILED => "FAILED"
  | REFUNDED => "REFUNDED"
  | CANCELLED => "CANCELLED"
  end.

Definition PaymentMethod_name (m : PaymentMethod) : string :=
  match m with
  | CREDIT_CARD => "CREDIT_CARD"
  | DEBIT_CARD => "DEBIT_CARD"
  | NET_BANKING => "NET_BANKING"
  | UPI => "UPI"
  | WALLET => "WALLET"
  | EMI => "EMI"
  end.

Definition LogStatus_name (st : LogStatus) : string :=
  match st with
  | SUCCESS => "SUCCESS"
  | LOG_FAILED => "FAILED"
  end.

(** The object the Prisma client returns for a row, with a key for each
    column the model carries: a timestamp is a [Date], an [Int] column a
    number, an enum its name, a nullable column [null] when it is not
    set. What the rows of the model leave out is left out here too: the
    columns no service reads or writes, the relations a query includes
    ([property], [owner], [tenant]), and the key of a row where the
    service method returns the row without it. *)
Definition dealFields (d : Deal.t) : list (string * JsValue) :=
  [ ("conversationId", JsString (Deal.conversationId d));
    ("propertyId", JsString (Deal.propertyId d));
    ("ownerId", JsString (Deal.ownerId d));
    ("tenantId", JsString (Deal.tenantId d));
    ("agreedRent", JsNum (JsNumber.of_Z (Deal.agreedRent d)));
    ("ownerConfirmed", JsBoolean (Deal.ownerConfirmed d));
    ("ownerConfirmedAt", nullable JsDate (Deal.ownerConfirmedAt d));
    ("tenantConfirmed", JsBoolean (Deal.tenantConfirmed d));
    ("tenantConfirmedAt", nullable JsDate (Deal.tenantConfirmedAt d));
    ("status", JsString (DealStatus_name (Deal.status d)));
    ("successFeeAmount",
     nullable (λ z, JsNum (JsNumber.of_Z z)) (Deal.successFeeAmount d));
    ("completedAt", nullable JsDate (Deal.completedAt d));
    ("paymentStatus", JsString (DealPaymentStatus_name (Deal.paymentStatus d)));
    ("paymentId", nullable JsString (Deal.paymentId d)) ].

(** A deal as [getDealWithDetails] returns it to the controllers. *)
Definition jsDeal (d : Deal.t) : JsValue := JsObject (dealFields d).

(** A deal together with its key. *)
Definition jsDealRow (id : string) (d : Deal.t) : JsValue :=
  JsObject (("id", JsString id) :: dealFields d).

Definition paymentFields (p : Payment.t) : list (string * JsValue) :=
  [ ("dealId", JsString (Payment.dealId p));
    ("payerId", JsString (Payment.payerId p));
    ("amount", JsNum (JsNumber.of_Z (Payment.amount p)));
    ("description", JsString (Payment.description p));
    ("razorpayOrderId", nullable JsString (Payment.razorpayOrderId p));
    ("razorpayPaymentId", nullable JsString (Payment.razorpayPaymentId p));
    ("razorpaySignature", nullable JsString (Payment.razorpaySignature p));
    ("status", JsString (PaymentStatus_name (Payment.status p)));
    ("method", nullable (λ m, JsString (PaymentMethod_name m)) (Payment.method p));
    ("notes", nullable (λ n, JsText (NotesText n)) (Payment.notes p));
    ("completedAt", nullable JsDate (Payment.completedAt p));
    ("failedAt", nullable JsDate (Payment.failedAt p));
    ("refundedAt", nullable JsDate (Payment.refundedAt p)) ].

Definition jsPaymentRow (id : string) (p : Payment.t) : JsValue :=
  JsObject (("id", JsString id) :: paymentFields p).

Definition jsPaymentLog (l : PaymentLog.t) : JsValue :=
  JsObject
    [ ("paymentId", JsString (PaymentLog.paymentId l));
      ("event", JsString (PaymentLog.event l));
      ("status", JsString (LogStatus_name (PaymentLog.status l)));
      ("razorpayData",
       nullable (λ d, JsText (DataText d)) (PaymentLog.razorpayData l));
      ("errorMessage", nullable JsString (PaymentLog.errorMessage l));
      ("createdAt", JsDate (PaymentLog.createdAt l)) ].

(** A payment with [include: { paymentLogs }]. *)
Definition jsPaymentWithLogs (p : PaymentService.PaymentWithLogs) : JsValue :=
  JsObject
    ((("id", JsString (PaymentService.id p))
      :: paymentFields (PaymentService.row p))
     ++ [ ("paymentLogs", JsArray (map jsPaymentLog (PaymentService.logs p))) ]).

(** The object literal [createPaymentOrder] returns; [customerId] is
    [undefined] when the gateway's order has no [customer_id]. *)
Definition jsOrderResponse (r : PaymentService.PaymentOrderResponse) : JsValue :=
  JsObject
    [ ("orderId", JsString (PaymentService.orderId r));
      ("amount", JsNum (PaymentService.amount r));
      ("amountInPaise", JsNum (PaymentService.amountInPaise r));
      ("currency", JsString (PaymentService.currency r));
      ("customerId",
       match PaymentService.customerId r with
       | Some c => JsString c
       | None => JsUndefined
       end);
      ("receipt", JsString (PaymentService.receipt r)) ].

(** The gateway's refund entity, as far as the model carries it. *)
Definition jsRefund (r : GatewayRefund) : JsValue :=
  JsObject [ ("id", JsString (refund_id r)) ].

(** ** [src/utils/response.ts], [src/middleware/errorHandler.ts],
       [src/utils/asyncHandler.ts] *)

Definition SENSITIVE_FIELDS : list string :=
  [ "password"; "passwordHash"; "refreshToken"; "resetToken";
    "resetTokenExpiry"; "verificationToken"; "__v"; "_prisma" ].

Definition METADATA_FIELDS : list string := [ "createdAt"; "updatedAt" ].

(** The three [continue] tests of the loop over [Object.entries(data)]:
    whether the entry under [key] is copied. *)
Definition copiesKey (keepTimestamps : bool) (key : string) : bool :=
  negb (bool_decide (key ∈ SENSITIVE_FIELDS))
  && negb (negb keepTimestamps && bool_decide (key ∈ METADATA_FIELDS))
  && negb (String.prefix "_" key && negb (String.eqb key "_count")).

(** [sanitizeData(data, { keepTimestamps })]. A [Date] is an object that
    is no array and has no enumerable property of its own, so
    [Object.entries] of it is empty and the loop leaves the fresh object
    [{}]. *)
Fixpoint sanitizeData (keepTimestamps : bool) (data : JsValue) : JsValue :=
  match data with
  | JsNull | JsUndefined => data
  | JsArray items => JsArray (map (sanitizeData keepTimestamps) items)
  | JsObject entries =>
      JsObject
        ((fix loop (entries : list (string * JsValue)) :=
            match entries with
            | [] => []
            | (key, value) :: rest =>
                if copiesKey keepTimestamps key
                then (key, sanitizeData keepTimestamps value) :: loop rest
                else loop rest
            end) entries)
  | JsDate _ => JsObject []
  | JsBoolean _ | JsNum _ | JsString _ | JsText _ => data
  end.

Record ErrorBody := { err_message : string; err_code : string }.

(** What [res.status(..).json(..)] is given. *)
Record Response (D : Type) := {
  status : Z;
  success : bool;
  message : option string;
  data : option D;
  error : option ErrorBody
}.
Arguments status {D} _.
Arguments success {D} _.
Arguments message {D} _.
Arguments data {D} _.
Arguments error {D} _.

(** [sendSuccess(res, { data, message })] with the default status code and
    the default [keepTimestamps = true] of [sanitizeData]; [data] is
    [None] when the option is missing. *)
Definition sendSuccess (data : option JsValue) (message : string)
    : Response JsValue :=
  {| status := 200; success := true;
     message := if String.eqb message "" then None else Some message;
     data := match data with
             | None | Some JsUndefined => None
             | Some data => Some (sanitizeData true data)
             end;
     error := None |}.

Definition errorResponse {D} (status : Z) (msg code : string) : Response D :=
  {| status := status; success := false; message := None; data := None;
     error := Some {| err_message := msg; err_code := code |} |}.

Definition handlePrismaError {D} (code : string) (target : option string)
    : Response D :=
  if String.eqb code "P2002" then
    errorResponse 409
      ("A record with this " ++ default "field" target ++ " already exists")%string
      "DUPLICATE_ENTRY"
  else if String.eqb code "P2025" then
    errorResponse 404 "Record not found" "NOT_FOUND"
  else if String.eqb code "P2003" then
    errorResponse 400 "Related record not found" "FOREIGN_KEY_ERROR"
  else if String.eqb code "P2023" then
    errorResponse 400 "Invalid ID format" "INVALID_ID"
  else errorResponse 500 "Database error occurred" "DATABASE_ERROR".

(** The errors named by [err.name] (JWT) and the body-parser's syntax
    error do not arise in the handlers below. *)
Definition errorHandler {D} (pf : Platform) (err : Exn) : Response D :=
  match err with
  | AppError cls msg code =>
      {| status := statusCode cls; success := false; message := None;
         data := None;
         error := Some {| err_message := msg; err_code := code |} |}
  | PrismaKnownRequestError code target _ => handlePrismaError code target
  | PrismaValidationError _ =>
      {| status := 400; success := false; message := None; data := None;
         error := Some {| err_message := "Invalid data format";
                          err_code := "VALIDATION_ERROR" |} |}
  | Error msg =>
      {| status := 500; success := false; message := None; data := None;
         error := Some {| err_message :=
                            if isProduction pf then "An unexpected error occurred"
                            else msg;
                          err_code := "INTERNAL_ERROR" |} |}
  end.

(** [asyncHandler(fn)]: a rejection of the handler goes to [next], that is
    to the error-handling middleware. *)
Definition asyncHandler {D} (pf : Platform) (fn : M (Response D))
    : Store → Response D * Store :=
  λ s, match fn s with
       | (Ok r, s') => (r, s')
       | (Throw e, s') => (errorHandler pf e, s')
       end.

(** ** [src/controllers/payment.controller.ts] *)

Module PaymentController.

(** [req.user], set by the [authenticate] middleware. *)
Record JwtPayload := { userId : string; email : string; role : string }.

Section WithPlatform.
Context (pf : Platform).

Definition getPaymentDetails (user : option JwtPayload) (dealId : string)
    : Store → Response JsValue * Store :=
  asyncHandler pf
    (match user with
     | None => throw (mkAppError UnauthorizedError "Not authenticated")
     | Some _ =>
         if negb (isValidUUID dealId)
         then throw (mkAppError BadRequestError "Invalid deal ID")
         else
           try_catch
             (let* payment := PaymentService.getPaymentDetails dealId in
              match payment with
              | None => throw (mkAppError NotFoundError "Payment not found")
              | Some payment =>
                  ret (sendSuccess
                         (Some (sanitizeData true (jsPaymentWithLogs payment)))
                         "Payment details retrieved successfully")
              end)
             (λ error,
                if instanceof error NotFoundError
                then throw error
                else throw (mkAppError BadRequestError (exn_message error)))
     end).

(** [req.headers['x-razorpay-signature']] and [req.body] are the inputs.
    The handler is registered without [asyncHandler]. *)
Definition handleWebhook (env : Env) (signature : option string)
    (body : PaymentWebhookData) : M (Response JsValue) :=
  try_catch
    (match signature with
     | None => throw (mkAppError BadRequestError "Missing webhook signature")
     | Some "" => throw (mkAppError BadRequestError "Missing webhook signature")
     | Some signature =>
         PaymentService.handleWebhook pf env body signature ;;
         ret (sendSuccess None "Webhook processed successfully")
     end)
    (λ error, ret (sendSuccess None "Webhook received")).

(** A field of [req.body] that the handler expects to be a number. *)
Inductive BodyNumber :=
| Undefined
| NotNumber
| Number (z : Z).

(** [POST /payments/create-order]. A field that must be a string is
    [None] when it is missing or of another type; a number in the body
    is taken to be an integer and reaches the service as the binary64
    number it denotes. *)
Definition createOrder (env : Env) (gateway : Outcome GatewayOrder)
    (user : option JwtPayload) (dealId : string) (amount : BodyNumber)
    (description phone : option string)
    : Store → Response JsValue * Store :=
  asyncHandler pf
    (match user with
     | None => throw (mkAppError UnauthorizedError "Not authenticated")
     | Some user =>
         if negb (isValidUUID dealId)
         then throw (mkAppError BadRequestError "Invalid deal ID")
         else
           match amount with
           | Undefined | NotNumber =>
               throw (mkAppError BadRequestError "Invalid amount")
           | Number amount =>
               if amount <=? 0
               then throw (mkAppError BadRequestError "Invalid amount")
               else
                 match phone with
                 | None | Some EmptyString =>
                     throw (mkAppError BadRequestError "Phone number is required")
                 | Some phone =>
                     try_catch
                       (let* order := PaymentService.createPaymentOrder pf env gateway
                          {| PaymentService.cpo_dealId := dealId;
                             PaymentService.cpo_amount := JsNumber.of_Z amount;
                             PaymentService.cpo_description :=
                               match description with
                               | None | Some EmptyString =>
                                   "Platform success fee for rental agreement"
                               | Some d => d
                               end;
                             PaymentService.cpo_payerId := userId user;
                             PaymentService.cpo_email := email user;
                             PaymentService.cpo_phone := phone;
                             PaymentService.cpo_userName := email user |} in
                        ret (sendSuccess
                               (Some (sanitizeData true (jsOrderResponse order)))
                               "Payment order created successfully"))
                       (λ error,
                          let m := exn_message error in
                          if includes "Deal not found" m
                          then throw (AppError NotFoundError "Deal not found"
                                        "DEAL_NOT_FOUND")
                          else if includes "Payment already completed" m
                          then throw (mkAppError BadRequestError
                                        "Payment already completed for this deal")
                          else if includes "must be completed" m
                          then throw (mkAppError BadRequestError
                                        "Deal must be completed before processing payment")
                          else throw (mkAppError BadRequestError m))
                 end
           end
     end).

(** [POST /payments/verify] *)
Definition verifyPayment (env : Env) (user : option JwtPayload)
    (razorpayOrderId razorpayPaymentId razorpaySignature : option string)
    (dealId : string) : Store → Response JsValue * Store :=
  asyncHandler pf
    (match user with
     | None => throw (mkAppError UnauthorizedError "Not authenticated")
     | Some _ =>
         match razorpayOrderId with
         | None | Some EmptyString =>
             throw (mkAppError BadRequestError "Invalid order ID")
         | Some razorpayOrderId =>
             match razorpayPaymentId with
             | None | Some EmptyString =>
                 throw (mkAppError BadRequestError "Invalid payment ID")
             | Some razorpayPaymentId =>
                 match razorpaySignature with
                 | None | Some EmptyString =>
                     throw (mkAppError BadRequestError "Invalid signature")
                 | Some razorpaySignature =>
                     if negb (isValidUUID dealId)
                     then throw (mkAppError BadRequestError "Invalid deal ID")
                     else
                       try_catch
                         (let* payment := PaymentService.verifyPayment pf env
                            {| PaymentService.razorpayOrderId := razorpayOrderId;
                               PaymentService.razorpayPaymentId := razorpayPaymentId;
                               PaymentService.razorpaySignature := razorpaySignature;
                               PaymentService.dealId := dealId |} in
                          ret (sendSuccess
                                 (Some (sanitizeData true
                                          (jsPaymentRow payment.1 payment.2)))
                                 "Payment verified and completed successfully"))
                         (λ error,
                            let m := exn_message error in
                            if includes "not found" m
                            then throw (mkAppError NotFoundError "Payment not found")
                            else if includes "Invalid payment signature" m
                            then throw (mkAppError BadRequestError
                                          "Payment verification failed: Invalid signature")
                            else if includes "mismatch" m
                            then throw (mkAppError BadRequestError "Order ID mismatch")
                            else throw (mkAppError BadRequestError m))
                 end
             end
         end
     end).

(** [POST /payments/:dealId/refund] *)
Definition refundPayment (env : Env) (gateway : Outcome GatewayRefund)
    (user : option JwtPayload) (dealId : string) (reason : option string)
    : Store → Response JsValue * Store :=
  asyncHandler pf
    (match user with
     | None => throw (mkAppError UnauthorizedError "Not authenticated")
     | Some user =>
         if negb (String.eqb (role user) "SUPER_ADMIN")
         then throw (mkAppError ForbiddenError "Only admins can process refunds")
         else if negb (isValidUUID dealId)
         then throw (mkAppError BadRequestError "Invalid deal ID")
         else
           try_catch
             (let* refund := PaymentService.refundPayment env gateway dealId reason in
              ret (sendSuccess (Some (sanitizeData true (jsRefund refund)))
                     "Refund initiated successfully"))
             (λ error,
                let m := exn_message error in
                if includes "not found" m
                then throw (mkAppError NotFoundError "Payment not found")
                else if includes "only refund completed" m
                then throw (mkAppError BadRequestError
                              "Can only refund completed payments")
                else throw (mkAppError BadRequestError m))
     end).

End WithPlatform.
End PaymentController.

(** ** [src/controllers/deal.controller.ts] *)

Module DealController.

Section WithPlatform.
Context (pf : Platform).

(** The [catch] block shared by the two confirmation handlers. *)
Definition confirmError {A} (error : Exn) : M A :=
  let m := exn_message error in
  if includes "not found" m
  then throw (AppError NotFoundError "Conversation not found"
                "CONVERSATION_NOT_FOUND")
  else if includes "permission" m || includes "access" m
  then throw (AppError ForbiddenError
                "You do not have permission to confirm this deal"
                "DEAL_ACCESS_DENIED")
  else throw (mkAppError BadRequestError m).

Definition isCompleted (deal : option Deal.t) : bool :=
  match deal with
  | Some d => bool_decide (Deal.status d = DEAL_COMPLETED)
  | None => false
  end.

(** [POST /deals/:conversationId/owner-confirm]. A number in the body is
    taken to be an integer. *)
Definition ownerConfirm (env : Env) (user : option PaymentController.JwtPayload)
    (conversationId : string) (agreedRent : PaymentController.BodyNumber)
    : Store → Response JsValue * Store :=
  asyncHandler pf
    (match user with
     | None => throw (mkAppError UnauthorizedError "Not authenticated")
     | Some user =>
         if negb (String.eqb (PaymentController.role user) "OWNER")
         then throw (mkAppError ForbiddenError "Only owners can confirm deals")
         else if negb (isValidUUID conversationId)
         then throw (mkAppError BadRequestError "Invalid conversation ID format")
         else
           let confirm (rent : option Z) : M (Response JsValue) :=
             try_catch
               (let* deal := DealService.ownerConfirmDeal env conversationId
                               (PaymentController.userId user) rent in
                ret (sendSuccess (Some (sanitizeData true (nullable jsDeal deal)))
                       (if isCompleted deal
                        then "Deal completed! Both parties have confirmed."
                        else "Deal confirmed. Waiting for tenant confirmation.")))
               confirmError in
           match agreedRent with
           | PaymentController.Undefined => confirm None
           | PaymentController.NotNumber =>
               throw (mkAppError BadRequestError "Invalid agreed rent amount")
           | PaymentController.Number z =>
               if negb (isValidRentAmount z)
               then throw (mkAppError BadRequestError "Invalid agreed rent amount")
               else confirm (Some z)
           end
     end).

(** [POST /deals/:conversationId/tenant-confirm] *)
Definition tenantConfirm (env : Env) (user : option PaymentController.JwtPayload)
    (conversationId : string) : Store → Response JsValue * Store :=
  asyncHandler pf
    (match user with
     | None => throw (mkAppError UnauthorizedError "Not authenticated")
     | Some user =>
         if negb (String.eqb (PaymentController.role user) "TENANT")
         then throw (mkAppError ForbiddenError "Only tenants can confirm deals")
         else if negb (isValidUUID conversationId)
         then throw (mkAppError BadRequestError "Invalid conversation ID format")
         else
           try_catch
             (let* deal := DealService.tenantConfirmDeal env conversationId
                             (PaymentController.userId user) in
              ret (sendSuccess (Some (sanitizeData true (nullable jsDeal deal)))
                     (if isCompleted deal
                      then "Deal completed! Both parties have confirmed."
                      else "Deal confirmed. Waiting for owner confirmation.")))
             confirmError
     end).

(** [GET /deals/conversation/:conversationId] *)
Definition getDealByConversation (user : option PaymentController.JwtPayload)
    (conversationId : string)
    : Store → Response JsValue * Store :=
  asyncHandler pf
    (match user with
     | None => throw (mkAppError UnauthorizedError "Not authenticated")
     | Some user =>
         if negb (isValidUUID conversationId)
         then throw (mkAppError BadRequestError "Invalid conversation ID format")
         else
           try_catch
             (let* deal := DealService.getDealByConversation conversationId
                             (PaymentController.userId user) in
              ret (sendSuccess
                     (Some match deal with
                           | Some (id, deal) => sanitizeData true (jsDealRow id deal)
                           | None => JsNull
                           end) ""))
             (λ error,
                if includes "access" (exn_message error)
                then throw (AppError ForbiddenError
                              "You do not have access to this deal"
                              "DEAL_ACCESS_DENIED")
                else throw error)
     end).

(** [POST /deals/:id/cancel] *)
Definition cancelDeal (user : option PaymentController.JwtPayload) (id : string)
    : Store → Response JsValue * Store :=
  asyncHandler pf
    (match user with
     | None => throw (mkAppError UnauthorizedError "Not authenticated")
     | Some user =>
         if negb (isValidUUID id)
         then throw (mkAppError BadRequestError "Invalid deal ID format")
         else
           try_catch
             (DealService.cancelDeal id (PaymentController.userId user) ;;
              ret (sendSuccess None "Deal cancelled"))
             (λ error,
                let m := exn_message error in
                if includes "not found" m
                then throw (AppError NotFoundError "Deal not found" "DEAL_NOT_FOUND")
                else if includes "permission" m || includes "access" m
                then throw (AppError ForbiddenError
                              "You do not have permission to cancel this deal"
                              "DEAL_ACCESS_DENIED")
                else if includes "status" m || includes "completed" m
                then throw (AppError BadRequestError
                              "Cannot cancel a completed deal"
                              "INVALID_DEAL_STATUS")
                else throw error)
     end).

End WithPlatform.
End DealController.

(** ** Requests to the deal service, served one after the other *)

Inductive DealRequest :=
| OwnerConfirm (conversationId ownerId : string) (agreedRent : option Z)
| TenantConfirm (conversationId tenantId : string)
| Cancel (dealId userId : string)
| GetOrCreate (conversationId userId : string) (agreedRent : Z).

(** The store a request leaves behind, whether it returned or threw. *)
Definition serve (env : Env) (r : DealRequest) (s : Store) : Store :=
  match r with
  | OwnerConfirm c o rent => (DealService.ownerConfirmDeal env c o rent s).2
  | TenantConfirm c t => (DealService.tenantConfirmDeal env c t s).2
  | Cancel d u => (DealService.cancelDeal d u s).2
  | GetOrCreate c u rent => (DealService.getOrCreateDeal env c u rent s).2
  end.

Definition serveAll (rs : list (Env * DealRequest)) (s : Store) : Store :=
  fold_left (λ s er, serve er.1 er.2 s) rs s.

(** What one request does to one deal row. *)
Definition completed (env : Env) (d : Deal.t) : Deal.t :=
  Deal.set_successFeeAmount (Some (Config.calculateSuccessFee (Deal.agreedRent d)))
    (Deal.set_completedAt (Some (now env)) (Deal.set_status DEAL_COMPLETED d)).

Definition afterConfirm (env : Env) (d : Deal.t) : Deal.t :=
  if Deal.ownerConfirmed d && Deal.tenantConfirmed d then completed env d else d.

Definition ownerConfirms (env : Env) (rentAmount : Z) (d : Deal.t) : Deal.t :=
  afterConfirm env
    (Deal.set_status
       (if Deal.tenantConfirmed d then DEAL_COMPLETED else PENDING_TENANT)
       (Deal.set_agreedRent rentAmount
          (Deal.set_ownerConfirmedAt (Some (now env))
             (Deal.set_ownerConfirmed true d)))).

Definition tenantConfirms (env : Env) (d : Deal.t) : Deal.t :=
  afterConfirm env
    (Deal.set_status
       (if Deal.ownerConfirmed d then DEAL_COMPLETED else PENDING_OWNER)
       (Deal.set_tenantConfirmedAt (Some (now env))
          (Deal.set_tenantConfirmed true d))).

Definition cancels (d : Deal.t) : Deal.t := Deal.set_status DEAL_CANCELLED d.

(** The row a request writes over an existing row [d]; [rentAmount] is the
    value of [agreedRent || conversation.property.rentAmount]. *)
Definition rowAfter (env : Env) (r : DealRequest) (rentAmount : Z)
    (d : Deal.t) : Deal.t :=
  match r with
  | OwnerConfirm _ _ _ => ownerConfirms env rentAmount d
  | TenantConfirm _ _ => tenantConfirms env d
  | Cancel _ _ => cancels d
  | GetOrCreate _ _ _ => d
  end.

(** The rows a request can insert. *)
Definition rowCreated (env : Env) (r : DealRequest) (d : Deal.t) : Prop :=
  ∃ c p o t rent,
    match r with
    | OwnerConfirm _ _ _ =>
        d = Deal.set_ownerConfirmedAt (Some (now env))
              (Deal.set_ownerConfirmed true (Deal.create c p o t rent PENDING_TENANT))
    | TenantConfirm _ _ =>
        d = Deal.set_tenantConfirmedAt (Some (now env))
              (Deal.set_tenantConfirmed true (Deal.create c p o t rent PENDING_OWNER))
    | Cancel _ _ => False
    | GetOrCreate _ _ _ => d = Deal.create c p o t rent PENDING_BOTH
    end.

(** [status] agrees with the two confirmation flags. *)
Definition consistent (d : Deal.t) : Prop :=
  Deal.status d = DEAL_COMPLETED
  ↔ Deal.ownerConfirmed d = true ∧ Deal.tenantConfirmed d = true.

(** The fee is there exactly on completed deals, and is the slab of the
    rent the row holds. *)
Definition feeDerived (d : Deal.t) : Prop :=
  Deal.successFeeAmount d =
    if decide (Deal.status d = DEAL_COMPLETED)
    then Some (Config.calculateSuccessFee (Deal.agreedRent d))
    else None.

Definition allDeals (P : Deal.t → Prop) (s : Store) : Prop :=
  map_Forall (λ _ d, P d) (deals s).

#[global] Instance consistent_dec d : Decision (consistent d).
Proof. unfold consistent. apply _. Defined.

#[global] Instance feeDerived_dec d : Decision (feeDerived d).
Proof. unfold feeDerived. apply _. Defined.

(** A conversation between an owner and a tenant about a listed flat,
    before any deal exists. *)
Module Sample.

Definition store : Store :=
  {| users := {[ "owner-1" := User.mk "Asha" "Rao" "asha@example.com";
                 "tenant-1" := User.mk "Ravi" "Nair" "ravi@example.com" ]};
     properties := {[ "prop-1" := Property.mk "2BHK in Baner" 9000 ACTIVE ]};
     conversations := {[ "conv-1" := Conversation.mk "prop-1" "owner-1" "tenant-1" ]};
     deals := ∅; payments := ∅; paymentLogs := []; outbox := [];
     gatewayCalls := [] |}.

Definition at_ (t : Z) (id : string) : Env := {| now := t; newId := id |}.

(** Both parties confirm at a rent of 9000. *)
Definition bothConfirm : list (Env * DealRequest) :=
  [ (at_ 1 "deal-1", OwnerConfirm "conv-1" "owner-1" (Some 9000));
    (at_ 2 "deal-2", TenantConfirm "conv-1" "tenant-1") ].

(** The owner confirms and then cancels. *)
Definition confirmThenCancel : list (Env * DealRequest) :=
  [ (at_ 1 "deal-1", OwnerConfirm "conv-1" "owner-1" (Some 9000));
    (at_ 2 "deal-2", Cancel "deal-1" "owner-1") ].

(** The deal row after [confirmThenCancel]. *)
Definition cancelledDeal : Deal.t :=
  {| Deal.conversationId := "conv-1"; Deal.propertyId := "prop-1";
     Deal.ownerId := "owner-1"; Deal.tenantId := "tenant-1";
     Deal.agreedRent := 9000; Deal.ownerConfirmed := true;
     Deal.ownerConfirmedAt := Some 1; Deal.tenantConfirmed := false;
     Deal.tenantConfirmedAt := None; Deal.status := DEAL_CANCELLED;
     Deal.successFeeAmount := None; Deal.completedAt := None;
     Deal.paymentStatus := UNPAID; Deal.paymentId := None |}.

End Sample.

(** ** Requests to the payment service *)

Inductive PaymentRequest :=
| CreateOrder (gateway : Outcome GatewayOrder)
    (data : PaymentService.CreatePaymentOrderDto)
| Verify (data : PaymentService.VerifyPaymentDto)
| Webhook (webhookData : PaymentWebhookData) (webhookSignature : string)
| GetDetails (dealId : string)
| Refund (gateway : Outcome GatewayRefund) (dealId : string)
    (reason : option string).

Definition servePayment (pf : Platform) (env : Env) (r : PaymentRequest)
    (s : Store) : Store :=
  match r with
  | CreateOrder gateway data => (PaymentService.createPaymentOrder pf env gateway data s).2
  | Verify data => (PaymentService.verifyPayment pf env data s).2
  | Webhook data signature => (PaymentService.handleWebhook pf env data signature s).2
  | GetDetails dealId => (PaymentService.getPaymentDetails dealId s).2
  | Refund gateway dealId reason => (PaymentService.refundPayment env gateway dealId reason s).2
  end.

(** The log row [paymentLog_create] appends. *)
Definition logRow (env : Env) (paymentId event : string) (status : LogStatus)
    (razorpayData : option RazorpayData) (errorMessage : option string)
    : PaymentLog.t :=
  {| PaymentLog.paymentId := paymentId; PaymentLog.event := event;
     PaymentLog.status := status; PaymentLog.razorpayData := razorpayData;
     PaymentLog.errorMessage := errorMessage;
     PaymentLog.createdAt := now env |}.

(** A deployment with a toy keyed hash, and the sample deal completed and
    its payment order created. *)
Module SamplePayment.

Definition platform : Platform :=
  {| hmac_sha256_hex := λ key body, (key ++ "/" ++ body)%string;
     JSON_stringify := λ d, event d;
     keySecret := "key-secret";
     webhookSecret := "webhook-secret";
     isProduction := true;
     paymentStatusDefault := PENDING |}.

Definition order : GatewayOrder :=
  {| order_id := "order_1"; order_currency := "INR";
     order_customer_id := None; order_receipt := "deal_deal-1_3" |}.

Definition orderRequest : PaymentService.CreatePaymentOrderDto :=
  {| PaymentService.cpo_dealId := "deal-1";
     PaymentService.cpo_amount := JsNumber.of_Z 299;
     PaymentService.cpo_description := "Platform success fee for rental agreement";
     PaymentService.cpo_payerId := "tenant-1";
     PaymentService.cpo_email := "ravi@example.com";
     PaymentService.cpo_phone := "9999999999";
     PaymentService.cpo_userName := "ravi@example.com" |}.

(** The deal is COMPLETED and its payment row exists; it is re-ordered
    once, so that its status is INITIATED. *)
Definition initiated : Store :=
  servePayment platform (Sample.at_ 4 "pay-2") (CreateOrder (Ok order) orderRequest)
    (servePayment platform (Sample.at_ 3 "pay-1") (CreateOrder (Ok order) orderRequest)
       (serveAll Sample.bothConfirm Sample.store)).

Definition verification (paymentId signature : string)
    : PaymentService.VerifyPaymentDto :=
  {| PaymentService.razorpayOrderId := "order_1";
     PaymentService.razorpayPaymentId := paymentId;
     PaymentService.razorpaySignature := signature;
     PaymentService.dealId := "deal-1" |}.

(** The client's verification with the right signature has completed the
    payment. *)
Definition paid : Store :=
  servePayment platform (Sample.at_ 5 "pay-3")
    (Verify (verification "pay_1" "key-secret/order_1|pay_1")) initiated.

Definition user : PaymentController.JwtPayload :=
  {| PaymentController.userId := "tenant-1";
     PaymentController.email := "ravi@example.com";
     PaymentController.role := "TENANT" |}.

End SamplePayment.

(** Which existing row a request addresses. *)
Definition addresses (r : DealRequest) (id : string) (d : Deal.t) : Prop :=
  match r with
  | OwnerConfirm c _ _ | TenantConfirm c _ => Deal.conversationId d = c
  | Cancel id' u =>
      id' = id ∧ Deal.status d ≠ DEAL_COMPLETED
      ∧ (Deal.ownerId d = u ∨ Deal.tenantId d = u)
  | GetOrCreate _ _ _ => False
  end.

(** A truthy [agreedRent] is the rent an owner confirmation writes. *)
Definition rentWritten (r : DealRequest) (rentAmount : Z) : Prop :=
  match r with
  | OwnerConfirm _ _ (Some x) => x ≠ 0 → rentAmount = x
  | _ => True
  end.

Definition dealsEffect (env : Env) (r : DealRequest) (s s' : Store) : Prop :=
  deals s' = deals s
  ∨ (∃ d, deals s !! newId env = None ∧ rowCreated env r d
          ∧ deals s' = <[newId env := d]> (deals s))
  ∨ (∃ id d rentAmount,
       deals s !! id = Some d ∧ addresses r id d ∧ rentWritten r rentAmount
       ∧ deals s' = <[id := rowAfter env r rentAmount d]> (deals s)).

(** What a payment request can write into a payment row. *)
Definition statusWritten (pf : Platform) (r : PaymentRequest)
    (st : PaymentStatus) : Prop :=
  match r with
  | CreateOrder _ _ => st = INITIATED ∨ st = paymentStatusDefault pf
  | Verify _ => st = COMPLETED
  | Webhook data signature =>
      signature = hmac_sha256_hex pf (webhookSecret pf) (JSON_stringify pf data)
      ∧ ((event data = "payment.completed" ∧ st = COMPLETED)
         ∨ (event data = "payment.failed" ∧ st = FAILED)
         ∨ (event data = "refund.completed" ∧ st = REFUNDED))
  | GetDetails _ | Refund _ _ _ => False
  end.

(** The deal service writes no payment row. *)
Definition keepsPayments {A} (c : M A) : Prop :=
  ∀ s, payments (c s).2 = payments s.

(** ** Notions used to state further properties *)

(** The mails [completeDeal] hands to the mailer: one to the owner and one
    to the tenant, for the parties whose user row exists. *)
Definition completionMails (s : Store) (d : Deal.t) (title : string)
    : list Email :=
  (match users s !! Deal.ownerId d with
   | Some o => [DealCompletedEmail (User.email o) (User.firstName o) title
                  (Deal.agreedRent d) "owner" (Deal.ownerId d)]
   | None => []
   end ++
   match users s !! Deal.tenantId d with
   | Some t => [DealCompletedEmail (User.email t) (User.firstName t) title
                  (Deal.agreedRent d) "tenant" (Deal.tenantId d)]
   | None => []
   end)%list.

(** ** Completion, creation and lookup in the deal service *)

Definition rented (p : Property.t) : Property.t :=
  {| Property.title := Property.title p;
     Property.rentAmount := Property.rentAmount p;
     Property.status := RENTED |}.

(** The row an owner's first confirmation inserts. *)
Definition ownerCreated (env : Env) (c : string) (cv : Conversation.t)
    (rentAmount : Z) : Deal.t :=
  Deal.set_ownerConfirmedAt (Some (now env))
    (Deal.set_ownerConfirmed true
       (Deal.create c (Conversation.propertyId cv) (Conversation.ownerId cv)
          (Conversation.tenantId cv) rentAmount PENDING_TENANT)).

(** [Math.round(amount * 100)] for the amount of an order request. *)
Definition amountInPaise (data : PaymentService.CreatePaymentOrderDto)
    : JsNumber.t :=
  JsNumber.Math_round
    (JsNumber.mul (PaymentService.cpo_amount data) (JsNumber.of_Z 100)).

(** The request [createPaymentOrder] sends to the gateway. *)
Definition orderCall (env : Env) (data : PaymentService.CreatePaymentOrderDto)
    (d : Deal.t) (tenant owner : User.t) : GatewayCall :=
  OrdersCreate (amountInPaise data) "INR"
    ("deal_" ++ PaymentService.cpo_dealId data ++ "_" ++ pretty (now env))%string
    (PaymentService.cpo_dealId data) (Deal.propertyId d)
    (DealService.fullName tenant) (DealService.fullName owner).

(** The payment row a first order creates, for an amount of [paise]. *)
Definition orderedPayment (pf : Platform)
    (data : PaymentService.CreatePaymentOrderDto) (order : GatewayOrder)
    (paise : Z) : Payment.t :=
  {| Payment.dealId := PaymentService.cpo_dealId data;
     Payment.payerId := PaymentService.cpo_payerId data;
     Payment.amount := paise;
     Payment.description := PaymentService.cpo_description data;
     Payment.razorpayOrderId := Some (order_id order);
     Payment.razorpayPaymentId := None;
     Payment.razorpaySignature := None;
     Payment.status := paymentStatusDefault pf;
     Payment.method := None;
     Payment.notes := Some {| userName := PaymentService.cpo_userName data;
                              email := PaymentService.cpo_email data;
                              phone := PaymentService.cpo_phone data |};
     Payment.completedAt := None;
     Payment.failedAt := None;
     Payment.refundedAt := None |}.

(** ** Creating a payment order *)

Definition orderResponse (data : PaymentService.CreatePaymentOrderDto)
    (order : GatewayOrder) : PaymentService.PaymentOrderResponse :=
  {| PaymentService.orderId := order_id order;
     PaymentService.amount := PaymentService.cpo_amount data;
     PaymentService.amountInPaise := amountInPaise data;
     PaymentService.currency := order_currency order;
     PaymentService.customerId := order_customer_id order;
     PaymentService.receipt := order_receipt order |}.

(** Whether the deal's payment, if any, is not yet COMPLETED. *)
Definition payable (found : option (string * Payment.t)) : Prop :=
  match found with
  | Some (_, p) => Payment.status p ≠ COMPLETED
  | None => True
  end.

(** The event names the webhook dispatches on. *)
Definition handledEvents : list string :=
  ["payment.authorized"; "payment.completed"; "payment.failed";
   "refund.completed"]%string.

(** ** A refund from request to webhook *)

Definition refundReason (reason : option string) : string :=
  match reason with
  | None | Some EmptyString => "Manual refund"
  | Some r => r
  end.

(** ASCII upper-casing, as [toUpperCase] acts on the characters a UUID
    can hold. *)
Definition upperAscii (c : ascii) : ascii :=
  let n := N_of_ascii c in
  if ((97 <=? n) && (n <=? 122))%N then ascii_of_N (n - 32) else c.

Definition upperString (s : string) : string :=
  string_of_list_ascii (map upperAscii (list_ascii_of_string s)).

(** ** What a response carries *)

(** A value with every [Date] in it replaced by the empty object. *)
Fixpoint withoutDates (v : JsValue) : JsValue :=
  match v with
  | JsDate _ => JsObject []
  | JsArray items => JsArray (map withoutDates items)
  | JsObject entries =>
      JsObject (map (λ kv, (kv.1, withoutDates kv.2)) entries)
  | JsUndefined | JsNull | JsBoolean _ | JsNum _ | JsString _ | JsText _ => v
  end.

(** Whether the value holds a [Date] at any depth. *)
Fixpoint holdsDate (v : JsValue) : bool :=
  match v with
  | JsDate _ => true
  | JsArray items => existsb holdsDate items
  | JsObject entries => existsb (λ kv, holdsDate kv.2) entries
  | JsUndefined | JsNull | JsBoolean _ | JsNum _ | JsString _ | JsText _ => false
  end.

(** Whether an object in the value, at any depth, has a key that
    satisfies [P]. *)
Fixpoint holdsKey (P : string → bool) (v : JsValue) : bool :=
  match v with
  | JsArray items => existsb (holdsKey P) items
  | JsObject entries => existsb (λ kv, P kv.1 || holdsKey P kv.2) entries
  | JsUndefined | JsNull | JsBoolean _ | JsNum _ | JsString _ | JsText _
  | JsDate _ => false
  end.

(** Whether no key of any object in the value is one [sanitizeData]
    drops. *)
Fixpoint plainKeys (v : JsValue) : bool :=
  match v with
  | JsArray items => forallb plainKeys items
  | JsObject entries =>
      forallb (λ kv, copiesKey true kv.1 && plainKeys kv.2) entries
  | JsUndefined | JsNull | JsBoolean _ | JsNum _ | JsString _ | JsText _
  | JsDate _ => true
  end.

(** * Properties *)

(** ** The monad and the queries *)

Lemma try_catch_rethrow {A} (c : M A) (s : Store) :
  try_catch c (λ error, throw error) s = c s.
Proof. unfold try_catch, throw. by destruct (c s) as [[a|e] s']. Qed.

Lemma findDealByConversation_Some c ds id d :
  findDealByConversation c ds = Some (id, d) →
  ds !! id = Some d ∧ Deal.conversationId d = c.
Proof.
  unfold findDealByConversation. intros H.
  apply fmap_Some in H as ([i [k x]] & Hfind & Heq). simpl in Heq.
  inversion Heq; subst k x. apply list_find_Some in Hfind as (Hl & Hc & _).
  split; [|exact Hc].
  apply elem_of_map_to_list. eapply list_elem_of_lookup_2. exact Hl.
Qed.

Lemma findPaymentBy_Some (P : Payment.t → Prop) `{∀ p, Decision (P p)} ps id p :
  findPaymentBy P ps = Some (id, p) → ps !! id = Some p ∧ P p.
Proof.
  unfold findPaymentBy. intros Hf.
  apply fmap_Some in Hf as ([i [k x]] & Hfind & Heq). simpl in Heq.
  inversion Heq; subst k x. apply list_find_Some in Hfind as (Hl & Hc & _).
  split; [|exact Hc].
  apply elem_of_map_to_list. eapply list_elem_of_lookup_2. exact Hl.
Qed.

(** ** The deal service row by row *)

Ltac run :=
  unfold bind, gets, ret, throw, when, send, modify, try_catch,
    deal_update, deal_create, property_update in *; simpl in *.

Lemma completeDeal_deals env id s d :
  deals s !! id = Some d →
  deals (DealService.completeDeal env id s).2 = <[id := completed env d]> (deals s).
Proof.
  intros Hd. unfold DealService.completeDeal. run. rewrite Hd. simpl.
  rewrite Hd. simpl.
  destruct (properties s !! Deal.propertyId d); simpl; [|done].
  destruct (users s !! Deal.ownerId d), (users s !! Deal.tenantId d); done.
Qed.

Lemma completeDeal_run env id s d p :
  deals s !! id = Some d →
  properties s !! Deal.propertyId d = Some p →
  DealService.completeDeal env id s
  = (Ok d,
     set_outbox (λ o, (o ++ completionMails s d (Property.title p))%list)
       (set_properties (insert (Deal.propertyId d) (rented p))
          (set_deals (insert id (completed env d)) s))).
Proof.
  intros Hd Hp. unfold DealService.completeDeal, completionMails. run.
  rewrite Hd. simpl. rewrite Hp, Hd. simpl. rewrite Hp. simpl.
  destruct (users s !! Deal.ownerId d), (users s !! Deal.tenantId d); simpl;
    unfold set_outbox; simpl; rewrite <- ?app_assoc, ?app_nil_r; done.
Qed.

Lemma confirm_then_complete_run env id d1 s :
  deals s !! id = Some d1 →
  let r := (when (Deal.ownerConfirmed d1 && Deal.tenantConfirmed d1)
              (DealService.completeDeal env id ;; ret tt) ;;
            DealService.getDealWithDetails id) s in
  deals r.2 = <[id := afterConfirm env d1]> (deals s)
  ∧ ∀ x, r.1 = Ok x → x = Some (afterConfirm env d1).
Proof.
  intros Hd. unfold afterConfirm, when.
  destruct (Deal.ownerConfirmed d1 && Deal.tenantConfirmed d1).
  - pose proof (completeDeal_deals env id s d1 Hd) as Hc.
    unfold bind at 1 2 3 4.
    destruct (DealService.completeDeal env id s) as [[a|e] s1];
      simpl in *; unfold DealService.getDealWithDetails, gets, ret; simpl;
      (split; [done|]); intros x [= <-]. rewrite Hc. apply lookup_insert_eq.
  - unfold bind, ret, DealService.getDealWithDetails, gets. simpl.
    rewrite insert_id by done. split; [done|]. by intros x [= <-].
Qed.

Lemma confirm_then_complete env id d1 s :
  deals s !! id = Some d1 →
  deals ((when (Deal.ownerConfirmed d1 && Deal.tenantConfirmed d1)
            (DealService.completeDeal env id ;; ret tt) ;;
          DealService.getDealWithDetails id) s).2
  = <[id := afterConfirm env d1]> (deals s).
Proof. intros Hd. apply (confirm_then_complete_run env id d1 s Hd). Qed.

Lemma js_or_rentAmount rent ci s :
  ∃ o, js_or rent (DealService.rentAmountOf ci) s = (o, s)
       ∧ ∀ r x, o = Ok r → rent = Some x → x ≠ 0 → r = x.
Proof.
  unfold js_or, DealService.rentAmountOf, DealService.propertyOf.
  destruct rent as [x|]; [destruct (x =? 0) eqn:Hx|].
  - destruct (DealService.property ci); run; eexists; (split; [done|]);
      intros ? ? _ [= <-]; lia.
  - run. eexists; split; [done|]. by intros ? ? [= <-] [= <-].
  - destruct (DealService.property ci); run; eexists; (split; [done|]); done.
Qed.

Lemma ownerConfirmDeal_effect env c o rent s :
  dealsEffect env (OwnerConfirm c o rent) s
    (DealService.ownerConfirmDeal env c o rent s).2.
Proof.
  unfold DealService.ownerConfirmDeal, DealService.findConversation.
  unfold bind at 1. unfold gets at 1.
  destruct (conversations s !! c) as [cv|]; [|by left].
  destruct (bool_decide _); [|by left].
  set (ci := DealService.includeRelations c cv s).
  unfold bind at 1.
  destruct (js_or_rentAmount rent ci s) as (o' & -> & Hrw).
  destruct o' as [r|e]; [|by left].
  assert (rentWritten (OwnerConfirm c o rent) r) as Hrw'.
  { simpl. destruct rent; [|done]. intros. by eapply Hrw. }
  simpl DealService.deal.
  destruct (findDealByConversation c (deals s)) as [[id d]|] eqn:Hfind.
  - apply findDealByConversation_Some in Hfind as [Hd Hc].
    right; right. exists id, d, r. split; [done|]. split; [done|].
    split; [done|].
    unfold bind at 1. unfold deal_update at 1. rewrite Hd.
    rewrite bool_decide_eq_false_2 by done.
    unfold bind at 1. unfold ret at 1.
    match goal with |- context [set_deals ?f s] => set (s2 := set_deals f s) end.
    match goal with |- context [(id, ?x).2] => set (d1 := x) in * end.
    cbn [fst snd]. rewrite (confirm_then_complete env id d1 s2).
    + unfold s2. cbn [deals set_deals]. by rewrite insert_insert_eq.
    + unfold s2. cbn [deals set_deals]. apply lookup_insert_eq.
  - unfold bind at 1. unfold deal_create at 1.
    cbn [Deal.conversationId Deal.set_ownerConfirmedAt Deal.set_ownerConfirmed
         Deal.create]. rewrite Hfind.
    destruct (deals s !! newId env) eqn:Hnew; [by left|].
    right; left. eexists. split; [done|]. split.
    { eexists c, _, _, _, r. simpl. reflexivity. }
    rewrite bool_decide_eq_true_2 by done.
    destruct (DealService.tenant ci) as [[tid t]|];
      [destruct (DealService.owner ci) as [[oid ow]|]|];
      run; try done.
    unfold DealService.propertyOf.
    destruct (DealService.property ci); simpl; done.
Qed.

Lemma tenantConfirmDeal_effect env c t s :
  dealsEffect env (TenantConfirm c t) s
    (DealService.tenantConfirmDeal env c t s).2.
Proof.
  unfold DealService.tenantConfirmDeal, DealService.findConversation.
  unfold bind at 1. unfold gets at 1.
  destruct (conversations s !! c) as [cv|]; [|by left].
  destruct (bool_decide _); [|by left].
  set (ci := DealService.includeRelations c cv s).
  simpl DealService.deal.
  destruct (findDealByConversation c (deals s)) as [[id d]|] eqn:Hfind.
  - apply findDealByConversation_Some in Hfind as [Hd Hc].
    right; right. exists id, d, 0. split; [done|]. split; [done|].
    split; [done|].
    unfold bind at 1. unfold deal_update at 1. rewrite Hd.
    rewrite bool_decide_eq_false_2 by done.
    unfold bind at 1. unfold ret at 1.
    match goal with |- context [set_deals ?f s] => set (s2 := set_deals f s) end.
    match goal with |- context [(id, ?x).2] => set (d1 := x) in * end.
    cbn [fst snd]. rewrite (confirm_then_complete env id d1 s2).
    + unfold s2. cbn [deals set_deals]. by rewrite insert_insert_eq.
    + unfold s2. cbn [deals set_deals]. apply lookup_insert_eq.
  - unfold bind at 1 2.
    unfold DealService.rentAmountOf, DealService.propertyOf, bind at 1.
    destruct (DealService.property ci) as [p|] eqn:Hp; [|by left].
    unfold ret at 1 2. unfold deal_create at 1.
    cbn [Deal.conversationId Deal.set_tenantConfirmedAt Deal.set_tenantConfirmed
         Deal.create]. rewrite Hfind.
    destruct (deals s !! newId env) eqn:Hnew; [by left|].
    right; left. eexists. split; [done|]. split.
    { eexists c, _, _, _, _. simpl. reflexivity. }
    rewrite bool_decide_eq_true_2 by done.
    destruct (DealService.owner ci) as [[oid ow]|];
      [destruct (DealService.tenant ci) as [[tid tn]|]|];
      run; try done.
Qed.

Lemma cancelDeal_effect env id u s :
  dealsEffect env (Cancel id u) s (DealService.cancelDeal id u s).2.
Proof.
  unfold DealService.cancelDeal. unfold bind at 1. unfold gets at 1.
  destruct (deals s !! id) as [d|] eqn:Hd; [|by left].
  destruct (_ && _) eqn:Hok; [|by left].
  apply andb_true_iff in Hok as [Hu Hst].
  apply orb_true_iff in Hu. apply negb_true_iff, bool_decide_eq_false in Hst.
  right; right. exists id, d, 0. split; [done|]. split.
  { split; [done|]. split; [done|].
    destruct Hu as [Hu|Hu]; apply bool_decide_eq_true in Hu; auto. }
  split; [done|]. run. by rewrite Hd.
Qed.

Lemma getOrCreateDeal_effect env c u rent s :
  dealsEffect env (GetOrCreate c u rent) s
    (DealService.getOrCreateDeal env c u rent s).2.
Proof.
  unfold DealService.getOrCreateDeal, DealService.findConversation.
  unfold bind at 1. unfold gets at 1.
  destruct (conversations s !! c) as [cv|]; [|by left].
  destruct (_ || _); [|by left].
  set (ci := DealService.includeRelations c cv s).
  unfold bind at 1. unfold gets at 1.
  destruct (findDealByConversation c (deals s)) as [[id d]|] eqn:Hfind;
    [by left|].
  unfold bind at 1.
  destruct (js_or_rentAmount (Some rent) ci s) as (o' & -> & _).
  destruct o' as [r|e]; [|by left].
  unfold deal_create. cbn [Deal.conversationId Deal.create]. rewrite Hfind.
  destruct (deals s !! newId env) eqn:Hnew; [by left|].
  right; left. eexists. split; [done|]. split; [|done].
  eexists c, _, _, _, r. simpl. reflexivity.
Qed.

Lemma serve_effect env r s : dealsEffect env r s (serve env r s).
Proof.
  destruct r; simpl.
  - apply ownerConfirmDeal_effect.
  - apply tenantConfirmDeal_effect.
  - apply cancelDeal_effect.
  - apply getOrCreateDeal_effect.
Qed.

(** Every row of the table after a request is an untouched row, a row the
    request inserted, or the row the request wrote over an existing one. *)
Lemma serve_row env r s id d' :
  deals (serve env r s) !! id = Some d' →
  deals s !! id = Some d'
  ∨ (deals s !! id = None ∧ rowCreated env r d')
  ∨ (∃ d rentAmount, deals s !! id = Some d ∧ addresses r id d
       ∧ rentWritten r rentAmount ∧ d' = rowAfter env r rentAmount d).
Proof.
  intros Hd'.
  destruct (serve_effect env r s)
    as [Heq|[(d & Hnew & Hc & Heq)|(id0 & d & rent & Hd & Ha & Hr & Heq)]];
    rewrite Heq in Hd'.
  - by left.
  - destruct (decide (newId env = id)) as [<-|Hne].
    + rewrite lookup_insert_eq in Hd'. inversion Hd'; subst. right; left. done.
    + rewrite lookup_insert_ne in Hd' by done. by left.
  - destruct (decide (id0 = id)) as [<-|Hne].
    + rewrite lookup_insert_eq in Hd'. inversion Hd'; subst.
      right; right. by exists d, rent.
    + rewrite lookup_insert_ne in Hd' by done. by left.
Qed.

(** ** Invariants of a deal row *)

Lemma rowCreated_consistent env r d : rowCreated env r d → consistent d.
Proof.
  intros (c & p & o & t & rent & H). unfold consistent.
  destruct r; try done; subst d; simpl; intuition congruence.
Qed.

Lemma rowAfter_consistent env r rent d :
  (match r with Cancel _ _ => Deal.status d ≠ DEAL_COMPLETED | _ => True end) →
  consistent d → consistent (rowAfter env r rent d).
Proof.
  unfold consistent. intros Hr Hd.
  destruct r; simpl; unfold ownerConfirms, tenantConfirms, afterConfirm, cancels;
    simpl; try done.
  - destruct (Deal.tenantConfirmed d) eqn:E; simpl; rewrite ?E; intuition congruence.
  - destruct (Deal.ownerConfirmed d) eqn:E; simpl; rewrite ?E; intuition congruence.
  - intuition congruence.
Qed.

Lemma rowCreated_feeDerived env r d : rowCreated env r d → feeDerived d.
Proof.
  intros (c & p & o & t & rent & H). unfold feeDerived.
  destruct r; try done; subst d; simpl; done.
Qed.

Lemma rowAfter_feeDerived env r rent d :
  (match r with Cancel _ _ => Deal.status d ≠ DEAL_COMPLETED | _ => True end) →
  consistent d → feeDerived d → feeDerived (rowAfter env r rent d).
Proof.
  unfold consistent, feeDerived. intros Hr Hc Hd.
  destruct r; simpl; unfold ownerConfirms, tenantConfirms, afterConfirm, cancels;
    simpl; try done.
  - destruct (Deal.tenantConfirmed d) eqn:Ht; simpl; [done|].
    rewrite Hd, ?Ht. destruct (decide (Deal.status d = DEAL_COMPLETED)) as [Hs|Hs]; [|done].
    apply Hc in Hs as [_ ?]. congruence.
  - destruct (Deal.ownerConfirmed d) eqn:Ho; simpl; [done|].
    rewrite Hd, ?Ho. destruct (decide (Deal.status d = DEAL_COMPLETED)) as [Hs|Hs]; [|done].
    apply Hc in Hs as [? _]. congruence.
  - rewrite Hd. by rewrite decide_False.
Qed.

Lemma addresses_cancel r id d :
  addresses r id d →
  match r with Cancel _ _ => Deal.status d ≠ DEAL_COMPLETED | _ => True end.
Proof. destruct r; simpl; try done. by intros (_ & ? & _). Qed.

Lemma serve_consistent env r s :
  allDeals consistent s → allDeals consistent (serve env r s).
Proof.
  intros Hs id d' Hd'.
  apply serve_row in Hd' as [H|[[_ H]|(d & rent & Hd & Ha & _ & ->)]].
  - by eapply Hs.
  - by eapply rowCreated_consistent.
  - apply rowAfter_consistent; [by eapply addresses_cancel|by eapply Hs].
Qed.

Lemma serve_feeDerived env r s :
  allDeals consistent s → allDeals feeDerived s →
  allDeals feeDerived (serve env r s).
Proof.
  intros Hc Hs id d' Hd'.
  apply serve_row in Hd' as [H|[[_ H]|(d & rent & Hd & Ha & _ & ->)]].
  - by eapply Hs.
  - by eapply rowCreated_feeDerived.
  - apply rowAfter_feeDerived;
      [by eapply addresses_cancel|by eapply Hc|by eapply Hs].
Qed.

Lemma serveAll_invariants rs s :
  allDeals consistent s → allDeals feeDerived s →
  allDeals consistent (serveAll rs s) ∧ allDeals feeDerived (serveAll rs s).
Proof.
  revert s. induction rs as [|[env r] rs IH]; intros s Hc Hf; [done|].
  simpl. apply IH; [by apply serve_consistent|by apply serve_feeDerived].
Qed.

(** ** Deal state machine *)

(** C1. For every deal, after any sequence of owner confirmations, tenant
    confirmations and cancellations (and get-or-create calls), served on a
    store whose deals agree with their flags, the status is COMPLETED if
    and only if both [ownerConfirmed] and [tenantConfirmed] are true. *)
Theorem completed_iff_both_confirmed (s : Store) (rs : list (Env * DealRequest)) :
  allDeals consistent s →
  ∀ id d, deals (serveAll rs s) !! id = Some d →
    Deal.status d = DEAL_COMPLETED
    ↔ Deal.ownerConfirmed d = true ∧ Deal.tenantConfirmed d = true.
Proof.
  intros Hs.
  assert (allDeals consistent (serveAll rs s)) as H; [|exact H].
  revert s Hs. induction rs as [|[env r] rs IH]; intros s Hs; [done|].
  simpl. apply IH. by apply serve_consistent.
Qed.

Lemma completed_iff_both_confirmed_witness :
  allDeals consistent Sample.store
  ∧ ∀ id d, deals (serveAll Sample.bothConfirm Sample.store) !! id = Some d →
      Deal.status d = DEAL_COMPLETED
      ↔ Deal.ownerConfirmed d = true ∧ Deal.tenantConfirmed d = true.
Proof.
  assert (allDeals consistent Sample.store) as H by (by vm_compute).
  split; [exact H|].
  exact (completed_iff_both_confirmed Sample.store Sample.bothConfirm H).
Defined.

(** C2. The success fee follows the flat slab schedule with strictly
    less-than boundaries (below 10000: 299; from 10000 and below 25000:
    499; from 25000: 999; in particular at 9999, 10000, 24999, 25000 and
    1000000), and [completeDeal] stores the slab fee of the deal's agreed
    rent in [successFeeAmount] when it sets the status to COMPLETED. *)
Theorem success_fee_slabs (env : Env) (s : Store) (id : string) (d : Deal.t) :
  deals s !! id = Some d →
  (∀ rent,
     (rent < 10000 → Config.calculateSuccessFee rent = 299)
     ∧ (10000 ≤ rent < 25000 → Config.calculateSuccessFee rent = 499)
     ∧ (25000 ≤ rent → Config.calculateSuccessFee rent = 999))
  ∧ Config.calculateSuccessFee 9999 = 299
  ∧ Config.calculateSuccessFee 10000 = 499
  ∧ Config.calculateSuccessFee 24999 = 499
  ∧ Config.calculateSuccessFee 25000 = 999
  ∧ Config.calculateSuccessFee 1000000 = 999
  ∧ deals (DealService.completeDeal env id s).2 !! id
    = Some (Deal.set_successFeeAmount
              (Some (Config.calculateSuccessFee (Deal.agreedRent d)))
              (Deal.set_completedAt (Some (now env))
                 (Deal.set_status DEAL_COMPLETED d))).
Proof.
  intros Hd. split; [|repeat (split; [reflexivity|])].
  - intros rent. unfold Config.calculateSuccessFee. simpl.
    destruct (rent <? 10000) eqn:H1; destruct (rent <? 25000) eqn:H2; lia.
  - rewrite (completeDeal_deals env id s d Hd). apply lookup_insert_eq.
Qed.

Lemma success_fee_slabs_witness :
  let s := serveAll Sample.confirmThenCancel Sample.store in
  deals s !! "deal-1" = Some Sample.cancelledDeal
  ∧ deals (DealService.completeDeal (Sample.at_ 3 "deal-3") "deal-1" s).2
      !! "deal-1"
    = Some (Deal.set_successFeeAmount (Some 299)
              (Deal.set_completedAt (Some 3)
                 (Deal.set_status DEAL_COMPLETED Sample.cancelledDeal))).
Proof.
  intros s.
  assert (deals s !! "deal-1" = Some Sample.cancelledDeal) as Hd
    by (vm_compute; reflexivity).
  split; [exact Hd|].
  exact (proj2 (proj2 (proj2 (proj2 (proj2 (proj2
    (success_fee_slabs (Sample.at_ 3 "deal-3") s "deal-1" _ Hd))))))).
Defined.

(** C3, as the code has it. The fee is unset until a deal enters
    COMPLETED and is assigned at that transition; [completeDeal] runs
    again on every later confirmation, so on a COMPLETED deal the fee is
    always the slab fee of the agreed rent the row holds. A COMPLETED deal
    stays COMPLETED; tenant confirmations, cancellations and get-or-create
    calls leave its fee and its rent as they were, and only an owner
    confirmation can replace them. *)
Theorem success_fee_follows_agreed_rent (s : Store) (rs : list (Env * DealRequest)) :
  allDeals consistent s → allDeals feeDerived s →
  let s' := serveAll rs s in
  (∀ id d, deals s' !! id = Some d →
     Deal.successFeeAmount d =
       if decide (Deal.status d = DEAL_COMPLETED)
       then Some (Config.calculateSuccessFee (Deal.agreedRent d)) else None)
  ∧ (∀ env r id d d',
       deals s' !! id = Some d → Deal.status d = DEAL_COMPLETED →
       deals (serve env r s') !! id = Some d' →
       Deal.status d' = DEAL_COMPLETED
       ∧ Deal.successFeeAmount d'
         = Some (Config.calculateSuccessFee (Deal.agreedRent d'))
       ∧ ((∀ c o rent, r ≠ OwnerConfirm c o rent) →
          Deal.agreedRent d' = Deal.agreedRent d
          ∧ Deal.successFeeAmount d' = Deal.successFeeAmount d)).
Proof.
  intros Hc Hf s'.
  destruct (serveAll_invariants rs s Hc Hf) as [Hc' Hf']. fold s' in Hc', Hf'.
  split; [exact Hf'|].
  intros env r id d d' Hd Hst Hd'.
  pose proof (Hc' id d Hd) as Hcd. pose proof (Hf' id d Hd) as Hfd.
  simpl in Hcd, Hfd. unfold feeDerived in Hfd. rewrite decide_True in Hfd by done.
  apply Hcd in Hst as Hflags. destruct Hflags as [Ho Ht].
  apply serve_row in Hd' as [H|[[H _]|(d0 & rent & Hd0 & Ha & _ & ->)]].
  - rewrite Hd in H. inversion H; subst d'. by rewrite Hfd.
  - congruence.
  - rewrite Hd in Hd0. inversion Hd0; subst d0.
    destruct r as [c0 o0 rent0| | |]; simpl in *;
      unfold ownerConfirms, tenantConfirms, afterConfirm, cancels; simpl;
      rewrite ?Ho, ?Ht; simpl.
    + split; [done|]. split; [done|]. intros Hne. by destruct (Hne c0 o0 rent0).
    + by rewrite Hfd.
    + by destruct Ha as (_ & ? & _).
    + done.
Qed.

Lemma success_fee_follows_agreed_rent_witness :
  allDeals consistent Sample.store ∧ allDeals feeDerived Sample.store
  ∧ ∀ id d, deals (serveAll Sample.bothConfirm Sample.store) !! id = Some d →
      Deal.successFeeAmount d =
        if decide (Deal.status d = DEAL_COMPLETED)
        then Some (Config.calculateSuccessFee (Deal.agreedRent d)) else None.
Proof.
  assert (allDeals consistent Sample.store) as Hc by (by vm_compute).
  assert (allDeals feeDerived Sample.store) as Hf by (by vm_compute).
  split; [exact Hc|]. split; [exact Hf|].
  exact (proj1 (success_fee_follows_agreed_rent Sample.store Sample.bothConfirm Hc Hf)).
Defined.

(** C3 as stated fails: on a deal completed at a rent of 9000 (fee 299), a
    repeated owner confirmation with a rent of 30000 leaves the deal
    COMPLETED and replaces the fee by 999. *)
Lemma success_fee_reassigned_on_reconfirm :
  let s := serveAll Sample.bothConfirm Sample.store in
  let s' := serve (Sample.at_ 3 "deal-3")
              (OwnerConfirm "conv-1" "owner-1" (Some 30000)) s in
  (Deal.status <$> deals s !! "deal-1") = Some DEAL_COMPLETED
  ∧ (Deal.successFeeAmount <$> deals s !! "deal-1") = Some (Some 299)
  ∧ (Deal.status <$> deals s' !! "deal-1") = Some DEAL_COMPLETED
  ∧ (Deal.successFeeAmount <$> deals s' !! "deal-1") = Some (Some 999)
  ∧ (Deal.successFeeAmount <$> deals s' !! "deal-1")
    ≠ (Deal.successFeeAmount <$> deals s !! "deal-1").
Proof. vm_compute. repeat split. congruence. Qed.

(** C4, as the code has it. [cancelDeal] throws on a COMPLETED deal and
    changes nothing; called by the deal's owner or tenant on a deal of any
    other status (PENDING_BOTH, PENDING_OWNER, PENDING_TENANT, and also
    CANCELLED) it returns and sets the status to CANCELLED. A COMPLETED
    deal stays COMPLETED under every request, so CANCELLED is unreachable
    from COMPLETED. A CANCELLED deal stays CANCELLED under cancellations
    and get-or-create calls; a confirmation changes its row only by the
    confirmation's own write, which replaces CANCELLED by PENDING_TENANT,
    PENDING_OWNER or COMPLETED. *)
Theorem cancel_semantics (s : Store) (id : string) (d : Deal.t) :
  deals s !! id = Some d → consistent d →
  (Deal.status d = DEAL_COMPLETED → ∀ u,
     DealService.cancelDeal id u s
     = (Throw (Error "Deal not found or cannot be cancelled"), s))
  ∧ (Deal.status d ≠ DEAL_COMPLETED → ∀ u,
       Deal.ownerId d = u ∨ Deal.tenantId d = u →
       DealService.cancelDeal id u s
       = (Ok "Deal cancelled",
          set_deals (insert id (Deal.set_status DEAL_CANCELLED d)) s))
  ∧ (∀ env r d', deals (serve env r s) !! id = Some d' →
       (Deal.status d = DEAL_COMPLETED → Deal.status d' = DEAL_COMPLETED)
       ∧ (Deal.status d = DEAL_CANCELLED →
          match r with
          | OwnerConfirm c _ _ =>
              d' = d
              ∨ (Deal.conversationId d = c
                 ∧ Deal.status d' = if Deal.tenantConfirmed d
                                    then DEAL_COMPLETED else PENDING_TENANT)
          | TenantConfirm c _ =>
              d' = d
              ∨ (Deal.conversationId d = c
                 ∧ Deal.status d' = if Deal.ownerConfirmed d
                                    then DEAL_COMPLETED else PENDING_OWNER)
          | Cancel _ _ | GetOrCreate _ _ _ => Deal.status d' = DEAL_CANCELLED
          end)).
Proof.
  intros Hd Hc. split; [|split].
  - intros Hst u. unfold DealService.cancelDeal. run. rewrite Hd.
    rewrite (bool_decide_eq_true_2 _ Hst). by rewrite andb_false_r.
  - intros Hst u Hu. unfold DealService.cancelDeal. run. rewrite Hd.
    rewrite (bool_decide_eq_false_2 _ Hst).
    replace (bool_decide (Deal.ownerId d = u) || bool_decide (Deal.tenantId d = u))
      with true.
    2:{ symmetry. apply orb_true_iff.
        destruct Hu as [Hu|Hu]; [left|right]; by apply bool_decide_eq_true. }
    simpl. by rewrite Hd.
  - intros env r d' Hd'.
    apply serve_row in Hd' as [H|[[H _]|(d0 & rent & Hd0 & Ha & _ & ->)]].
    + rewrite Hd in H. inversion H; subst d'. split; [done|].
      intros Hst. destruct r; auto.
    + congruence.
    + rewrite Hd in Hd0. inversion Hd0; subst d0. split.
      * intros Hst. apply Hc in Hst as Hflags. destruct Hflags as [Ho Ht].
        destruct r; simpl in *;
          unfold ownerConfirms, tenantConfirms, afterConfirm, cancels; simpl;
          rewrite ?Ho, ?Ht; simpl; try done.
        by destruct Ha as (_ & ? & _).
      * intros Hst. destruct r; simpl in *;
          unfold ownerConfirms, tenantConfirms, afterConfirm, cancels; simpl;
          try done.
        -- right. split; [done|].
           destruct (Deal.tenantConfirmed d) eqn:Ht; simpl; by rewrite ?Ht.
        -- right. split; [done|].
           destruct (Deal.ownerConfirmed d) eqn:Ho; simpl; by rewrite ?Ho.
Qed.

Lemma cancel_semantics_witness :
  let s := serveAll [ (Sample.at_ 1 "deal-1",
                       OwnerConfirm "conv-1" "owner-1" (Some 9000)) ]
             Sample.store in
  let d := Deal.set_status PENDING_TENANT Sample.cancelledDeal in
  deals s !! "deal-1" = Some d ∧ consistent d
  ∧ DealService.cancelDeal "deal-1" "tenant-1" s
    = (Ok "Deal cancelled",
       set_deals (insert "deal-1" (Deal.set_status DEAL_CANCELLED d)) s).
Proof.
  intros s d.
  assert (deals s !! "deal-1" = Some d) as Hd by (vm_compute; reflexivity).
  assert (consistent d) as Hc by (vm_compute; intuition congruence).
  split; [exact Hd|]. split; [exact Hc|].
  apply (proj1 (proj2 (cancel_semantics s "deal-1" d Hd Hc)));
    [vm_compute; congruence | right; reflexivity].
Defined.

(** C4 as stated fails: the deal that the owner confirmed and then
    cancelled is CANCELLED; a tenant confirmation moves it to COMPLETED,
    and a repeated owner confirmation moves it to PENDING_TENANT. *)
Lemma cancelled_deal_leaves_cancelled :
  let s := serveAll Sample.confirmThenCancel Sample.store in
  (Deal.status <$> deals s !! "deal-1") = Some DEAL_CANCELLED
  ∧ (Deal.status
       <$> deals (serve (Sample.at_ 3 "deal-3")
                    (TenantConfirm "conv-1" "tenant-1") s) !! "deal-1")
    = Some DEAL_COMPLETED
  ∧ (Deal.status
       <$> deals (serve (Sample.at_ 3 "deal-3")
                    (OwnerConfirm "conv-1" "owner-1" None) s) !! "deal-1")
    = Some PENDING_TENANT
  ∧ (Deal.status
       <$> deals (serve (Sample.at_ 3 "deal-3")
                    (OwnerConfirm "conv-1" "owner-1" None) s) !! "deal-1")
    ≠ Some DEAL_CANCELLED.
Proof. vm_compute. repeat split. congruence. Qed.

(** ** Falsy rent *)

Lemma afterConfirm_agreedRent env d :
  Deal.agreedRent (afterConfirm env d) = Deal.agreedRent d.
Proof. unfold afterConfirm. by destruct (_ && _). Qed.

Lemma ownerConfirmDeal_returns env c o rent s d :
  (DealService.ownerConfirmDeal env c o rent s).1 = Ok (Some d) →
  ∃ cv r,
    conversations s !! c = Some cv
    ∧ js_or rent (DealService.rentAmountOf (DealService.includeRelations c cv s)) s
      = (Ok r, s)
    ∧ Deal.agreedRent d = r.
Proof.
  unfold DealService.ownerConfirmDeal, DealService.findConversation.
  unfold bind at 1. unfold gets at 1.
  destruct (conversations s !! c) as [cv|]; [|done].
  destruct (bool_decide _); [|done].
  set (ci := DealService.includeRelations c cv s).
  unfold bind at 1.
  destruct (js_or_rentAmount rent ci s) as (o' & Hjs & _). rewrite Hjs.
  destruct o' as [r|e]; [|done].
  intros Hret. exists cv, r. split; [done|]. split; [done|].
  revert Hret. simpl DealService.deal.
  destruct (findDealByConversation c (deals s)) as [[id d0]|] eqn:Hfind.
  - apply findDealByConversation_Some in Hfind as [Hd Hc].
    unfold bind at 1. unfold deal_update at 1. rewrite Hd.
    rewrite bool_decide_eq_false_2 by done.
    unfold bind at 1. unfold ret at 1.
    match goal with |- context [set_deals ?f s] => set (s2 := set_deals f s) end.
    match goal with |- context [(id, ?x).2] => set (d1 := x) in * end.
    cbn [fst snd]. intros Hret.
    assert (deals s2 !! id = Some d1) as Hd1 by apply lookup_insert_eq.
    destruct (confirm_then_complete_run env id d1 s2 Hd1) as [_ Hx].
    apply Hx in Hret. inversion Hret. by rewrite afterConfirm_agreedRent.
  - unfold bind at 1. unfold deal_create at 1.
    cbn [Deal.conversationId Deal.set_ownerConfirmedAt Deal.set_ownerConfirmed
         Deal.create]. rewrite Hfind.
    destruct (deals s !! newId env) eqn:Hnew; [done|].
    rewrite bool_decide_eq_true_2 by done.
    destruct (DealService.tenant ci) as [[tid t]|];
      [destruct (DealService.owner ci) as [[oid ow]|]|].
    all: unfold DealService.propertyOf;
      try destruct (DealService.property ci); run;
      rewrite ?lookup_insert_eq; intros H; inversion H; done.
Qed.

Lemma getOrCreateDeal_returns env c u rent s id d :
  findDealByConversation c (deals s) = None →
  (DealService.getOrCreateDeal env c u rent s).1 = Ok (id, d) →
  ∃ cv r,
    conversations s !! c = Some cv
    ∧ js_or (Some rent)
        (DealService.rentAmountOf (DealService.includeRelations c cv s)) s
      = (Ok r, s)
    ∧ Deal.agreedRent d = r
    ∧ deals (DealService.getOrCreateDeal env c u rent s).2 !! id = Some d.
Proof.
  intros Hfind.
  destruct (DealService.getOrCreateDeal env c u rent s) as [res s'] eqn:Hrun.
  simpl. intros ->. revert Hrun.
  unfold DealService.getOrCreateDeal, DealService.findConversation.
  unfold bind at 1. unfold gets at 1.
  destruct (conversations s !! c) as [cv|]; [|done].
  destruct (_ || _); [|done].
  set (ci := DealService.includeRelations c cv s).
  unfold bind at 1. unfold gets at 1. rewrite Hfind.
  unfold bind at 1.
  destruct (js_or_rentAmount (Some rent) ci s) as (o' & Hjs & _). rewrite Hjs.
  destruct o' as [r|e]; [|done].
  unfold deal_create. cbn [Deal.conversationId Deal.create]. rewrite Hfind.
  destruct (deals s !! newId env) eqn:Hnew; [done|].
  intros [= <- <- <-]. exists cv, r. simpl. rewrite lookup_insert_eq. done.
Qed.

Lemma ownerConfirmDeal_stores_rent env c o rent s cv p :
  conversations s !! c = Some cv → Conversation.ownerId cv = o →
  properties s !! Conversation.propertyId cv = Some p →
  (findDealByConversation c (deals s) = None → deals s !! newId env = None) →
  (∀ id d0, findDealByConversation c (deals s) = Some (id, d0) →
     Deal.propertyId d0 = Conversation.propertyId cv) →
  let rentAmount := match rent with
                    | Some x => if x =? 0 then Property.rentAmount p else x
                    | None => Property.rentAmount p
                    end in
  ∃ id d s',
    DealService.ownerConfirmDeal env c o rent s = (Ok (Some d), s')
    ∧ deals s' !! id = Some d
    ∧ Deal.conversationId d = c
    ∧ Deal.ownerConfirmed d = true
    ∧ Deal.agreedRent d = rentAmount.
Proof.
  intros Hcv Ho Hp Hnew Hprop rentAmount.
  unfold DealService.ownerConfirmDeal, DealService.findConversation.
  unfold bind at 1. unfold gets at 1. rewrite Hcv.
  rewrite (bool_decide_eq_true_2 _ Ho).
  assert (js_or rent (DealService.rentAmountOf (DealService.includeRelations c cv s)) s
          = (Ok rentAmount, s)) as Hjs.
  { unfold js_or, DealService.rentAmountOf, DealService.propertyOf, rentAmount.
    simpl. rewrite Hp. destruct rent as [x|]; [destruct (x =? 0)|]; done. }
  unfold bind at 1. rewrite Hjs.
  simpl DealService.deal.
  destruct (findDealByConversation c (deals s)) as [[id d0]|] eqn:Hfind.
  - apply findDealByConversation_Some in Hfind as Hrow. destruct Hrow as [Hd Hc].
    set (d1 := Deal.set_status
                 (if Deal.tenantConfirmed d0 then DEAL_COMPLETED else PENDING_TENANT)
                 (Deal.set_agreedRent rentAmount
                    (Deal.set_ownerConfirmedAt (Some (now env))
                       (Deal.set_ownerConfirmed true d0)))).
    set (s2 := set_deals (insert id d1) s).
    assert (deals s2 !! id = Some d1) as Hd1 by apply lookup_insert_eq.
    exists id, (afterConfirm env d1).
    destruct (Deal.tenantConfirmed d0) eqn:Ht.
    + eexists. split.
      * unfold bind at 1. unfold deal_update at 1. rewrite Hd.
        rewrite bool_decide_eq_false_2 by done.
        unfold bind at 1. unfold ret at 1. cbn [fst snd].
        fold d1. fold s2.
        replace (Deal.ownerConfirmed d1 && Deal.tenantConfirmed d1) with true
          by (unfold d1; simpl; by rewrite Ht).
        unfold when. unfold bind at 1 2.
        rewrite (completeDeal_run env id s2 d1 p Hd1)
          by (unfold d1; simpl; by rewrite (Hprop id d0 eq_refl)).
        unfold ret, DealService.getDealWithDetails, gets. cbn [fst snd].
        cbn [deals set_outbox set_properties set_deals].
        rewrite lookup_insert_eq. unfold afterConfirm.
        replace (Deal.ownerConfirmed d1 && Deal.tenantConfirmed d1) with true
          by (unfold d1; simpl; by rewrite Ht).
        reflexivity.
      * cbn [deals set_outbox set_properties set_deals].
        rewrite lookup_insert_eq. unfold afterConfirm, d1. simpl. by rewrite Ht.
    + eexists. split.
      * unfold bind at 1. unfold deal_update at 1. rewrite Hd.
        rewrite bool_decide_eq_false_2 by done.
        unfold bind at 1. unfold ret at 1. cbn [fst snd].
        fold d1. fold s2.
        replace (Deal.ownerConfirmed d1 && Deal.tenantConfirmed d1) with false
          by (unfold d1; simpl; by rewrite Ht).
        unfold when, bind, ret, DealService.getDealWithDetails, gets.
        cbn [fst snd]. rewrite Hd1. unfold afterConfirm.
        replace (Deal.ownerConfirmed d1 && Deal.tenantConfirmed d1) with false
          by (unfold d1; simpl; by rewrite Ht).
        reflexivity.
      * rewrite Hd1. unfold afterConfirm, d1. simpl. by rewrite Ht.
  - specialize (Hnew eq_refl).
    exists (newId env), (ownerCreated env c cv rentAmount),
      (set_outbox
         (λ ob, (ob ++ match users s !! Conversation.tenantId cv,
                             users s !! Conversation.ownerId cv with
                       | Some t, Some ow =>
                           [DealCreatedEmail (User.email t) (User.firstName t)
                              (Property.title p) rentAmount
                              (DealService.fullName ow) "tenant"
                              (Conversation.tenantId cv)]
                       | _, _ => []
                       end)%list)
         (set_deals (insert (newId env) (ownerCreated env c cv rentAmount)) s)).
    split.
    + unfold bind at 1. unfold deal_create at 1.
      cbn [Deal.conversationId Deal.set_ownerConfirmedAt Deal.set_ownerConfirmed
           Deal.create]. rewrite Hfind, Hnew.
      rewrite bool_decide_eq_true_2 by done.
      unfold DealService.includeRelations, DealService.propertyOf. simpl.
      rewrite Hp.
      destruct (users s !! Conversation.tenantId cv) as [t|],
               (users s !! Conversation.ownerId cv) as [ow|]; simpl; run;
        unfold DealService.getDealWithDetails, gets; simpl;
        rewrite lookup_insert_eq; unfold set_outbox, set_deals; simpl;
        rewrite ?app_nil_r; done.
    + cbn [deals set_outbox set_deals]. rewrite lookup_insert_eq. done.
Qed.

(** C10. A supplied [agreedRent] of 0 is treated like an absent one. The
    owner confirmation with 0 is the owner confirmation without a rent,
    and the deal either method returns or creates holds the listed
    [rentAmount] of the conversation's property, not 0. For the owner of
    a conversation whose property exists the confirmation with 0 returns
    a deal, that deal is stored, and its [agreedRent] is the listed rent,
    whether the deal is created, updated or completed by the call; for a
    party of a conversation without a deal, get-or-create with 0 inserts
    a PENDING_BOTH deal at the listed rent. *)
Theorem zero_rent_falls_back_to_listed_rent (env : Env) (c u : string) (s : Store) :
  DealService.ownerConfirmDeal env c u (Some 0) s
  = DealService.ownerConfirmDeal env c u None s
  ∧ (∀ d, (DealService.ownerConfirmDeal env c u (Some 0) s).1 = Ok (Some d) →
       ∃ cv p, conversations s !! c = Some cv
               ∧ properties s !! Conversation.propertyId cv = Some p
               ∧ Deal.agreedRent d = Property.rentAmount p)
  ∧ (∀ id d, findDealByConversation c (deals s) = None →
       (DealService.getOrCreateDeal env c u 0 s).1 = Ok (id, d) →
       ∃ cv p, conversations s !! c = Some cv
               ∧ properties s !! Conversation.propertyId cv = Some p
               ∧ Deal.agreedRent d = Property.rentAmount p
               ∧ deals (DealService.getOrCreateDeal env c u 0 s).2 !! id = Some d)
  ∧ (∀ cv p,
       conversations s !! c = Some cv →
       properties s !! Conversation.propertyId cv = Some p →
       (findDealByConversation c (deals s) = None → deals s !! newId env = None) →
       (∀ id d0, findDealByConversation c (deals s) = Some (id, d0) →
          Deal.propertyId d0 = Conversation.propertyId cv) →
       (Conversation.ownerId cv = u →
        ∃ id d,
          (DealService.ownerConfirmDeal env c u (Some 0) s).1 = Ok (Some d)
          ∧ deals (DealService.ownerConfirmDeal env c u (Some 0) s).2 !! id
            = Some d
          ∧ Deal.conversationId d = c
          ∧ Deal.agreedRent d = Property.rentAmount p)
       ∧ (Conversation.ownerId cv = u ∨ Conversation.tenantId cv = u →
          findDealByConversation c (deals s) = None →
          let d := Deal.create c (Conversation.propertyId cv)
                     (Conversation.ownerId cv) (Conversation.tenantId cv)
                     (Property.rentAmount p) PENDING_BOTH in
          DealService.getOrCreateDeal env c u 0 s
          = (Ok (newId env, d), set_deals (insert (newId env) d) s))).
Proof.
  split; [reflexivity|]. split; [|split].
  - intros d Hret.
    apply ownerConfirmDeal_returns in Hret as (cv & r & Hcv & Hjs & Hr).
    exists cv. simpl in Hjs.
    unfold DealService.rentAmountOf, DealService.propertyOf in Hjs. run.
    destruct (properties s !! Conversation.propertyId cv) as [p|]; [|done].
    exists p. inversion Hjs. by subst.
  - intros id d Hnone Hret.
    apply getOrCreateDeal_returns in Hret as (cv & r & Hcv & Hjs & Hr & Hd);
      [|done].
    exists cv. simpl in Hjs.
    unfold DealService.rentAmountOf, DealService.propertyOf in Hjs. run.
    destruct (properties s !! Conversation.propertyId cv) as [p|]; [|done].
    exists p. inversion Hjs. by subst.
  - intros cv p Hcv Hp Hnew Hprop. split.
    + intros Ho.
      destruct (ownerConfirmDeal_stores_rent env c u (Some 0) s cv p
                  Hcv Ho Hp Hnew Hprop) as (id & d & s' & Hrun & Hd & Hc & _ & Hr).
      exists id, d. rewrite Hrun. done.
    + intros Hparty Hfind d.
      unfold DealService.getOrCreateDeal, DealService.findConversation.
      unfold bind at 1. unfold gets at 1. rewrite Hcv.
      assert (bool_decide (Conversation.ownerId cv = u)
              || bool_decide (Conversation.tenantId cv = u) = true) as ->.
      { destruct Hparty as [H|H]; rewrite (bool_decide_eq_true_2 _ H);
          [done|apply orb_true_r]. }
      unfold bind at 1. unfold gets at 1. rewrite Hfind.
      unfold js_or. cbn [Z.eqb].
      unfold DealService.rentAmountOf, DealService.propertyOf,
        DealService.includeRelations. cbn [DealService.property].
      rewrite Hp. unfold bind, ret, deal_create.
      cbn [Deal.conversationId Deal.create DealService.conv].
      by rewrite Hfind, (Hnew Hfind).
Qed.

(** In the sample store the owner confirms with a rent of 0: a deal is
    returned and stored, at the listed rent of 9000. *)
Lemma zero_rent_falls_back_to_listed_rent_witness :
  ∃ id d,
    (DealService.ownerConfirmDeal (Sample.at_ 1 "deal-1") "conv-1" "owner-1"
       (Some 0) Sample.store).1 = Ok (Some d)
    ∧ deals (DealService.ownerConfirmDeal (Sample.at_ 1 "deal-1") "conv-1"
               "owner-1" (Some 0) Sample.store).2 !! id = Some d
    ∧ Deal.conversationId d = "conv-1"%string
    ∧ Deal.agreedRent d = 9000.
Proof.
  apply (proj1 (proj2 (proj2 (proj2 (zero_rent_falls_back_to_listed_rent
                  (Sample.at_ 1 "deal-1") "conv-1" "owner-1" Sample.store)))
                  (Conversation.mk "prop-1" "owner-1" "tenant-1")
                  (Property.mk "2BHK in Baner" 9000 ACTIVE)
                  ltac:(vm_compute; reflexivity) ltac:(vm_compute; reflexivity)
                  ltac:(intros _; vm_compute; reflexivity)
                  ltac:(intros id d0 H; vm_compute in H; discriminate))).
  reflexivity.
Defined.

(** ** Payment reconciliation *)

Lemma verifyPayment_bad_signature_run pf env data s id p :
  findPaymentByDeal (PaymentService.dealId data) (payments s) = Some (id, p) →
  Payment.razorpayOrderId p = Some (PaymentService.razorpayOrderId data) →
  PaymentService.razorpaySignature data
  ≠ hmac_sha256_hex pf (keySecret pf)
      (PaymentService.razorpayOrderId data ++ "|"
       ++ PaymentService.razorpayPaymentId data)%string →
  PaymentService.verifyPayment pf env data s
  = (Throw (Error "Invalid payment signature"),
     set_paymentLogs (λ l, (l ++
       [logRow env id "SIGNATURE_VERIFICATION_FAILED" LOG_FAILED None
          (Some "Signature verification failed")])%list) s).
Proof.
  intros Hfind Horder Hsig.
  unfold PaymentService.verifyPayment. rewrite try_catch_rethrow.
  unfold bind at 1. unfold gets at 1. rewrite Hfind.
  rewrite (bool_decide_eq_true_2 _ Horder). simpl negb. cbv iota.
  assert (String.eqb
            (hmac_sha256_hex pf (keySecret pf)
               (PaymentService.razorpayOrderId data ++ "|"
                ++ PaymentService.razorpayPaymentId data)%string)
            (PaymentService.razorpaySignature data) = false) as ->.
  { apply String.eqb_neq. congruence. }
  reflexivity.
Qed.

Lemma verifyPayment_rejected_run (pf : Platform) (env : Env)
    (data : PaymentService.VerifyPaymentDto) (s : Store) :
  (findPaymentByDeal (PaymentService.dealId data) (payments s) = None →
     PaymentService.verifyPayment pf env data s
     = (Throw (Error "Payment record not found"), s))
  ∧ (∀ id p,
       findPaymentByDeal (PaymentService.dealId data) (payments s) = Some (id, p) →
       Payment.razorpayOrderId p ≠ Some (PaymentService.razorpayOrderId data) →
       PaymentService.verifyPayment pf env data s
       = (Throw (Error "Order ID mismatch"), s)).
Proof.
  split.
  - intros Hfind. unfold PaymentService.verifyPayment.
    rewrite try_catch_rethrow. unfold bind at 1. unfold gets at 1.
    by rewrite Hfind.
  - intros id p Hfind Hne. unfold PaymentService.verifyPayment.
    rewrite try_catch_rethrow. unfold bind at 1. unfold gets at 1.
    rewrite Hfind. by rewrite (bool_decide_eq_false_2 _ Hne).
Qed.

(** C5, as the code has it. A [verifyPayment] call whose signature
    differs from the HMAC-SHA256 of [orderId + "|" + paymentId] under the
    gateway key secret never writes a payment or a deal. When a payment
    row exists for the deal and holds the supplied order id, the call
    appends the log row (SIGNATURE_VERIFICATION_FAILED, FAILED) and then
    throws the invalid-signature error, and the log row is all it writes.
    When the deal has no payment row, or the row holds another order id,
    the call throws before it looks at the signature ("Payment record not
    found", "Order ID mismatch") and writes nothing, no log row either. *)
Theorem verifyPayment_rejects_bad_signature (pf : Platform) (env : Env)
    (data : PaymentService.VerifyPaymentDto) (s : Store) :
  PaymentService.razorpaySignature data
  ≠ hmac_sha256_hex pf (keySecret pf)
      (PaymentService.razorpayOrderId data ++ "|"
       ++ PaymentService.razorpayPaymentId data)%string →
  let out := PaymentService.verifyPayment pf env data s in
  payments out.2 = payments s
  ∧ deals out.2 = deals s
  ∧ match findPaymentByDeal (PaymentService.dealId data) (payments s) with
    | None => out = (Throw (Error "Payment record not found"), s)
    | Some (id, p) =>
        (Payment.razorpayOrderId p ≠ Some (PaymentService.razorpayOrderId data) →
         out = (Throw (Error "Order ID mismatch"), s))
        ∧ (Payment.razorpayOrderId p = Some (PaymentService.razorpayOrderId data) →
           out.1 = Throw (Error "Invalid payment signature")
           ∧ paymentLogs out.2
             = (paymentLogs s ++
                [logRow env id "SIGNATURE_VERIFICATION_FAILED" LOG_FAILED None
                   (Some "Signature verification failed")])%list
           ∧ out.2 = set_paymentLogs (λ _, paymentLogs out.2) s)
    end.
Proof.
  intros Hsig out. subst out.
  destruct (verifyPayment_rejected_run pf env data s) as [Hnone Hother].
  destruct (findPaymentByDeal (PaymentService.dealId data) (payments s))
    as [[id p]|] eqn:Hfind.
  - destruct (decide (Payment.razorpayOrderId p
                      = Some (PaymentService.razorpayOrderId data))) as [Ho|Ho].
    + rewrite (verifyPayment_bad_signature_run pf env data s id p Hfind Ho Hsig).
      repeat split; done.
    + rewrite (Hother id p eq_refl Ho). repeat split; done.
  - by rewrite (Hnone eq_refl).
Qed.

Lemma verifyPayment_rejects_bad_signature_witness :
  let out := PaymentService.verifyPayment SamplePayment.platform
               (Sample.at_ 5 "pay-3")
               (SamplePayment.verification "pay_1" "key-secret/order_1|pay_2")
               SamplePayment.initiated in
  payments out.2 = payments SamplePayment.initiated
  ∧ out.1 = Throw (Error "Invalid payment signature")
  ∧ length (paymentLogs out.2)
    = S (length (paymentLogs SamplePayment.initiated)).
Proof.
  intros out. subst out.
  set (data := SamplePayment.verification "pay_1" "key-secret/order_1|pay_2").
  assert (PaymentService.razorpaySignature data
          ≠ hmac_sha256_hex SamplePayment.platform
              (keySecret SamplePayment.platform)
              (PaymentService.razorpayOrderId data ++ "|"
               ++ PaymentService.razorpayPaymentId data)%string)
    as Hsig by (vm_compute; congruence).
  assert (∃ p, findPaymentByDeal (PaymentService.dealId data)
                 (payments SamplePayment.initiated) = Some ("pay-1"%string, p)
               ∧ Payment.razorpayOrderId p
                 = Some (PaymentService.razorpayOrderId data)) as Hrow
    by (eexists; split; vm_compute; reflexivity).
  generalize dependent SamplePayment.initiated. intros s (p & Hfind & Ho).
  destruct (verifyPayment_rejects_bad_signature SamplePayment.platform
              (Sample.at_ 5 "pay-3") data s Hsig) as (Hpay & _ & Hcase).
  rewrite Hfind in Hcase. destruct Hcase as [_ Hbad].
  destruct (Hbad Ho) as (Hthrow & Hlogs & _).
  split; [exact Hpay|]. split; [exact Hthrow|].
  rewrite Hlogs, length_app. simpl. lia.
Defined.

(** C5 as stated fails for a call that does not reach the signature
    check. In the sample store deal-1 has a payment row for order_1 and
    deal-9 has none. A verification with a wrong signature for deal-9
    fails with the not-found error, and one for deal-1 that names order_2
    fails with the mismatch error; neither is an invalid-signature error
    and neither appends a log row. *)
Lemma bad_signature_is_not_always_logged :
  let s := SamplePayment.initiated in
  let unknown :=
    {| PaymentService.razorpayOrderId := "order_1";
       PaymentService.razorpayPaymentId := "pay_1";
       PaymentService.razorpaySignature := "forged";
       PaymentService.dealId := "deal-9" |} in
  let foreign :=
    {| PaymentService.razorpayOrderId := "order_2";
       PaymentService.razorpayPaymentId := "pay_1";
       PaymentService.razorpaySignature := "forged";
       PaymentService.dealId := "deal-1" |} in
  let run := PaymentService.verifyPayment SamplePayment.platform
               (Sample.at_ 5 "pay-3") in
  hmac_sha256_hex SamplePayment.platform (keySecret SamplePayment.platform)
    "order_1|pay_1" = "key-secret/order_1|pay_1"%string
  ∧ hmac_sha256_hex SamplePayment.platform (keySecret SamplePayment.platform)
      "order_2|pay_1" = "key-secret/order_2|pay_1"%string
  ∧ run unknown s = (Throw (Error "Payment record not found"), s)
  ∧ run foreign s = (Throw (Error "Order ID mismatch"), s)
  ∧ paymentLogs (run unknown s).2 = paymentLogs s
  ∧ paymentLogs (run foreign s).2 = paymentLogs s.
Proof. vm_compute. repeat split. Qed.

Ltac run_payment :=
  unfold PaymentService.createPaymentOrder, PaymentService.verifyPayment,
    PaymentService.handleWebhook, PaymentService.getPaymentDetails,
    PaymentService.refundPayment, PaymentService.handlePaymentAuthorized,
    PaymentService.handlePaymentCompleted, PaymentService.handlePaymentFailed,
    PaymentService.handleRefundCompleted, payment_update, payment_upsert,
    paymentLog_create, callGateway in *;
  run.

Lemma lookup_insert_status (ps : gmap string Payment.t) id0 id p0 p'
    (P : PaymentStatus → Prop) :
  <[id0 := p0]> ps !! id = Some p' → P (Payment.status p0) →
  ps !! id = Some p' ∨ P (Payment.status p').
Proof.
  intros H HP. destruct (decide (id0 = id)) as [<-|Hne].
  - rewrite lookup_insert_eq in H. inversion H; subst. by right.
  - rewrite lookup_insert_ne in H by done. by left.
Qed.

Lemma servePayment_row pf env r s id p' :
  payments (servePayment pf env r s) !! id = Some p' →
  payments s !! id = Some p' ∨ statusWritten pf r (Payment.status p').
Proof.
  pose (W := statusWritten pf r).
  change (payments (servePayment pf env r s) !! id = Some p' →
          payments s !! id = Some p' ∨ W (Payment.status p')).
  destruct r as [gateway data|data|data signature|dealId|gateway dealId reason];
    simpl.
  - run_payment. repeat (case_match; simplify_eq; simpl in * ); auto;
      intros Hrow; apply (lookup_insert_status _ _ _ _ _ W) in Hrow;
      auto; unfold W; simpl; auto.
  - run_payment. repeat (case_match; simplify_eq; simpl in * ); auto;
      intros Hrow; apply (lookup_insert_status _ _ _ _ _ W) in Hrow;
      auto; unfold W; simpl; auto.
  - run_payment.
    destruct (String.eqb _ signature) eqn:Hsig; simpl; [|auto].
    apply String.eqb_eq in Hsig.
    repeat (case_match; simplify_eq; simpl in * ); auto;
      intros Hrow; apply (lookup_insert_status _ _ _ _ _ W) in Hrow;
      auto; unfold W; simpl;
      repeat match goal with
             | He : String.eqb _ _ = true |- _ => apply String.eqb_eq in He
             end;
      auto 10.
  - run_payment. auto.
  - run_payment. repeat (case_match; simplify_eq; simpl in * ); auto.
Qed.

Lemma keepsPayments_bind {A B} (c : M A) (k : A → M B) :
  keepsPayments c → (∀ a, keepsPayments (k a)) → keepsPayments (bind c k).
Proof.
  intros Hc Hk s. unfold bind. specialize (Hc s).
  destruct (c s) as [[a|e] s1]; simpl in *; [|done].
  by rewrite Hk.
Qed.

Lemma keepsPayments_ret {A} (a : A) : keepsPayments (ret a).
Proof. done. Qed.
Lemma keepsPayments_throw {A} e : keepsPayments (@throw A e).
Proof. done. Qed.
Lemma keepsPayments_gets {A} (f : Store → A) : keepsPayments (gets f).
Proof. done. Qed.
Lemma keepsPayments_send e : keepsPayments (send e).
Proof. done. Qed.
Lemma keepsPayments_deal_update id f : keepsPayments (deal_update id f).
Proof. intros s. unfold deal_update. by destruct (deals s !! id). Qed.
Lemma keepsPayments_deal_create env d : keepsPayments (deal_create env d).
Proof. intros s. unfold deal_create. by repeat case_match. Qed.
Lemma keepsPayments_property_update id f : keepsPayments (property_update id f).
Proof. intros s. unfold property_update. by destruct (properties s !! id). Qed.

Ltac keeps :=
  repeat first
    [ apply keepsPayments_ret | apply keepsPayments_throw
    | apply keepsPayments_gets | apply keepsPayments_send
    | apply keepsPayments_deal_update | apply keepsPayments_deal_create
    | apply keepsPayments_property_update
    | apply keepsPayments_bind; [|intros ?]
    | progress unfold when, js_or, DealService.rentAmountOf,
        DealService.propertyOf, DealService.getDealWithDetails,
        DealService.findConversation
    | case_match ].

Lemma keepsPayments_completeDeal env id :
  keepsPayments (DealService.completeDeal env id).
Proof. unfold DealService.completeDeal. keeps. Qed.

Lemma keepsPayments_serve env r :
  keepsPayments (λ s, (Ok tt, serve env r s)).
Proof.
  pose proof keepsPayments_completeDeal as Hc.
  assert (∀ A (c : M A), keepsPayments c →
            keepsPayments (λ s, (Ok tt, (c s).2))) as Hto by (intros A c H s; apply H).
  destruct r; simpl; apply Hto;
    unfold DealService.ownerConfirmDeal, DealService.tenantConfirmDeal,
      DealService.cancelDeal, DealService.getOrCreateDeal; keeps; done.
Qed.

Lemma serve_payments env r s : payments (serve env r s) = payments s.
Proof. apply (keepsPayments_serve env r s). Qed.

(** C6. [refundPayment] throws when no payment exists for the deal, when
    the payment has no gateway payment id, and when its status is not
    COMPLETED. When it returns it has called the gateway refund for the
    captured amount and appended the log row (REFUND_INITIATED, SUCCESS),
    and the payment table is as before, so the status is still COMPLETED.
    The refund.completed webhook handler sets REFUNDED, and no other
    request of the payment or deal service makes a payment REFUNDED (the
    column default of [status], which the sources do not show, is taken
    not to be REFUNDED). *)
Theorem refund_status_set_by_webhook_only (pf : Platform) (env : Env)
    (gateway : Outcome GatewayRefund) (dealId : string)
    (reason : option string) (s : Store) :
  paymentStatusDefault pf ≠ REFUNDED →
  let call := PaymentService.refundPayment env gateway dealId reason s in
  (findPaymentByDeal dealId (payments s) = None →
     call = (Throw (Error "Payment not found"), s))
  ∧ (∀ id p, findPaymentByDeal dealId (payments s) = Some (id, p) →
       Payment.razorpayPaymentId p = None
       ∨ Payment.razorpayPaymentId p = Some ""%string →
       call = (Throw (Error "No Razorpay payment to refund"), s))
  ∧ (∀ id p rp, findPaymentByDeal dealId (payments s) = Some (id, p) →
       Payment.razorpayPaymentId p = Some rp → rp ≠ ""%string →
       Payment.status p ≠ COMPLETED →
       call = (Throw (Error "Can only refund completed payments"), s))
  ∧ (∀ id p rp refund, findPaymentByDeal dealId (payments s) = Some (id, p) →
       Payment.razorpayPaymentId p = Some rp → rp ≠ ""%string →
       Payment.status p = COMPLETED → gateway = Ok refund →
       call.1 = Ok refund
       ∧ gatewayCalls call.2
         = (gatewayCalls s ++
            [PaymentsRefund rp (Payment.amount p) dealId
               (match reason with
                | None | Some ""%string => "Manual refund"%string
                | Some r => r
                end)])%list
       ∧ paymentLogs call.2
         = (paymentLogs s ++
            [logRow env id "REFUND_INITIATED" SUCCESS (Some (RefundJson refund))
               None])%list
       ∧ payments call.2 = payments s
       ∧ payments call.2 !! id = Some p)
  ∧ (∀ e pay id p,
       findPaymentByPaymentId (re_payment_id e) (payments s) = Some (id, p) →
       PaymentService.handleRefundCompleted env
         {| payment := pay; refund := Some e |} s
       = (Ok tt,
          set_paymentLogs (λ l, (l ++
            [logRow env id "REFUND_COMPLETED" SUCCESS (Some (RefundEntityJson e))
               None])%list)
            (set_payments
               (insert id (Payment.set_refundedAt (Some (now env))
                             (Payment.set_status REFUNDED p))) s)))
  ∧ (∀ env' r id p', payments (servePayment pf env' r s) !! id = Some p' →
       Payment.status p' = REFUNDED →
       (∃ p, payments s !! id = Some p ∧ Payment.status p = REFUNDED)
       ∨ (∃ data, r = Webhook data
                        (hmac_sha256_hex pf (webhookSecret pf)
                           (JSON_stringify pf data))
                  ∧ event data = "refund.completed"%string))
  ∧ (∀ env' r, payments (serve env' r s) = payments s).
Proof.
  intros Hdefault call. subst call.
  split; [|split; [|split; [|split; [|split; [|split]]]]].
  - intros Hfind. run_payment. by rewrite Hfind.
  - intros id p Hfind Hrp. run_payment. rewrite Hfind. simpl.
    destruct Hrp as [-> | ->]; done.
  - intros id p rp Hfind Hrp Hne Hst. run_payment. rewrite Hfind. simpl.
    rewrite Hrp. destruct rp as [|a rp]; [done|].
    by rewrite (bool_decide_eq_false_2 _ Hst).
  - intros id p rp refund Hfind Hrp Hne Hst ->. run_payment. rewrite Hfind.
    simpl. rewrite Hrp. destruct rp as [|a rp]; [done|].
    rewrite (bool_decide_eq_true_2 _ Hst). simpl.
    repeat (split; [done|]).
    by apply (findPaymentBy_Some _ _ _ _ Hfind).
  - intros e pay id p Hfind. run_payment.
    apply findPaymentBy_Some in Hfind as Hrow. destruct Hrow as [Hrow _].
    rewrite Hfind. simpl. by rewrite Hrow.
  - intros env' r id p' Hrow Hst.
    apply servePayment_row in Hrow as [Hrow|Hw]; [left; eauto|].
    destruct r; simpl in Hw; try done; rewrite Hst in Hw.
    + destruct Hw as [?|?]; congruence.
    + done.
    + destruct Hw as [-> [[_ ?]|[[_ ?]|[He _]]]]; try done. right. eauto.
  - intros env' r. apply serve_payments.
Qed.

Lemma refund_status_set_by_webhook_only_witness :
  paymentStatusDefault SamplePayment.platform ≠ REFUNDED
  ∧ payments (servePayment SamplePayment.platform (Sample.at_ 6 "pay-4")
                (Refund (Ok {| refund_id := "rfnd_1" |}) "deal-1" None)
                SamplePayment.paid)
    = payments SamplePayment.paid.
Proof.
  assert (paymentStatusDefault SamplePayment.platform ≠ REFUNDED) as Hd
    by (vm_compute; congruence).
  split; [exact Hd|].
  destruct (findPaymentByDeal "deal-1" (payments SamplePayment.paid))
    as [[id p]|] eqn:Hfind; [|vm_compute in Hfind; congruence].
  assert (id = "pay-1"%string ∧ Payment.razorpayPaymentId p = Some "pay_1"%string
          ∧ Payment.status p = COMPLETED) as (-> & Hrp & Hst).
  { vm_compute in Hfind. by inversion Hfind. }
  destruct (refund_status_set_by_webhook_only SamplePayment.platform
              (Sample.at_ 6 "pay-4") (Ok {| refund_id := "rfnd_1" |})
              "deal-1" None SamplePayment.paid Hd)
    as (_ & _ & _ & Hok & _).
  destruct (Hok "pay-1"%string p "pay_1"%string {| refund_id := "rfnd_1" |}
              Hfind Hrp ltac:(done) Hst eq_refl) as (_ & _ & _ & Hp & _).
  exact Hp.
Defined.

(** ** The HTTP boundary of the payment service *)

Lemma handleWebhook_bad_signature pf env data signature s :
  signature ≠ hmac_sha256_hex pf (webhookSecret pf) (JSON_stringify pf data) →
  PaymentService.handleWebhook pf env data signature s
  = (Throw (Error "Invalid webhook signature"), s).
Proof.
  intros Hsig. unfold PaymentService.handleWebhook. rewrite try_catch_rethrow.
  assert (String.eqb (hmac_sha256_hex pf (webhookSecret pf) (JSON_stringify pf data))
            signature = false) as ->; [|done].
  apply String.eqb_neq. congruence.
Qed.

(** C7. The webhook endpoint answers every delivery with a success
    response of status 200, whatever the body and the signature header
    and whatever the service throws; and when the signature header is not
    the HMAC-SHA256 of the serialised body under the webhook secret
    (missing header included), the store is left exactly as it was: no
    payment, deal or log row changes. *)
Theorem webhook_always_acknowledged (pf : Platform) (env : Env)
    (signature : option string) (body : PaymentWebhookData) (s : Store) :
  let out := PaymentController.handleWebhook pf env signature body s in
  (∃ r, out.1 = Ok r ∧ status r = 200 ∧ success r = true ∧ error r = None)
  ∧ (signature
     ≠ Some (hmac_sha256_hex pf (webhookSecret pf) (JSON_stringify pf body)) →
     out.2 = s).
Proof.
  unfold PaymentController.handleWebhook, try_catch.
  destruct signature as [[|a sig]|]; simpl.
  - split; [eexists; done|done].
  - unfold bind at 1 2.
    destruct (decide (String a sig
                      = hmac_sha256_hex pf (webhookSecret pf) (JSON_stringify pf body)))
      as [Heq|Hne].
    + destruct (PaymentService.handleWebhook pf env body (String a sig) s)
        as [[[]|e] s']; simpl; (split; [eexists; done|]); congruence.
    + rewrite (handleWebhook_bad_signature pf env body _ s Hne). simpl.
      split; [eexists; done|done].
  - split; [eexists; done|done].
Qed.

Lemma webhook_always_acknowledged_witness :
  let out := PaymentController.handleWebhook SamplePayment.platform
               (Sample.at_ 6 "pay-4") (Some "forged"%string)
               {| event := "refund.completed";
                  payload := {| payment := None;
                                refund := Some {| re_payment_id := "pay_1" |} |} |}
               SamplePayment.paid in
  (status <$> match out.1 with Ok r => Some r | Throw _ => None end) = Some 200
  ∧ out.2 = SamplePayment.paid.
Proof.
  intros out.
  destruct (webhook_always_acknowledged SamplePayment.platform
              (Sample.at_ 6 "pay-4") (Some "forged"%string)
              {| event := "refund.completed";
                 payload := {| payment := None;
                               refund := Some {| re_payment_id := "pay_1" |} |} |}
              SamplePayment.paid) as [(r & Hr & Hst & _) Hsame].
  fold out in Hr, Hsame. split.
  - rewrite Hr. simpl. by rewrite Hst.
  - apply Hsame. vm_compute. congruence.
Defined.

(** ** A payment that is already COMPLETED *)

Lemma verifyPayment_accepts_run pf env data s id p d :
  findPaymentByDeal (PaymentService.dealId data) (payments s) = Some (id, p) →
  Payment.razorpayOrderId p = Some (PaymentService.razorpayOrderId data) →
  PaymentService.razorpaySignature data
  = hmac_sha256_hex pf (keySecret pf)
      (PaymentService.razorpayOrderId data ++ "|"
       ++ PaymentService.razorpayPaymentId data)%string →
  deals s !! PaymentService.dealId data = Some d →
  let p' := Payment.set_completedAt (Some (now env))
              (Payment.set_status COMPLETED
                 (Payment.set_razorpaySignature
                    (Some (PaymentService.razorpaySignature data))
                    (Payment.set_razorpayPaymentId
                       (Some (PaymentService.razorpayPaymentId data)) p))) in
  PaymentService.verifyPayment pf env data s
  = (Ok (id, p'),
     set_paymentLogs (λ l, (l ++
       [logRow env id "PAYMENT_COMPLETED" SUCCESS
          (Some (IdsJson (PaymentService.razorpayOrderId data)
                   (PaymentService.razorpayPaymentId data))) None])%list)
       (set_deals
          (insert (PaymentService.dealId data)
             (Deal.set_paymentId (Some (PaymentService.razorpayPaymentId data))
                (Deal.set_paymentStatus PAID d)))
          (set_payments (insert id p') s))).
Proof.
  intros Hfind Horder Hsig Hd p'.
  apply findPaymentBy_Some in Hfind as Hrow. destruct Hrow as [Hrow _].
  unfold PaymentService.verifyPayment. rewrite try_catch_rethrow.
  unfold bind at 1. unfold gets at 1. rewrite Hfind.
  rewrite (bool_decide_eq_true_2 _ Horder). cbn [negb].
  rewrite <- Hsig, String.eqb_refl. cbn [negb].
  unfold bind at 1. unfold payment_update at 1. cbv beta. rewrite Hrow.
  unfold bind at 1. unfold deal_update at 1. cbv beta. simpl deals. rewrite Hd.
  reflexivity.
Qed.

Lemma handlePaymentCompleted_run env e rf s id p m d :
  findPaymentByPaymentId (pe_id e) (payments s) = Some (id, p) →
  PaymentService.mapPaymentMethod (pe_method e) = inl m →
  deals s !! Payment.dealId p = Some d →
  let p' := Payment.set_completedAt (Some (now env))
              (Payment.set_method (Some m) (Payment.set_status COMPLETED p)) in
  PaymentService.handlePaymentCompleted env {| payment := Some e; refund := rf |} s
  = (Ok tt,
     set_paymentLogs (λ l, (l ++
       [logRow env id "PAYMENT_COMPLETED" SUCCESS (Some (PaymentJson e)) None])%list)
       (set_deals
          (insert (Payment.dealId p)
             (Deal.set_paymentId (Some (pe_id e)) (Deal.set_paymentStatus PAID d)))
          (set_payments (insert id p') s))).
Proof.
  intros Hfind Hm Hd p'.
  apply findPaymentBy_Some in Hfind as Hrow. destruct Hrow as [Hrow _].
  unfold PaymentService.handlePaymentCompleted. cbn [payment].
  unfold bind at 1. unfold gets at 1. cbv beta. rewrite Hfind, Hm.
  unfold bind at 1. unfold payment_update at 1. cbv beta. rewrite Hrow.
  unfold bind at 1. unfold deal_update at 1. cbv beta. simpl deals. rewrite Hd.
  reflexivity.
Qed.

(** C8, as the code has it. On a payment that is already COMPLETED, a
    further [verifyPayment] (order id matching, signature valid) and a
    further payment.completed webhook (method known) return without an
    error, leave the status COMPLETED and the deal PAID, and hand no
    notification to the mailer; but neither is a no-op: each overwrites
    the payment row ([completedAt] and the gateway ids or the method),
    issues the deal update again and appends another PAYMENT_COMPLETED
    log row. *)
Theorem completed_payment_is_written_again (pf : Platform) (env : Env)
    (s : Store) (id : string) (p : Payment.t) (d : Deal.t) :
  payments s !! id = Some p → Payment.status p = COMPLETED →
  deals s !! Payment.dealId p = Some d →
  (∀ data,
     findPaymentByDeal (PaymentService.dealId data) (payments s) = Some (id, p) →
     Payment.razorpayOrderId p = Some (PaymentService.razorpayOrderId data) →
     PaymentService.razorpaySignature data
     = hmac_sha256_hex pf (keySecret pf)
         (PaymentService.razorpayOrderId data ++ "|"
          ++ PaymentService.razorpayPaymentId data)%string →
     let out := PaymentService.verifyPayment pf env data s in
     let p' := Payment.set_completedAt (Some (now env))
                 (Payment.set_status COMPLETED
                    (Payment.set_razorpaySignature
                       (Some (PaymentService.razorpaySignature data))
                       (Payment.set_razorpayPaymentId
                          (Some (PaymentService.razorpayPaymentId data)) p))) in
     out.1 = Ok (id, p')
     ∧ payments out.2 = <[id := p']> (payments s)
     ∧ Payment.status p' = COMPLETED
     ∧ deals out.2
       = <[Payment.dealId p :=
             Deal.set_paymentId (Some (PaymentService.razorpayPaymentId data))
               (Deal.set_paymentStatus PAID d)]> (deals s)
     ∧ paymentLogs out.2
       = (paymentLogs s ++
          [logRow env id "PAYMENT_COMPLETED" SUCCESS
             (Some (IdsJson (PaymentService.razorpayOrderId data)
                      (PaymentService.razorpayPaymentId data))) None])%list
     ∧ outbox out.2 = outbox s)
  ∧ (∀ e rf m,
       findPaymentByPaymentId (pe_id e) (payments s) = Some (id, p) →
       PaymentService.mapPaymentMethod (pe_method e) = inl m →
       let out := PaymentService.handlePaymentCompleted env
                    {| payment := Some e; refund := rf |} s in
       let p' := Payment.set_completedAt (Some (now env))
                   (Payment.set_method (Some m) (Payment.set_status COMPLETED p)) in
       out.1 = Ok tt
       ∧ payments out.2 = <[id := p']> (payments s)
       ∧ Payment.status p' = COMPLETED
       ∧ deals out.2
         = <[Payment.dealId p :=
               Deal.set_paymentId (Some (pe_id e))
                 (Deal.set_paymentStatus PAID d)]> (deals s)
       ∧ paymentLogs out.2
         = (paymentLogs s ++
            [logRow env id "PAYMENT_COMPLETED" SUCCESS (Some (PaymentJson e))
               None])%list
       ∧ outbox out.2 = outbox s).
Proof.
  intros Hrow Hst Hd. split.
  - intros data Hfind Horder Hsig out p'. subst out.
    apply findPaymentBy_Some in Hfind as Hdeal. destruct Hdeal as [_ Hdeal].
    simpl in Hdeal. rewrite Hdeal in Hd.
    rewrite (verifyPayment_accepts_run pf env data s id p d Hfind Horder Hsig Hd).
    simpl. by rewrite Hdeal.
  - intros e rf m Hfind Hm out p'. subst out.
    rewrite (handlePaymentCompleted_run env e rf s id p m d Hfind Hm Hd).
    done.
Qed.

Lemma completed_payment_is_written_again_witness :
  ∃ p d, payments SamplePayment.paid !! "pay-1" = Some p
         ∧ Payment.status p = COMPLETED
         ∧ deals SamplePayment.paid !! Payment.dealId p = Some d
         ∧ paymentLogs
             (PaymentService.verifyPayment SamplePayment.platform
                (Sample.at_ 6 "pay-4")
                (SamplePayment.verification "pay_1" "key-secret/order_1|pay_1")
                SamplePayment.paid).2
           = (paymentLogs SamplePayment.paid ++
              [logRow (Sample.at_ 6 "pay-4") "pay-1" "PAYMENT_COMPLETED" SUCCESS
                 (Some (IdsJson "order_1" "pay_1")) None])%list.
Proof.
  eexists _, _.
  split; [vm_compute; reflexivity|]. split; [reflexivity|].
  split; [vm_compute; reflexivity|].
  eapply (proj1 (completed_payment_is_written_again SamplePayment.platform
                   (Sample.at_ 6 "pay-4") SamplePayment.paid "pay-1" _ _
                   ltac:(vm_compute; reflexivity) ltac:(reflexivity)
                   ltac:(vm_compute; reflexivity))
            (SamplePayment.verification "pay_1" "key-secret/order_1|pay_1"));
    vm_compute; reflexivity.
Defined.

(** C8 as stated fails: the sample payment is COMPLETED (captured as
    pay_1 at time 5, three log rows). A second verification, for pay_2
    with its valid signature, returns without error but is no no-op: it
    moves [completedAt] to 6, writes pay_2 into the deal and appends a
    fourth log row. A payment.completed webhook for pay_1 likewise
    rewrites the row and appends a log row. *)
Lemma completed_payment_reverified_not_noop :
  let s := SamplePayment.paid in
  let out := PaymentService.verifyPayment SamplePayment.platform
               (Sample.at_ 6 "pay-4")
               (SamplePayment.verification "pay_2" "key-secret/order_1|pay_2") s in
  let hook := PaymentService.handleWebhook SamplePayment.platform
                (Sample.at_ 7 "pay-5")
                {| event := "payment.completed";
                   payload := {| payment := Some {| pe_id := "pay_1";
                                                    pe_order_id := "order_1";
                                                    pe_method := "upi" |};
                                 refund := None |} |}
                "webhook-secret/payment.completed" s in
  (Payment.status <$> payments s !! "pay-1") = Some COMPLETED
  ∧ (Payment.completedAt <$> payments s !! "pay-1") = Some (Some 5)
  ∧ (Deal.paymentId <$> deals s !! "deal-1") = Some (Some "pay_1"%string)
  ∧ length (paymentLogs s) = 3%nat
  ∧ (Payment.status <$> payments out.2 !! "pay-1") = Some COMPLETED
  ∧ (Payment.completedAt <$> payments out.2 !! "pay-1") = Some (Some 6)
  ∧ (Deal.paymentId <$> deals out.2 !! "deal-1") = Some (Some "pay_2"%string)
  ∧ length (paymentLogs out.2) = 4%nat
  ∧ hook.1 = Ok tt
  ∧ (Payment.completedAt <$> payments hook.2 !! "pay-1") = Some (Some 7)
  ∧ length (paymentLogs hook.2) = 4%nat
  ∧ out.2 ≠ s ∧ hook.2 ≠ s.
Proof.
  intros s out hook.
  assert (length (paymentLogs s) = 3%nat) as Hs by (vm_compute; reflexivity).
  assert (length (paymentLogs out.2) = 4%nat) as Ho by (vm_compute; reflexivity).
  assert (length (paymentLogs hook.2) = 4%nat) as Hh by (vm_compute; reflexivity).
  repeat (split; [vm_compute; reflexivity|]).
  split; intros Heq; rewrite Heq in *; congruence.
Qed.

(** ** What [sanitizeData] does *)

Lemma sanitizeData_idempotent k v :
  sanitizeData k (sanitizeData k v) = sanitizeData k v.
Proof.
  revert v. fix IH 1. intros [| |b|x|t|t|t|items|entries]; try reflexivity.
  - simpl. f_equal. induction items as [|i items IHi]; [reflexivity|].
    simpl. by rewrite IH, IHi.
  - simpl. f_equal. induction entries as [|[key value] entries IHe]; [reflexivity|].
    destruct (copiesKey k key) eqn:Hk; [|exact IHe].
    simpl. rewrite Hk. by rewrite IH, IHe.
Qed.

Lemma sanitizeData_plainKeys v :
  plainKeys v = true → sanitizeData true v = withoutDates v.
Proof.
  revert v. fix IH 1. intros [| |b|x|t|t|t|items|entries]; try reflexivity.
  - simpl. intros Hp. f_equal. induction items as [|i items IHi]; [reflexivity|].
    simpl in *. apply andb_prop in Hp as [Hi Hp]. by rewrite IH, IHi.
  - simpl. intros Hp. f_equal.
    induction entries as [|[key value] entries IHe]; [reflexivity|].
    simpl in *. apply andb_prop in Hp as [Hkv Hp].
    apply andb_prop in Hkv as [Hk Hv]. rewrite Hk. by rewrite IH, IHe.
Qed.

Lemma plainKeys_jsPaymentLog l : plainKeys (jsPaymentLog l) = true.
Proof. by destruct l as [? ? ? [?|] [?|] ?]. Qed.

Lemma plainKeys_jsPaymentWithLogs pw : plainKeys (jsPaymentWithLogs pw) = true.
Proof.
  destruct pw as [id p logs].
  assert (forallb plainKeys (map jsPaymentLog logs) = true) as Hlogs.
  { induction logs as [|l logs IH]; [reflexivity|].
    cbn [map forallb]. by rewrite IH, plainKeys_jsPaymentLog. }
  unfold jsPaymentWithLogs. cbn [PaymentService.id PaymentService.row PaymentService.logs].
  cbn [plainKeys]. rewrite forallb_app. cbn [forallb fst snd plainKeys].
  rewrite Hlogs.
  by destruct p as [? ? ? ? [?|] [?|] [?|] ? [?|] [?|] [?|] [?|] [?|]].
Qed.

Lemma plainKeys_jsDeal d : plainKeys (jsDeal d) = true.
Proof. by destruct d as [? ? ? ? ? ? [?|] ? [?|] ? [?|] [?|] ? [?|]]. Qed.

Lemma plainKeys_jsDealRow id d : plainKeys (jsDealRow id d) = true.
Proof. by destruct d as [? ? ? ? ? ? [?|] ? [?|] ? [?|] [?|] ? [?|]]. Qed.

(** What [sendSuccess] sends for a value that a handler has sanitised
    already. *)
Lemma sendSuccess_sanitized v msg :
  plainKeys v = true → v ≠ JsUndefined →
  sendSuccess (Some (sanitizeData true v)) msg
  = {| status := 200; success := true;
       message := if String.eqb msg "" then None else Some msg;
       data := Some (withoutDates v); error := None |}.
Proof.
  intros Hp Hv. unfold sendSuccess.
  assert (sanitizeData true (sanitizeData true v) = withoutDates v) as Hs
    by (by rewrite sanitizeData_idempotent, (sanitizeData_plainKeys v Hp)).
  destruct (sanitizeData true v) eqn:Hsv; rewrite <- ?Hs; try reflexivity.
  by destruct v.
Qed.

(** ** Payment details *)

#[global] Instance notOlder_total : Total PaymentService.notOlder.
Proof. intros a b. unfold PaymentService.notOlder. lia. Qed.

#[global] Instance notOlder_trans : Transitive PaymentService.notOlder.
Proof. intros a b c. unfold PaymentService.notOlder. lia. Qed.

Lemma getPaymentDetails_run dealId s :
  PaymentService.getPaymentDetails dealId s
  = (Ok match findPaymentByDeal dealId (payments s) with
        | Some (id, p) =>
            Some {| PaymentService.id := id; PaymentService.row := p;
                    PaymentService.logs :=
                      PaymentService.newestFirst
                        (filter (λ l, PaymentLog.paymentId l = id) (paymentLogs s)) |}
        | None => None
        end, s).
Proof.
  unfold PaymentService.getPaymentDetails. by rewrite try_catch_rethrow.
Qed.

Lemma getPaymentDetails_endpoint_run pf user dealId s :
  isValidUUID dealId = true →
  PaymentController.getPaymentDetails pf (Some user) dealId s
  = (match findPaymentByDeal dealId (payments s) with
     | Some (id, p) =>
         {| status := 200; success := true;
            message := Some "Payment details retrieved successfully"%string;
            data := Some (withoutDates (jsPaymentWithLogs
                      {| PaymentService.id := id; PaymentService.row := p;
                         PaymentService.logs :=
                           PaymentService.newestFirst
                             (filter (λ l, PaymentLog.paymentId l = id)
                                (paymentLogs s)) |}));
            error := None |}
     | None =>
         {| status := 400; success := false; message := None; data := None;
            error := Some {| err_message := "Payment not found";
                             err_code := "BAD_REQUEST" |} |}
     end, s).
Proof.
  intros Hu. unfold PaymentController.getPaymentDetails, asyncHandler.
  rewrite Hu. cbn [negb].
  unfold try_catch at 1. unfold bind at 1. rewrite getPaymentDetails_run.
  destruct (findPaymentByDeal dealId (payments s)) as [[id p]|].
  - unfold ret. rewrite sendSuccess_sanitized; [done| |done].
    apply plainKeys_jsPaymentWithLogs.
  - reflexivity.
Qed.

(** C9, as the code has it. The service method is read-only and returns
    the payment with its log rows ordered newest first, and null, as a
    normal result, when the deal has no payment. At the HTTP boundary
    (authenticated caller, well-formed deal id) the store is not written
    either and a payment is answered with status 200; the body is the
    payment with its log rows after [sanitizeData], which leaves an empty
    object in the place of every timestamp. The null result is not
    answered with 200: the handler's guard throws, and the response is an
    error with the message "Payment not found". The guard throws a
    [NotFoundError], but the object is no instance of that class when the
    [catch] block tests it, so the block wraps it again and the status is
    400 with code BAD_REQUEST. *)
Theorem payment_details_null_is_error_at_boundary (pf : Platform)
    (user : PaymentController.JwtPayload) (dealId : string) (s : Store) :
  isValidUUID dealId = true →
  let out := PaymentService.getPaymentDetails dealId s in
  let resp := PaymentController.getPaymentDetails pf (Some user) dealId s in
  out.2 = s ∧ resp.2 = s
  ∧ (findPaymentByDeal dealId (payments s) = None →
       out.1 = Ok None
       ∧ resp.1 = {| status := 400; success := false; message := None;
                     data := None;
                     error := Some {| err_message := "Payment not found";
                                      err_code := "BAD_REQUEST" |} |})
  ∧ (∀ id p, findPaymentByDeal dealId (payments s) = Some (id, p) →
       ∃ logs,
         out.1 = Ok (Some {| PaymentService.id := id; PaymentService.row := p;
                             PaymentService.logs := logs |})
         ∧ StronglySorted
             (λ a b, PaymentLog.createdAt b ≤ PaymentLog.createdAt a) logs
         ∧ logs ≡ₚ filter (λ l, PaymentLog.paymentId l = id) (paymentLogs s)
         ∧ resp.1 = {| status := 200; success := true;
                       message := Some "Payment details retrieved successfully"%string;
                       data := Some (withoutDates (jsPaymentWithLogs
                                 {| PaymentService.id := id;
                                    PaymentService.row := p;
                                    PaymentService.logs := logs |}));
                       error := None |}).
Proof.
  intros Huuid out resp. subst out resp.
  rewrite (getPaymentDetails_endpoint_run pf user dealId s Huuid).
  rewrite getPaymentDetails_run. cbn [fst snd].
  destruct (findPaymentByDeal dealId (payments s)) as [[id p]|].
  - split; [done|]. split; [done|]. split; [done|].
    intros id' p' [= <- <-]. eexists. split; [done|].
    split; [apply (StronglySorted_merge_sort PaymentService.notOlder)|].
    split; [apply merge_sort_Permutation|done].
  - split; [done|]. split; [done|]. split; [done|]. done.
Qed.

Lemma payment_details_null_is_error_at_boundary_witness :
  isValidUUID "123e4567-e89b-42d3-a456-426614174000" = true
  ∧ (PaymentController.getPaymentDetails SamplePayment.platform
       (Some SamplePayment.user) "123e4567-e89b-42d3-a456-426614174000"
       SamplePayment.paid).2
    = SamplePayment.paid.
Proof.
  assert (isValidUUID "123e4567-e89b-42d3-a456-426614174000" = true) as Hu
    by reflexivity.
  split; [exact Hu|].
  exact (proj1 (proj2 (payment_details_null_is_error_at_boundary
                         SamplePayment.platform SamplePayment.user
                         "123e4567-e89b-42d3-a456-426614174000"
                         SamplePayment.paid Hu))).
Defined.

(** C9 as stated fails at the HTTP boundary: for a well-formed deal id
    without a payment the service returns null, and the endpoint answers
    with an error (status 400, [success] false, no data), not with 200
    and null. *)
Lemma payment_details_of_unpaid_deal_is_not_200 :
  let dealId := "123e4567-e89b-42d3-a456-426614174000"%string in
  let resp := (PaymentController.getPaymentDetails SamplePayment.platform
                 (Some SamplePayment.user) dealId SamplePayment.paid).1 in
  (PaymentService.getPaymentDetails dealId SamplePayment.paid).1 = Ok None
  ∧ status resp = 400
  ∧ success resp = false
  ∧ data resp = None
  ∧ error resp = Some {| err_message := "Payment not found";
                         err_code := "BAD_REQUEST" |}
  ∧ status resp ≠ 200.
Proof. vm_compute. repeat split. congruence. Qed.

(** * Further properties *)

(** ** The fee schedule *)

(** The slab fee never decreases when the rent grows, and it is one of the
    three fees of the table. *)
Theorem success_fee_monotone (rent1 rent2 : Z) :
  rent1 ≤ rent2 →
  Config.calculateSuccessFee rent1 ≤ Config.calculateSuccessFee rent2
  ∧ (Config.calculateSuccessFee rent1 = 299
     ∨ Config.calculateSuccessFee rent1 = 499
     ∨ Config.calculateSuccessFee rent1 = 999).
Proof.
  intros Hle. unfold Config.calculateSuccessFee. simpl.
  destruct (rent1 <? 10000) eqn:A1; destruct (rent1 <? 25000) eqn:A2;
    destruct (rent2 <? 10000) eqn:B1; destruct (rent2 <? 25000) eqn:B2;
    split; auto; lia.
Qed.

Lemma success_fee_monotone_witness :
  Config.calculateSuccessFee 9999 ≤ Config.calculateSuccessFee 10000.
Proof. apply (success_fee_monotone 9999 10000). lia. Defined.

(** ** What the deal service keeps of a row *)

Lemma rowAfter_keeps env r rent d :
  let d' := rowAfter env r rent d in
  Deal.conversationId d' = Deal.conversationId d
  ∧ Deal.propertyId d' = Deal.propertyId d
  ∧ Deal.ownerId d' = Deal.ownerId d
  ∧ Deal.tenantId d' = Deal.tenantId d
  ∧ Deal.paymentStatus d' = Deal.paymentStatus d
  ∧ Deal.paymentId d' = Deal.paymentId d
  ∧ (Deal.ownerConfirmed d = true → Deal.ownerConfirmed d' = true)
  ∧ (Deal.tenantConfirmed d = true → Deal.tenantConfirmed d' = true).
Proof.
  destruct r; simpl;
    unfold ownerConfirms, tenantConfirms, afterConfirm, cancels; simpl;
    destruct (Deal.ownerConfirmed d) eqn:Ho, (Deal.tenantConfirmed d) eqn:Ht;
    simpl; rewrite ?Ho, ?Ht; auto 10.
Qed.

(** No request to the deal service deletes a deal or moves it to another
    conversation, property, owner or tenant; a confirmation flag that is
    set stays set; and the payment columns of the deal are not written. *)
Theorem deal_rows_persist (env : Env) (r : DealRequest) (s : Store)
    (id : string) (d : Deal.t) :
  deals s !! id = Some d →
  ∃ d', deals (serve env r s) !! id = Some d'
        ∧ Deal.conversationId d' = Deal.conversationId d
        ∧ Deal.propertyId d' = Deal.propertyId d
        ∧ Deal.ownerId d' = Deal.ownerId d
        ∧ Deal.tenantId d' = Deal.tenantId d
        ∧ Deal.paymentStatus d' = Deal.paymentStatus d
        ∧ Deal.paymentId d' = Deal.paymentId d
        ∧ (Deal.ownerConfirmed d = true → Deal.ownerConfirmed d' = true)
        ∧ (Deal.tenantConfirmed d = true → Deal.tenantConfirmed d' = true).
Proof.
  intros Hd.
  destruct (serve_effect env r s)
    as [Heq|[(d0 & Hnew & _ & Heq)|(id0 & d0 & rent & Hd0 & _ & _ & Heq)]];
    rewrite Heq.
  - exists d. auto 10.
  - exists d. rewrite lookup_insert_ne by congruence. auto 10.
  - destruct (decide (id0 = id)) as [->|Hne].
    + rewrite Hd in Hd0. inversion Hd0; subst d0.
      exists (rowAfter env r rent d). rewrite lookup_insert_eq.
      split; [done|]. apply rowAfter_keeps.
    + exists d. rewrite lookup_insert_ne by done. auto 10.
Qed.

Lemma deal_rows_persist_witness :
  ∃ d', deals (serve (Sample.at_ 3 "deal-3") (Cancel "deal-1" "owner-1")
                 (serveAll Sample.confirmThenCancel Sample.store)) !! "deal-1"
        = Some d'
        ∧ Deal.ownerConfirmed d' = true.
Proof.
  destruct (deal_rows_persist (Sample.at_ 3 "deal-3") (Cancel "deal-1" "owner-1")
              (serveAll Sample.confirmThenCancel Sample.store) "deal-1"
              Sample.cancelledDeal ltac:(vm_compute; reflexivity))
    as (d' & Hd' & _ & _ & _ & _ & _ & _ & Ho & _).
  exists d'. split; [exact Hd'|]. apply Ho. reflexivity.
Defined.

(** Only an owner confirmation writes [agreedRent]. A tenant confirmation
    leaves the rent and the owner's flag; a cancellation writes nothing but
    the status; get-or-create writes no existing row. *)
Theorem agreed_rent_written_by_owner_only (env : Env) (r : DealRequest)
    (s : Store) (id : string) (d d' : Deal.t) :
  deals s !! id = Some d → deals (serve env r s) !! id = Some d' →
  match r with
  | OwnerConfirm _ _ _ => Deal.tenantConfirmed d' = Deal.tenantConfirmed d
  | TenantConfirm _ _ =>
      Deal.agreedRent d' = Deal.agreedRent d
      ∧ Deal.ownerConfirmed d' = Deal.ownerConfirmed d
  | Cancel _ _ => d' = d ∨ d' = Deal.set_status DEAL_CANCELLED d
  | GetOrCreate _ _ _ => d' = d
  end.
Proof.
  intros Hd Hd'.
  apply serve_row in Hd' as [H|[[H _]|(d0 & rent & Hd0 & _ & _ & ->)]].
  - rewrite Hd in H. inversion H; subst d'. destruct r; auto.
  - congruence.
  - rewrite Hd in Hd0. inversion Hd0; subst d0.
    destruct r; simpl;
      unfold ownerConfirms, tenantConfirms, afterConfirm, cancels; simpl;
      destruct (Deal.ownerConfirmed d) eqn:Ho, (Deal.tenantConfirmed d) eqn:Ht;
      simpl; rewrite ?Ho, ?Ht; auto.
Qed.

Lemma agreed_rent_written_by_owner_only_witness :
  ∃ d', deals (serve (Sample.at_ 3 "deal-3") (TenantConfirm "conv-1" "tenant-1")
                 (serveAll Sample.confirmThenCancel Sample.store)) !! "deal-1"
        = Some d'
        ∧ Deal.agreedRent d' = 9000.
Proof.
  destruct (deals (serve (Sample.at_ 3 "deal-3") (TenantConfirm "conv-1" "tenant-1")
                     (serveAll Sample.confirmThenCancel Sample.store)) !! "deal-1")
    as [d'|] eqn:Hd'; [|vm_compute in Hd'; discriminate].
  exists d'. split; [reflexivity|].
  exact (proj1 (agreed_rent_written_by_owner_only (Sample.at_ 3 "deal-3")
                  (TenantConfirm "conv-1" "tenant-1")
                  (serveAll Sample.confirmThenCancel Sample.store) "deal-1"
                  Sample.cancelledDeal d' ltac:(vm_compute; reflexivity) Hd')).
Defined.

(** [completeDeal] on a missing deal throws and writes nothing. On a deal
    whose property exists it sets COMPLETED with the fee and the time,
    marks the property RENTED, hands the completion mails to the mailer
    (owner first), and returns the row as it was read before the update. *)
Theorem completeDeal_effect (env : Env) (id : string) (s : Store) :
  (deals s !! id = None →
     DealService.completeDeal env id s = (Throw (Error "Deal not found"), s))
  ∧ (∀ d p, deals s !! id = Some d →
       properties s !! Deal.propertyId d = Some p →
       let out := DealService.completeDeal env id s in
       out.1 = Ok d
       ∧ deals out.2 = <[id := completed env d]> (deals s)
       ∧ properties out.2 = <[Deal.propertyId d := rented p]> (properties s)
       ∧ outbox out.2
         = (outbox s ++ completionMails s d (Property.title p))%list
       ∧ payments out.2 = payments s
       ∧ paymentLogs out.2 = paymentLogs s).
Proof.
  split.
  - intros Hd. unfold DealService.completeDeal. run. by rewrite Hd.
  - intros d p Hd Hp out. subst out.
    by rewrite (completeDeal_run env id s d p Hd Hp).
Qed.

Lemma completeDeal_effect_witness :
  let s := serveAll Sample.confirmThenCancel Sample.store in
  (Property.status
     <$> properties (DealService.completeDeal (Sample.at_ 3 "deal-3") "deal-1" s).2
           !! "prop-1")
  = Some RENTED.
Proof.
  intros s.
  destruct (proj2 (completeDeal_effect (Sample.at_ 3 "deal-3") "deal-1" s)
              Sample.cancelledDeal (Property.mk "2BHK in Baner" 9000 ACTIVE)
              ltac:(vm_compute; reflexivity) ltac:(vm_compute; reflexivity))
    as (_ & _ & Hp & _).
  rewrite Hp. simpl. by rewrite lookup_insert_eq.
Defined.

(** An owner confirmation by someone who is not the owner of the
    conversation (its tenant included), a tenant confirmation by someone
    who is not its tenant (its owner included), and a get-or-create by
    someone who is neither, throw the method's not-found error and write
    nothing, whether or not the conversation exists. *)
Theorem strangers_are_rejected (env : Env) (c u : string) (s : Store) :
  ((∀ cv, conversations s !! c = Some cv → Conversation.ownerId cv ≠ u) →
   ∀ rent, DealService.ownerConfirmDeal env c u rent s
           = (Throw (Error "Conversation not found or you are not the owner"), s))
  ∧ ((∀ cv, conversations s !! c = Some cv → Conversation.tenantId cv ≠ u) →
     DealService.tenantConfirmDeal env c u s
     = (Throw (Error "Conversation not found or you are not the tenant"), s))
  ∧ ((∀ cv, conversations s !! c = Some cv →
        Conversation.ownerId cv ≠ u ∧ Conversation.tenantId cv ≠ u) →
     ∀ rent, DealService.getOrCreateDeal env c u rent s
             = (Throw (Error "Conversation not found"), s)).
Proof.
  unfold DealService.ownerConfirmDeal, DealService.tenantConfirmDeal,
    DealService.getOrCreateDeal, DealService.findConversation.
  unfold bind, gets.
  destruct (conversations s !! c) as [cv|] eqn:Hc; [|done].
  split; [|split].
  - intros Ho rent. by rewrite (bool_decide_eq_false_2 _ (Ho cv eq_refl)).
  - intros Ht. by rewrite (bool_decide_eq_false_2 _ (Ht cv eq_refl)).
  - intros Hn rent. destruct (Hn cv eq_refl) as [Ho Ht].
    by rewrite (bool_decide_eq_false_2 _ Ho), (bool_decide_eq_false_2 _ Ht).
Qed.

(** The tenant of the sample conversation cannot confirm as its owner. *)
Lemma strangers_are_rejected_witness :
  DealService.ownerConfirmDeal (Sample.at_ 1 "deal-1") "conv-1" "tenant-1"
    (Some 9000) Sample.store
  = (Throw (Error "Conversation not found or you are not the owner"),
     Sample.store).
Proof.
  apply (strangers_are_rejected (Sample.at_ 1 "deal-1") "conv-1" "tenant-1"
           Sample.store).
  intros cv Hcv. vm_compute in Hcv. inversion Hcv. simpl. congruence.
Defined.

(** The owner's first confirmation of a conversation without a deal
    inserts a PENDING_TENANT row under the generated key, with the owner's
    flag set and the rent that was supplied (the listed rent when none or
    0 was), returns that row, and hands exactly one deal-created mail, for
    the tenant, to the mailer when both user rows exist. The property and
    the payment tables are not written. *)
Theorem owner_first_confirmation (env : Env) (c o : string) (rent : option Z)
    (s : Store) (cv : Conversation.t) (p : Property.t) :
  conversations s !! c = Some cv → Conversation.ownerId cv = o →
  properties s !! Conversation.propertyId cv = Some p →
  findDealByConversation c (deals s) = None →
  deals s !! newId env = None →
  let rentAmount := match rent with
                    | Some x => if x =? 0 then Property.rentAmount p else x
                    | None => Property.rentAmount p
                    end in
  let d := ownerCreated env c cv rentAmount in
  DealService.ownerConfirmDeal env c o rent s
  = (Ok (Some d),
     set_outbox (λ ob, (ob ++
       match users s !! Conversation.tenantId cv, users s !! Conversation.ownerId cv with
       | Some t, Some ow =>
           [DealCreatedEmail (User.email t) (User.firstName t) (Property.title p)
              rentAmount (DealService.fullName ow) "tenant"
              (Conversation.tenantId cv)]
       | _, _ => []
       end)%list)
       (set_deals (insert (newId env) d) s)).
Proof.
  intros Hcv Ho Hp Hfind Hnew rentAmount d.
  unfold DealService.ownerConfirmDeal, DealService.findConversation.
  unfold bind at 1. unfold gets at 1. rewrite Hcv.
  rewrite (bool_decide_eq_true_2 _ Ho).
  assert (js_or rent (DealService.rentAmountOf (DealService.includeRelations c cv s)) s
          = (Ok rentAmount, s)) as Hjs.
  { unfold js_or, DealService.rentAmountOf, DealService.propertyOf, rentAmount.
    simpl. rewrite Hp. destruct rent as [x|]; [destruct (x =? 0)|]; done. }
  unfold bind at 1. rewrite Hjs.
  simpl DealService.deal. rewrite Hfind.
  unfold bind at 1. unfold deal_create at 1.
  cbn [Deal.conversationId Deal.set_ownerConfirmedAt Deal.set_ownerConfirmed
       Deal.create]. rewrite Hfind, Hnew.
  rewrite bool_decide_eq_true_2 by done.
  unfold DealService.includeRelations, DealService.propertyOf. simpl.
  rewrite Hp.
  destruct (users s !! Conversation.tenantId cv) as [t|],
           (users s !! Conversation.ownerId cv) as [ow|]; simpl; run;
    unfold DealService.getDealWithDetails, gets; simpl;
    rewrite lookup_insert_eq; unfold set_outbox, set_deals; simpl;
    rewrite ?app_nil_r; done.
Qed.

Lemma owner_first_confirmation_witness :
  (DealService.ownerConfirmDeal (Sample.at_ 1 "deal-1") "conv-1" "owner-1"
     (Some 0) Sample.store).1
  = Ok (Some (ownerCreated (Sample.at_ 1 "deal-1") "conv-1"
                (Conversation.mk "prop-1" "owner-1" "tenant-1") 9000)).
Proof.
  rewrite (owner_first_confirmation (Sample.at_ 1 "deal-1") "conv-1" "owner-1"
             (Some 0) Sample.store (Conversation.mk "prop-1" "owner-1" "tenant-1")
             (Property.mk "2BHK in Baner" 9000 ACTIVE));
    try (vm_compute; reflexivity).
Defined.

Lemma tenantConfirmDeal_completes_run (env : Env) (c t : string) (s : Store)
    (cv : Conversation.t) (id : string) (d : Deal.t) (p : Property.t) :
  conversations s !! c = Some cv → Conversation.tenantId cv = t →
  findDealByConversation c (deals s) = Some (id, d) →
  Deal.ownerConfirmed d = true →
  properties s !! Deal.propertyId d = Some p →
  let d1 := Deal.set_status DEAL_COMPLETED
              (Deal.set_tenantConfirmedAt (Some (now env))
                 (Deal.set_tenantConfirmed true d)) in
  DealService.tenantConfirmDeal env c t s
  = (Ok (Some (completed env d1)),
     set_outbox (λ o, (o ++ completionMails s d (Property.title p))%list)
       (set_properties (insert (Deal.propertyId d) (rented p))
          (set_deals (insert id (completed env d1)) s))).
Proof.
  intros Hcv Ht Hfind Ho Hp d1.
  apply findDealByConversation_Some in Hfind as Hrow. destruct Hrow as [Hd _].
  unfold DealService.tenantConfirmDeal, DealService.findConversation.
  unfold bind at 1. unfold gets at 1. rewrite Hcv.
  rewrite (bool_decide_eq_true_2 _ Ht).
  simpl DealService.deal. rewrite Hfind.
  unfold bind at 1. unfold deal_update at 1. rewrite Hd, Ho.
  rewrite bool_decide_eq_false_2 by done.
  unfold bind at 1. unfold ret at 1. cbn [fst snd].
  fold d1. replace (Deal.ownerConfirmed d1 && Deal.tenantConfirmed d1) with true
    by (unfold d1; simpl; by rewrite Ho).
  unfold when. unfold bind at 1 2.
  rewrite (completeDeal_run env id (set_deals <[id:=d1]> s) d1 p);
    [|apply lookup_insert_eq|exact Hp].
  unfold ret, DealService.getDealWithDetails, gets. simpl.
  rewrite lookup_insert_eq. unfold set_outbox, set_properties, set_deals. simpl.
  rewrite insert_insert_eq. done.
Qed.

(** A tenant confirmation of a deal the owner has confirmed completes it,
    whatever its status was before (PENDING_TENANT, CANCELLED or already
    COMPLETED): the row is COMPLETED with the slab fee of its rent, the
    property is RENTED, and the completion mails go out again; no
    deal-created mail is sent. *)
Theorem tenant_confirmation_completes (env : Env) (c t : string) (s : Store)
    (cv : Conversation.t) (id : string) (d : Deal.t) (p : Property.t) :
  conversations s !! c = Some cv → Conversation.tenantId cv = t →
  findDealByConversation c (deals s) = Some (id, d) →
  Deal.ownerConfirmed d = true →
  properties s !! Deal.propertyId d = Some p →
  let d1 := Deal.set_status DEAL_COMPLETED
              (Deal.set_tenantConfirmedAt (Some (now env))
                 (Deal.set_tenantConfirmed true d)) in
  DealService.tenantConfirmDeal env c t s
  = (Ok (Some (completed env d1)),
     set_outbox (λ o, (o ++ completionMails s d (Property.title p))%list)
       (set_properties (insert (Deal.propertyId d) (rented p))
          (set_deals (insert id (completed env d1)) s))).
Proof. exact (tenantConfirmDeal_completes_run env c t s cv id d p). Qed.

Lemma tenant_confirmation_completes_witness :
  let s := serveAll Sample.confirmThenCancel Sample.store in
  (Deal.status
     <$> deals (DealService.tenantConfirmDeal (Sample.at_ 3 "deal-3") "conv-1"
                  "tenant-1" s).2 !! "deal-1")
  = Some DEAL_COMPLETED.
Proof.
  intros s.
  rewrite (tenant_confirmation_completes (Sample.at_ 3 "deal-3") "conv-1"
             "tenant-1" s (Conversation.mk "prop-1" "owner-1" "tenant-1")
             "deal-1" Sample.cancelledDeal (Property.mk "2BHK in Baner" 9000 ACTIVE));
    try (vm_compute; reflexivity).
Defined.

Lemma findDealByConversation_insert c (m : gmap string Deal.t) k d :
  findDealByConversation c m = None → Deal.conversationId d = c →
  findDealByConversation c (<[k:=d]> m) = Some (k, d).
Proof.
  intros Hnone Hc. unfold findDealByConversation in *.
  apply fmap_None, list_find_None in Hnone.
  destruct (list_find _ (map_to_list (<[k:=d]> m))) as [[i [k' d']]|] eqn:Hf.
  - apply list_find_Some in Hf as (Hl & HP & _). simpl in HP.
    apply list_elem_of_lookup_2, elem_of_map_to_list in Hl.
    destruct (decide (k = k')) as [<-|Hne].
    + rewrite lookup_insert_eq in Hl. by inversion Hl.
    + rewrite lookup_insert_ne in Hl by done.
      apply elem_of_map_to_list in Hl.
      rewrite Forall_forall in Hnone. by destruct (Hnone _ Hl).
  - apply list_find_None in Hf. rewrite Forall_forall in Hf.
    destruct (Hf (k, d)); [|done].
    apply elem_of_map_to_list, lookup_insert_eq.
Qed.

Lemma getOrCreateDeal_existing env c u rent s cv kd :
  conversations s !! c = Some cv →
  bool_decide (Conversation.ownerId cv = u)
  || bool_decide (Conversation.tenantId cv = u) = true →
  findDealByConversation c (deals s) = Some kd →
  DealService.getOrCreateDeal env c u rent s = (Ok kd, s).
Proof.
  intros Hcv Hparty Hfind.
  unfold DealService.getOrCreateDeal, DealService.findConversation.
  unfold bind, gets. by rewrite Hcv, Hparty, Hfind.
Qed.

(** [getOrCreateDeal] is idempotent: once a call has returned a deal, a
    further call by the same user for the same conversation returns that
    same row and writes nothing, whatever rent it is given; so the rent of
    an existing deal is never replaced by this method. *)
Theorem getOrCreateDeal_idempotent (env1 env2 : Env) (c u : string)
    (rent1 rent2 : Z) (s : Store) (id : string) (d : Deal.t) :
  let out := DealService.getOrCreateDeal env1 c u rent1 s in
  out.1 = Ok (id, d) →
  DealService.getOrCreateDeal env2 c u rent2 out.2 = (Ok (id, d), out.2).
Proof.
  intros out. subst out.
  destruct (DealService.getOrCreateDeal env1 c u rent1 s) as [res s1] eqn:Hrun.
  simpl. intros ->. revert Hrun.
  unfold DealService.getOrCreateDeal at 1, DealService.findConversation.
  unfold bind at 1. unfold gets at 1.
  destruct (conversations s !! c) as [cv|] eqn:Hcv; [|done].
  destruct (_ || _) eqn:Hparty; [|done].
  unfold bind at 1. unfold gets at 1.
  destruct (findDealByConversation c (deals s)) as [[k0 d0]|] eqn:Hfind.
  - intros [= <- <- <-].
    by apply (getOrCreateDeal_existing env2 c u rent2 s cv).
  - unfold bind at 1.
    destruct (js_or_rentAmount (Some rent1) (DealService.includeRelations c cv s) s)
      as (o' & -> & _).
    destruct o' as [r|e]; [|done].
    unfold deal_create. cbn [Deal.conversationId Deal.create]. rewrite Hfind.
    destruct (deals s !! newId env1) eqn:Hnew; [done|].
    intros [= <- <- <-].
    apply (getOrCreateDeal_existing env2 c u rent2 _ cv); [done|done|].
    by apply findDealByConversation_insert.
Qed.

Lemma getOrCreateDeal_idempotent_witness :
  let out := DealService.getOrCreateDeal (Sample.at_ 1 "deal-1") "conv-1"
               "tenant-1" 12000 Sample.store in
  (fst <$> match (DealService.getOrCreateDeal (Sample.at_ 2 "deal-2") "conv-1"
                    "tenant-1" 15000 out.2).1 with
           | Ok kd => Some kd
           | Throw _ => None
           end) = Some "deal-1"%string.
Proof.
  intros out. subst out.
  rewrite (getOrCreateDeal_idempotent (Sample.at_ 1 "deal-1")
             (Sample.at_ 2 "deal-2") "conv-1" "tenant-1" 12000 15000 Sample.store
             "deal-1"
             (Deal.create "conv-1" "prop-1" "owner-1" "tenant-1" 12000 PENDING_BOTH)
             ltac:(vm_compute; reflexivity)).
  reflexivity.
Defined.

(** [getDealByConversation] shows a deal to its owner and to its tenant
    only: the row it returns is a row of the table for that conversation
    with the caller as a party, a caller who is no party of any deal of
    the conversation gets null, and the store is never written. *)
Theorem getDealByConversation_parties_only (c u : string) (s : Store) :
  let out := DealService.getDealByConversation c u s in
  out.2 = s
  ∧ (∀ id d, out.1 = Ok (Some (id, d)) →
       deals s !! id = Some d ∧ Deal.conversationId d = c
       ∧ (Deal.ownerId d = u ∨ Deal.tenantId d = u))
  ∧ ((∀ id d, deals s !! id = Some d → Deal.conversationId d = c →
        Deal.ownerId d ≠ u ∧ Deal.tenantId d ≠ u) →
     out.1 = Ok None)
  ∧ (∀ id d, deals s !! id = Some d → Deal.conversationId d = c →
       Deal.ownerId d = u ∨ Deal.tenantId d = u →
       ∃ kd, out.1 = Ok (Some kd)).
Proof.
  unfold DealService.getDealByConversation, gets. simpl.
  split; [done|]. split; [|split].
  - intros id d [= H]. apply fmap_Some in H as ([i [k x]] & Hf & Heq).
    simpl in Heq. inversion Heq; subst k x.
    apply list_find_Some in Hf as (Hl & HP & _). simpl in HP.
    apply list_elem_of_lookup_2, elem_of_map_to_list in Hl. tauto.
  - intros Hno. f_equal. apply fmap_None, list_find_None, Forall_forall.
    intros [k x] Hin [Hc Hu]. simpl in *. apply elem_of_map_to_list in Hin.
    destruct (Hno k x Hin Hc). tauto.
  - intros id d Hd Hc Hu.
    destruct (list_find _ (map_to_list (deals s))) as [[i kd]|] eqn:Hf.
    + by exists kd.
    + apply list_find_None in Hf. rewrite Forall_forall in Hf.
      destruct (Hf (id, d)); [by apply elem_of_map_to_list|done].
Qed.

Lemma getDealByConversation_parties_only_witness :
  (DealService.getDealByConversation "conv-1" "mallory"
     (serveAll Sample.bothConfirm Sample.store)).1 = Ok None.
Proof.
  apply (getDealByConversation_parties_only "conv-1" "mallory"
           (serveAll Sample.bothConfirm Sample.store)).
  intros id d Hd _. apply elem_of_map_to_list in Hd.
  set (l := map_to_list (deals (serveAll Sample.bothConfirm Sample.store))) in Hd.
  vm_compute in (value of l). subst l.
  apply list_elem_of_singleton in Hd. inversion Hd. simpl. split; congruence.
Defined.

Lemma createPaymentOrder_reaches_gateway pf env gateway data s d tenant owner :
  deals s !! PaymentService.cpo_dealId data = Some d →
  Deal.status d = DEAL_COMPLETED →
  payable (findPaymentByDeal (PaymentService.cpo_dealId data) (payments s)) →
  users s !! Deal.tenantId d = Some tenant →
  users s !! Deal.ownerId d = Some owner →
  PaymentService.createPaymentOrder pf env gateway data s
  = (let* order := callGateway (orderCall env data d tenant owner) gateway in
     let* payment :=
       match JsNumber.toInt (amountInPaise data) with
       | None => throw (PrismaValidationError "Invalid value for argument amount")
       | Some paise =>
           payment_upsert env (PaymentService.cpo_dealId data)
             (orderedPayment pf data order paise)
             (λ p, Payment.set_status INITIATED
                     (Payment.set_razorpayOrderId (Some (order_id order)) p))
       end in
     paymentLog_create env payment.1 "PAYMENT_INITIATED" SUCCESS
       (Some (OrderJson order)) None ;;
     ret (orderResponse data order)) s.
Proof.
  intros Hd Hst Hpay Ht Ho.
  unfold PaymentService.createPaymentOrder. rewrite try_catch_rethrow.
  unfold bind at 1. unfold gets at 1. rewrite Hd.
  rewrite (bool_decide_eq_true_2 _ Hst). cbn [negb].
  unfold bind at 1. unfold gets at 1.
  assert (match findPaymentByDeal (PaymentService.cpo_dealId data) (payments s) with
          | Some (_, p) => bool_decide (Payment.status p = COMPLETED)
          | None => false
          end = false) as ->.
  { unfold payable in Hpay.
    destruct (findPaymentByDeal _ _) as [[k p]|]; [|done].
    by apply bool_decide_eq_false_2. }
  unfold bind at 1. unfold gets at 1. rewrite Ht.
  unfold bind at 1. unfold gets at 1. rewrite Ho.
  reflexivity.
Qed.

Lemma createPaymentOrder_rejected_run (pf : Platform) (env : Env)
    (gateway : Outcome GatewayOrder)
    (data : PaymentService.CreatePaymentOrderDto) (s : Store) :
  let call := PaymentService.createPaymentOrder pf env gateway data s in
  (deals s !! PaymentService.cpo_dealId data = None →
     call = (Throw (Error "Deal not found"), s))
  ∧ (∀ d, deals s !! PaymentService.cpo_dealId data = Some d →
       Deal.status d ≠ DEAL_COMPLETED →
       call = (Throw (Error "Deal must be completed before processing payment"), s))
  ∧ (∀ d id p, deals s !! PaymentService.cpo_dealId data = Some d →
       Deal.status d = DEAL_COMPLETED →
       findPaymentByDeal (PaymentService.cpo_dealId data) (payments s)
       = Some (id, p) →
       Payment.status p = COMPLETED →
       call = (Throw (Error "Payment already completed for this deal"), s)).
Proof.
  intros call. subst call. split; [|split].
  - intros Hd. unfold PaymentService.createPaymentOrder.
    rewrite try_catch_rethrow. unfold bind at 1. unfold gets at 1.
    by rewrite Hd.
  - intros d Hd Hst. unfold PaymentService.createPaymentOrder.
    rewrite try_catch_rethrow. unfold bind at 1. unfold gets at 1.
    rewrite Hd. by rewrite (bool_decide_eq_false_2 _ Hst).
  - intros d id p Hd Hst Hfind Hp. unfold PaymentService.createPaymentOrder.
    rewrite try_catch_rethrow. unfold bind at 1. unfold gets at 1.
    rewrite Hd. rewrite (bool_decide_eq_true_2 _ Hst). cbn [negb].
    unfold bind at 1. unfold gets at 1. rewrite Hfind.
    by rewrite (bool_decide_eq_true_2 _ Hp).
Qed.

(** [createPaymentOrder] throws, without a request to the gateway and
    without any write, when the deal does not exist, when the deal is not
    COMPLETED, and when the deal's payment is already COMPLETED. *)
Theorem createPaymentOrder_rejections (pf : Platform) (env : Env)
    (gateway : Outcome GatewayOrder)
    (data : PaymentService.CreatePaymentOrderDto) (s : Store) :
  let call := PaymentService.createPaymentOrder pf env gateway data s in
  (deals s !! PaymentService.cpo_dealId data = None →
     call = (Throw (Error "Deal not found"), s))
  ∧ (∀ d, deals s !! PaymentService.cpo_dealId data = Some d →
       Deal.status d ≠ DEAL_COMPLETED →
       call = (Throw (Error "Deal must be completed before processing payment"), s))
  ∧ (∀ d id p, deals s !! PaymentService.cpo_dealId data = Some d →
       Deal.status d = DEAL_COMPLETED →
       findPaymentByDeal (PaymentService.cpo_dealId data) (payments s)
       = Some (id, p) →
       Payment.status p = COMPLETED →
       call = (Throw (Error "Payment already completed for this deal"), s)).
Proof. exact (createPaymentOrder_rejected_run pf env gateway data s). Qed.

Lemma createPaymentOrder_rejections_witness :
  PaymentService.createPaymentOrder SamplePayment.platform (Sample.at_ 6 "pay-4")
    (Ok SamplePayment.order) SamplePayment.orderRequest SamplePayment.paid
  = (Throw (Error "Payment already completed for this deal"), SamplePayment.paid).
Proof.
  eapply (proj2 (proj2 (createPaymentOrder_rejections SamplePayment.platform
                          (Sample.at_ 6 "pay-4") (Ok SamplePayment.order)
                          SamplePayment.orderRequest SamplePayment.paid)));
    try (vm_compute; reflexivity).
Defined.

(** The first order for a COMPLETED deal. The amount in paise is
    [Math.round(amount * 100)], computed in binary64, whatever number the
    request names; when it is an integer, there is one request to the
    gateway for it, a payment row under the generated key with that
    integer as its amount, the gateway's order id and the default status,
    and one log row (PAYMENT_INITIATED, SUCCESS); the deal is not written,
    and the answer repeats the amount as it was given. *)
Theorem createPaymentOrder_first_order (pf : Platform) (env : Env)
    (order : GatewayOrder) (data : PaymentService.CreatePaymentOrderDto)
    (s : Store) (d : Deal.t) (tenant owner : User.t) (paise : Z) :
  deals s !! PaymentService.cpo_dealId data = Some d →
  Deal.status d = DEAL_COMPLETED →
  findPaymentByDeal (PaymentService.cpo_dealId data) (payments s) = None →
  users s !! Deal.tenantId d = Some tenant →
  users s !! Deal.ownerId d = Some owner →
  payments s !! newId env = None →
  JsNumber.toInt
    (JsNumber.Math_round
       (JsNumber.mul (PaymentService.cpo_amount data) (JsNumber.of_Z 100)))
  = Some paise →
  PaymentService.createPaymentOrder pf env (Ok order) data s
  = (Ok (orderResponse data order),
     set_paymentLogs (λ l, (l ++
       [logRow env (newId env) "PAYMENT_INITIATED" SUCCESS
          (Some (OrderJson order)) None])%list)
       (set_payments (insert (newId env) (orderedPayment pf data order paise))
          (set_gatewayCalls (λ l, (l ++ [orderCall env data d tenant owner])%list)
             s))).
Proof.
  intros Hd Hst Hfind Ht Ho Hnew Hpaise.
  rewrite (createPaymentOrder_reaches_gateway pf env _ data s d tenant owner);
    [|done|done|by rewrite Hfind|done|done].
  unfold bind at 1. unfold callGateway at 1.
  unfold amountInPaise. rewrite Hpaise.
  unfold bind at 1. unfold payment_upsert at 1. simpl payments.
  rewrite Hfind, Hnew. reflexivity.
Qed.

Lemma createPaymentOrder_first_order_witness :
  let s := serveAll Sample.bothConfirm Sample.store in
  let out := PaymentService.createPaymentOrder SamplePayment.platform
               (Sample.at_ 3 "pay-1") (Ok SamplePayment.order)
               SamplePayment.orderRequest s in
  out.1 = Ok (orderResponse SamplePayment.orderRequest SamplePayment.order)
  ∧ (Payment.amount <$> payments out.2 !! "pay-1") = Some 29900
  ∧ gatewayCalls out.2
    = [OrdersCreate (JsNumber.of_Z 29900) "INR" "deal_deal-1_3" "deal-1" "prop-1"
         "Ravi Nair" "Asha Rao"].
Proof.
  intros s out. subst out.
  erewrite (createPaymentOrder_first_order SamplePayment.platform
              (Sample.at_ 3 "pay-1") SamplePayment.order
              SamplePayment.orderRequest s _ _ _ 29900);
    try (vm_compute; reflexivity).
  repeat split; vm_compute; reflexivity.
Defined.

(** A further order for a deal whose payment is not COMPLETED replaces the
    gateway order id and sets the status to INITIATED; the amount, payer,
    description and notes of the row stay those of the first order,
    whatever amount the new request names, as long as that amount gives
    an integer number of paise. *)
Theorem createPaymentOrder_reorder_keeps_amount (pf : Platform) (env : Env)
    (order : GatewayOrder) (data : PaymentService.CreatePaymentOrderDto)
    (s : Store) (d : Deal.t) (tenant owner : User.t) (id : string)
    (p : Payment.t) (paise : Z) :
  deals s !! PaymentService.cpo_dealId data = Some d →
  Deal.status d = DEAL_COMPLETED →
  findPaymentByDeal (PaymentService.cpo_dealId data) (payments s) = Some (id, p) →
  Payment.status p ≠ COMPLETED →
  users s !! Deal.tenantId d = Some tenant →
  users s !! Deal.ownerId d = Some owner →
  JsNumber.toInt
    (JsNumber.Math_round
       (JsNumber.mul (PaymentService.cpo_amount data) (JsNumber.of_Z 100)))
  = Some paise →
  let p' := Payment.set_status INITIATED
              (Payment.set_razorpayOrderId (Some (order_id order)) p) in
  PaymentService.createPaymentOrder pf env (Ok order) data s
  = (Ok (orderResponse data order),
     set_paymentLogs (λ l, (l ++
       [logRow env id "PAYMENT_INITIATED" SUCCESS (Some (OrderJson order)) None])%list)
       (set_payments (insert id p')
          (set_gatewayCalls (λ l, (l ++ [orderCall env data d tenant owner])%list)
             s)))
  ∧ Payment.amount p' = Payment.amount p
  ∧ Payment.payerId p' = Payment.payerId p
  ∧ Payment.description p' = Payment.description p
  ∧ Payment.notes p' = Payment.notes p.
Proof.
  intros Hd Hst Hfind Hp Ht Ho Hpaise p'. split; [|done].
  rewrite (createPaymentOrder_reaches_gateway pf env _ data s d tenant owner);
    [|done|done|by rewrite Hfind|done|done].
  unfold bind at 1. unfold callGateway at 1.
  unfold amountInPaise. rewrite Hpaise.
  unfold bind at 1. unfold payment_upsert at 1. simpl payments.
  rewrite Hfind. reflexivity.
Qed.

Lemma createPaymentOrder_reorder_keeps_amount_witness :
  let s := servePayment SamplePayment.platform (Sample.at_ 3 "pay-1")
             (CreateOrder (Ok SamplePayment.order) SamplePayment.orderRequest)
             (serveAll Sample.bothConfirm Sample.store) in
  let bigger :=
    {| PaymentService.cpo_dealId := "deal-1";
       PaymentService.cpo_amount := JsNumber.of_Z 999;
       PaymentService.cpo_description := "again";
       PaymentService.cpo_payerId := "owner-1";
       PaymentService.cpo_email := "asha@example.com";
       PaymentService.cpo_phone := "8888888888";
       PaymentService.cpo_userName := "asha@example.com" |} in
  (Payment.amount
     <$> payments (PaymentService.createPaymentOrder SamplePayment.platform
                     (Sample.at_ 4 "pay-2") (Ok SamplePayment.order) bigger s).2
           !! "pay-1")
  = Some 29900.
Proof.
  intros s bigger.
  destruct (findPaymentByDeal "deal-1" (payments s)) as [[id p]|] eqn:Hfind;
    [|vm_compute in Hfind; done].
  assert (id = "pay-1"%string ∧ Payment.amount p = 29900
          ∧ Payment.status p ≠ COMPLETED) as (-> & Hamount & Hst).
  { vm_compute in Hfind. inversion Hfind. by repeat split. }
  destruct (deals s !! "deal-1") as [d|] eqn:Hd; [|vm_compute in Hd; done].
  assert (Deal.status d = DEAL_COMPLETED ∧ Deal.tenantId d = "tenant-1"%string
          ∧ Deal.ownerId d = "owner-1"%string) as (Hdst & Htid & Hoid).
  { vm_compute in Hd. inversion Hd. by repeat split. }
  destruct (users s !! "tenant-1") as [t|] eqn:Ht; [|vm_compute in Ht; done].
  destruct (users s !! "owner-1") as [o|] eqn:Ho; [|vm_compute in Ho; done].
  assert (JsNumber.toInt
            (JsNumber.Math_round
               (JsNumber.mul (PaymentService.cpo_amount bigger) (JsNumber.of_Z 100)))
          = Some 99900) as Hpaise by (vm_compute; reflexivity).
  clearbody s. rewrite <- Htid in Ht. rewrite <- Hoid in Ho.
  destruct (createPaymentOrder_reorder_keeps_amount SamplePayment.platform
              (Sample.at_ 4 "pay-2") SamplePayment.order bigger s d t o
              "pay-1" p 99900 Hd Hdst Hfind Hst Ht Ho Hpaise) as (Hrun & Ha & _).
  rewrite Hrun. cbn [snd payments set_payments set_paymentLogs].
  rewrite lookup_insert_eq. cbn [fmap option_fmap option_map]. by rewrite Ha, Hamount.
Defined.

(** When the gateway rejects the order, the error is passed on, the
    request to the gateway, for [Math.round(amount * 100)] paise as
    computed in binary64, is the only trace, and no payment or log row
    is written. *)
Theorem createPaymentOrder_gateway_failure (pf : Platform) (env : Env)
    (e : Exn) (data : PaymentService.CreatePaymentOrderDto) (s : Store)
    (d : Deal.t) (tenant owner : User.t) :
  deals s !! PaymentService.cpo_dealId data = Some d →
  Deal.status d = DEAL_COMPLETED →
  payable (findPaymentByDeal (PaymentService.cpo_dealId data) (payments s)) →
  users s !! Deal.tenantId d = Some tenant →
  users s !! Deal.ownerId d = Some owner →
  PaymentService.createPaymentOrder pf env (Throw e) data s
  = (Throw e,
     set_gatewayCalls (λ l, (l ++ [orderCall env data d tenant owner])%list) s).
Proof.
  intros Hd Hst Hpay Ht Ho.
  by rewrite (createPaymentOrder_reaches_gateway pf env _ data s d tenant owner).
Qed.

Lemma createPaymentOrder_gateway_failure_witness :
  let s := serveAll Sample.bothConfirm Sample.store in
  payments (PaymentService.createPaymentOrder SamplePayment.platform
              (Sample.at_ 3 "pay-1") (Throw (Error "gateway unavailable"))
              SamplePayment.orderRequest s).2
  = payments s.
Proof.
  intros s.
  assert (findPaymentByDeal "deal-1" (payments s) = None) as Hfind
    by (vm_compute; reflexivity).
  destruct (deals s !! "deal-1") as [d|] eqn:Hd; [|vm_compute in Hd; done].
  assert (Deal.status d = DEAL_COMPLETED ∧ Deal.tenantId d = "tenant-1"%string
          ∧ Deal.ownerId d = "owner-1"%string) as (Hdst & Htid & Hoid).
  { vm_compute in Hd. inversion Hd. by repeat split. }
  destruct (users s !! "tenant-1") as [t|] eqn:Ht; [|vm_compute in Ht; done].
  destruct (users s !! "owner-1") as [o|] eqn:Ho; [|vm_compute in Ho; done].
  clearbody s. rewrite <- Htid in Ht. rewrite <- Hoid in Ho.
  rewrite (createPaymentOrder_gateway_failure SamplePayment.platform
             (Sample.at_ 3 "pay-1") (Error "gateway unavailable")
             SamplePayment.orderRequest s d t o Hd Hdst);
    [reflexivity| |exact Ht|exact Ho].
  unfold payable. cbn [PaymentService.cpo_dealId SamplePayment.orderRequest].
  by rewrite Hfind.
Defined.

(** ** Verification and webhooks *)

(** [verifyPayment] throws before the signature is looked at, and writes
    nothing (no log row either), when the deal has no payment row and when
    the stored order id is not the supplied one. *)
Theorem verifyPayment_early_rejections (pf : Platform) (env : Env)
    (data : PaymentService.VerifyPaymentDto) (s : Store) :
  (findPaymentByDeal (PaymentService.dealId data) (payments s) = None →
     PaymentService.verifyPayment pf env data s
     = (Throw (Error "Payment record not found"), s))
  ∧ (∀ id p,
       findPaymentByDeal (PaymentService.dealId data) (payments s) = Some (id, p) →
       Payment.razorpayOrderId p ≠ Some (PaymentService.razorpayOrderId data) →
       PaymentService.verifyPayment pf env data s
       = (Throw (Error "Order ID mismatch"), s)).
Proof. exact (verifyPayment_rejected_run pf env data s). Qed.

Lemma verifyPayment_early_rejections_witness :
  PaymentService.verifyPayment SamplePayment.platform (Sample.at_ 5 "pay-3")
    (SamplePayment.verification "pay_1" "key-secret/order_1|pay_1")
    (serveAll Sample.bothConfirm Sample.store)
  = (Throw (Error "Payment record not found"),
     serveAll Sample.bothConfirm Sample.store).
Proof.
  apply (proj1 (verifyPayment_early_rejections SamplePayment.platform
                  (Sample.at_ 5 "pay-3")
                  (SamplePayment.verification "pay_1" "key-secret/order_1|pay_1")
                  (serveAll Sample.bothConfirm Sample.store))).
  vm_compute. reflexivity.
Defined.

Lemma handleWebhook_valid pf env data s :
  PaymentService.handleWebhook pf env data
    (hmac_sha256_hex pf (webhookSecret pf) (JSON_stringify pf data)) s
  = (if String.eqb (event data) "payment.authorized"
     then PaymentService.handlePaymentAuthorized env (payload data)
     else if String.eqb (event data) "payment.completed"
     then PaymentService.handlePaymentCompleted env (payload data)
     else if String.eqb (event data) "payment.failed"
     then PaymentService.handlePaymentFailed env (payload data)
     else if String.eqb (event data) "refund.completed"
     then PaymentService.handleRefundCompleted env (payload data)
     else ret tt) s.
Proof.
  unfold PaymentService.handleWebhook. rewrite try_catch_rethrow.
  by rewrite String.eqb_refl.
Qed.

(** A webhook with a valid signature returns without an error and writes
    nothing when its event name is none of the four handled ones, when
    the payload carries no entity, and when no payment row matches the
    order id or payment id of the entity. *)
Theorem webhook_ignores_what_it_does_not_know (pf : Platform) (env : Env)
    (data : PaymentWebhookData) (s : Store) :
  event data ∉ handledEvents
  ∨ (payment (payload data) = None ∧ refund (payload data) = None)
  ∨ (∀ e, payment (payload data) = Some e →
       findPaymentByOrder (pe_order_id e) (payments s) = None
       ∧ findPaymentByPaymentId (pe_id e) (payments s) = None)
    ∧ (∀ r, refund (payload data) = Some r →
         findPaymentByPaymentId (re_payment_id r) (payments s) = None) →
  PaymentService.handleWebhook pf env data
    (hmac_sha256_hex pf (webhookSecret pf) (JSON_stringify pf data)) s
  = (Ok tt, s).
Proof.
  intros H. rewrite handleWebhook_valid.
  assert (∀ name, In name handledEvents → String.eqb (event data) name = true →
            event data ∉ handledEvents → False) as Hin.
  { intros name Hn He Hev. apply Hev, list_elem_of_In.
    apply String.eqb_eq in He. by rewrite He. }
  destruct (String.eqb (event data) "payment.authorized") eqn:E1;
    [|destruct (String.eqb (event data) "payment.completed") eqn:E2;
      [|destruct (String.eqb (event data) "payment.failed") eqn:E3;
        [|destruct (String.eqb (event data) "refund.completed") eqn:E4;
          [|done]]]];
    unfold PaymentService.handlePaymentAuthorized,
      PaymentService.handlePaymentCompleted, PaymentService.handlePaymentFailed,
      PaymentService.handleRefundCompleted, bind, gets, ret;
    (destruct H as [Hev|[[Hp Hr]|[Hp Hr]]];
     [ exfalso; eapply Hin; [|eassumption|exact Hev]; simpl; auto 10
     | by rewrite ?Hp, ?Hr
     | destruct (payment (payload data)) as [e|];
       [destruct (Hp e eq_refl) as [H1 H2]; rewrite ?H1, ?H2|];
       (destruct (refund (payload data)) as [r|]; [rewrite ?(Hr r eq_refl)|]);
       done ]).
Qed.

Lemma webhook_ignores_what_it_does_not_know_witness :
  let data := {| event := "order.paid";
                 payload := {| payment := Some {| pe_id := "pay_1";
                                                  pe_order_id := "order_1";
                                                  pe_method := "upi" |};
                               refund := None |} |} in
  PaymentService.handleWebhook SamplePayment.platform (Sample.at_ 7 "pay-5")
    data "webhook-secret/order.paid" SamplePayment.paid
  = (Ok tt, SamplePayment.paid).
Proof.
  intros data.
  apply (webhook_ignores_what_it_does_not_know SamplePayment.platform
           (Sample.at_ 7 "pay-5") data SamplePayment.paid).
  left. intros Hin. apply list_elem_of_In in Hin. simpl in Hin.
  intuition congruence.
Defined.

(** payment.authorized appends one log row (PAYMENT_AUTHORIZED, SUCCESS)
    and writes no payment or deal. payment.failed sets the matched payment
    to FAILED with the time, whatever its status was (a COMPLETED payment
    included), appends one log row (PAYMENT_FAILED, FAILED) and does not
    write the deal, which therefore keeps its payment status. *)
Theorem webhook_authorized_and_failed (env : Env) (e : PaymentEntity)
    (rf : option RefundEntity) (s : Store) (id : string) (p : Payment.t) :
  findPaymentByOrder (pe_order_id e) (payments s) = Some (id, p) →
  PaymentService.handlePaymentAuthorized env {| payment := Some e; refund := rf |} s
  = (Ok tt,
     set_paymentLogs (λ l, (l ++
       [logRow env id "PAYMENT_AUTHORIZED" SUCCESS (Some (PaymentJson e)) None])%list)
       s)
  ∧ PaymentService.handlePaymentFailed env {| payment := Some e; refund := rf |} s
    = (Ok tt,
       set_paymentLogs (λ l, (l ++
         [logRow env id "PAYMENT_FAILED" LOG_FAILED (Some (PaymentJson e)) None])%list)
         (set_payments
            (insert id (Payment.set_failedAt (Some (now env))
                          (Payment.set_status FAILED p))) s)).
Proof.
  intros Hfind.
  apply findPaymentBy_Some in Hfind as Hrow. destruct Hrow as [Hrow _].
  unfold PaymentService.handlePaymentAuthorized,
    PaymentService.handlePaymentFailed. cbn [payment].
  unfold bind at 1. unfold gets at 1. rewrite Hfind. split; [done|].
  unfold bind at 1. unfold gets at 1. rewrite Hfind.
  unfold bind at 1. unfold payment_update at 1. by rewrite Hrow.
Qed.

Lemma webhook_authorized_and_failed_witness :
  let out := PaymentService.handlePaymentFailed (Sample.at_ 7 "pay-5")
               {| payment := Some {| pe_id := "pay_1"; pe_order_id := "order_1";
                                     pe_method := "upi" |};
                  refund := None |} SamplePayment.paid in
  (Payment.status <$> payments SamplePayment.paid !! "pay-1") = Some COMPLETED
  ∧ (Payment.status <$> payments out.2 !! "pay-1") = Some FAILED
  ∧ (Deal.paymentStatus <$> deals out.2 !! "deal-1") = Some PAID.
Proof.
  intros out. subst out.
  destruct (findPaymentByOrder "order_1" (payments SamplePayment.paid))
    as [[id p]|] eqn:Hfind; [|vm_compute in Hfind; done].
  assert (id = "pay-1"%string) as -> by (vm_compute in Hfind; by inversion Hfind).
  assert ((Payment.status <$> payments SamplePayment.paid !! "pay-1")
          = Some COMPLETED) as H1 by (vm_compute; reflexivity).
  assert ((Deal.paymentStatus <$> deals SamplePayment.paid !! "deal-1")
          = Some PAID) as H2 by (vm_compute; reflexivity).
  generalize dependent SamplePayment.paid. intros s Hfind H1 H2.
  rewrite (proj2 (webhook_authorized_and_failed (Sample.at_ 7 "pay-5")
                    {| pe_id := "pay_1"; pe_order_id := "order_1";
                       pe_method := "upi" |} None s "pay-1" p Hfind)).
  cbn [snd payments deals set_payments set_paymentLogs].
  rewrite lookup_insert_eq. done.
Defined.

Lemma refundPayment_run env refund dealId reason s id p rp :
  findPaymentByDeal dealId (payments s) = Some (id, p) →
  Payment.razorpayPaymentId p = Some rp → rp ≠ ""%string →
  Payment.status p = COMPLETED →
  PaymentService.refundPayment env (Ok refund) dealId reason s
  = (Ok refund,
     set_paymentLogs (λ l, (l ++
       [logRow env id "REFUND_INITIATED" SUCCESS (Some (RefundJson refund)) None])%list)
       (set_gatewayCalls (λ l, (l ++
          [PaymentsRefund rp (Payment.amount p) dealId (refundReason reason)])%list)
          s)).
Proof.
  intros Hfind Hrp Hne Hst. unfold PaymentService.refundPayment.
  rewrite try_catch_rethrow. unfold bind at 1. unfold gets at 1.
  rewrite Hfind, Hrp. destruct rp as [|a rp]; [done|].
  by rewrite (bool_decide_eq_true_2 _ Hst).
Qed.

Lemma handleRefundCompleted_run env payload rp id p s :
  refund payload = Some {| re_payment_id := rp |} →
  findPaymentByPaymentId rp (payments s) = Some (id, p) →
  PaymentService.handleRefundCompleted env payload s
  = (Ok tt,
     set_paymentLogs (λ l, (l ++
       [logRow env id "REFUND_COMPLETED" SUCCESS
          (Some (RefundEntityJson {| re_payment_id := rp |})) None])%list)
       (set_payments
          (insert id (Payment.set_refundedAt (Some (now env))
                        (Payment.set_status REFUNDED p))) s)).
Proof.
  intros Hre Hfind.
  apply findPaymentBy_Some in Hfind as Hrow. destruct Hrow as [Hrow _].
  unfold PaymentService.handleRefundCompleted. rewrite Hre.
  unfold bind at 1. unfold gets at 1. cbn [re_payment_id]. rewrite Hfind.
  unfold bind at 1. unfold payment_update at 1. by rewrite Hrow.
Qed.

(** A refund requested for a COMPLETED payment and then confirmed by the
    gateway's refund.completed webhook for the same gateway payment id
    ends with the payment REFUNDED at the webhook's time and two new log
    rows, REFUND_INITIATED then REFUND_COMPLETED. Neither step writes the
    deal, which keeps the payment status and payment id it had. *)
Theorem refund_then_webhook_refunds (pf : Platform) (env1 env2 : Env)
    (reply : GatewayRefund) (dealId : string) (reason : option string)
    (s : Store) (id : string) (p : Payment.t) (rp : string)
    (data : PaymentWebhookData) :
  findPaymentByDeal dealId (payments s) = Some (id, p) →
  Payment.razorpayPaymentId p = Some rp → rp ≠ ""%string →
  Payment.status p = COMPLETED →
  findPaymentByPaymentId rp (payments s) = Some (id, p) →
  event data = "refund.completed"%string →
  refund (payload data) = Some {| re_payment_id := rp |} →
  let s1 := (PaymentService.refundPayment env1 (Ok reply) dealId reason s).2 in
  let out := PaymentService.handleWebhook pf env2 data
               (hmac_sha256_hex pf (webhookSecret pf) (JSON_stringify pf data)) s1 in
  out.1 = Ok tt
  ∧ payments out.2
    = <[id := Payment.set_refundedAt (Some (now env2))
                (Payment.set_status REFUNDED p)]> (payments s)
  ∧ paymentLogs out.2
    = (paymentLogs s ++
       [logRow env1 id "REFUND_INITIATED" SUCCESS (Some (RefundJson reply)) None;
        logRow env2 id "REFUND_COMPLETED" SUCCESS
          (Some (RefundEntityJson {| re_payment_id := rp |})) None])%list
  ∧ deals out.2 = deals s.
Proof.
  intros Hfind Hrp Hne Hst Hbyid Hev Hre s1 out. subst out s1.
  rewrite (refundPayment_run env1 reply dealId reason s id p rp Hfind Hrp Hne Hst).
  cbn [snd].
  match goal with
  | |- context [PaymentService.handleWebhook pf env2 data ?sig ?s1] =>
      assert (PaymentService.handleWebhook pf env2 data sig s1
              = (Ok tt,
                 set_paymentLogs (λ l, (l ++
                   [logRow env2 id "REFUND_COMPLETED" SUCCESS
                      (Some (RefundEntityJson {| re_payment_id := rp |})) None])%list)
                   (set_payments
                      (insert id (Payment.set_refundedAt (Some (now env2))
                                    (Payment.set_status REFUNDED p))) s1))) as ->
  end.
  { rewrite handleWebhook_valid, Hev.
    change ("refund.completed" =? "payment.authorized")%string with false.
    change ("refund.completed" =? "payment.completed")%string with false.
    change ("refund.completed" =? "payment.failed")%string with false.
    change ("refund.completed" =? "refund.completed")%string with true.
    cbv iota.
    match goal with
    | |- PaymentService.handleRefundCompleted _ _ ?st = _ =>
        by rewrite (handleRefundCompleted_run env2 (payload data) rp id p st
                      Hre Hbyid)
    end. }
  simpl. by rewrite <- app_assoc.
Qed.

Lemma refund_then_webhook_refunds_witness :
  let data := {| event := "refund.completed";
                 payload := {| payment := None;
                               refund := Some {| re_payment_id := "pay_1" |} |} |} in
  let s1 := (PaymentService.refundPayment (Sample.at_ 6 "pay-4")
               (Ok {| refund_id := "rfnd_1" |}) "deal-1" None
               SamplePayment.paid).2 in
  (Payment.status
     <$> payments (PaymentService.handleWebhook SamplePayment.platform
                     (Sample.at_ 7 "pay-5") data
                     "webhook-secret/refund.completed" s1).2 !! "pay-1")
  = Some REFUNDED.
Proof.
  intros data s1. subst s1.
  destruct (findPaymentByDeal "deal-1" (payments SamplePayment.paid))
    as [[id p]|] eqn:Hfind; [|vm_compute in Hfind; done].
  assert (id = "pay-1"%string ∧ Payment.razorpayPaymentId p = Some "pay_1"%string
          ∧ Payment.status p = COMPLETED) as (-> & Hrp & Hst).
  { vm_compute in Hfind. inversion Hfind. by repeat split. }
  assert (findPaymentByPaymentId "pay_1" (payments SamplePayment.paid)
          = Some ("pay-1"%string, p)) as Hbyid.
  { rewrite <- Hfind. vm_compute. reflexivity. }
  generalize dependent SamplePayment.paid. intros s Hfind Hbyid.
  destruct (refund_then_webhook_refunds SamplePayment.platform
              (Sample.at_ 6 "pay-4") (Sample.at_ 7 "pay-5")
              {| refund_id := "rfnd_1" |} "deal-1" None s "pay-1" p "pay_1" data
              Hfind Hrp ltac:(done) Hst Hbyid eq_refl eq_refl)
    as (_ & Hp & _).
  change (hmac_sha256_hex SamplePayment.platform
            (webhookSecret SamplePayment.platform)
            (JSON_stringify SamplePayment.platform data))
    with "webhook-secret/refund.completed"%string in Hp.
  rewrite Hp, lookup_insert_eq. reflexivity.
Defined.

(** ** The HTTP handlers of deals and payments *)

Lemma cancelDeal_run id u s :
  DealService.cancelDeal id u s
  = match deals s !! id with
    | Some d =>
        if (bool_decide (Deal.ownerId d = u) || bool_decide (Deal.tenantId d = u))
           && negb (bool_decide (Deal.status d = DEAL_COMPLETED))
        then (Ok "Deal cancelled"%string,
              set_deals (insert id (Deal.set_status DEAL_CANCELLED d)) s)
        else (Throw (Error "Deal not found or cannot be cancelled"), s)
    | None => (Throw (Error "Deal not found or cannot be cancelled"), s)
    end.
Proof.
  unfold DealService.cancelDeal. run.
  destruct (deals s !! id) as [d|] eqn:Hd; [|done].
  destruct (_ && _); [|done]. simpl. by rewrite Hd.
Qed.

(** The cancel endpoint, for a logged-in user and a well-formed id, has
    two answers only: 200 "Deal cancelled" when the user is a party of a
    deal that is not COMPLETED, and 404 DEAL_NOT_FOUND otherwise, with the
    store unchanged. A COMPLETED deal is therefore reported as not found;
    the handler's answer "Cannot cancel a completed deal" is never sent. *)
Theorem cancel_endpoint_answers (pf : Platform)
    (user : PaymentController.JwtPayload) (id : string) (s : Store) :
  isValidUUID id = true →
  DealController.cancelDeal pf (Some user) id s
  = match deals s !! id with
    | Some d =>
        if (bool_decide (Deal.ownerId d = PaymentController.userId user)
            || bool_decide (Deal.tenantId d = PaymentController.userId user))
           && negb (bool_decide (Deal.status d = DEAL_COMPLETED))
        then (sendSuccess None "Deal cancelled",
              set_deals (insert id (Deal.set_status DEAL_CANCELLED d)) s)
        else (errorResponse 404 "Deal not found" "DEAL_NOT_FOUND", s)
    | None => (errorResponse 404 "Deal not found" "DEAL_NOT_FOUND", s)
    end.
Proof.
  intros Hu. unfold DealController.cancelDeal, asyncHandler.
  rewrite Hu. cbn [negb]. unfold try_catch, bind. rewrite cancelDeal_run.
  destruct (deals s !! id) as [d|]; [|reflexivity].
  destruct (_ && _); reflexivity.
Qed.

Lemma cancel_endpoint_answers_witness :
  let id := "123e4567-e89b-42d3-a456-426614174000"%string in
  let s := serveAll
             [ (Sample.at_ 1 id, OwnerConfirm "conv-1" "owner-1" (Some 9000));
               (Sample.at_ 2 "deal-2", TenantConfirm "conv-1" "tenant-1") ]
             Sample.store in
  (Deal.status <$> deals s !! id) = Some DEAL_COMPLETED
  ∧ (DealController.cancelDeal SamplePayment.platform (Some SamplePayment.user)
       id s).1
    = errorResponse 404 "Deal not found" "DEAL_NOT_FOUND".
Proof.
  intros id s.
  destruct (deals s !! id) as [d|] eqn:Hd; [|vm_compute in Hd; done].
  assert (Deal.status d = DEAL_COMPLETED) as Hst
    by (vm_compute in Hd; by inversion Hd).
  clearbody s. split; [by rewrite <- Hst|].
  rewrite (cancel_endpoint_answers SamplePayment.platform SamplePayment.user id s
             eq_refl).
  rewrite Hd. rewrite (bool_decide_eq_true_2 _ Hst).
  by rewrite andb_false_r.
Defined.

(** ** The payment endpoints *)

(** The refund endpoint answers anyone but a SUPER_ADMIN with 403
    FORBIDDEN before it looks at the deal id: the store is unchanged and
    no refund request reaches the gateway, whatever the gateway would have
    replied. *)
Theorem refund_endpoint_admin_only (pf : Platform) (env : Env)
    (gateway : Outcome GatewayRefund) (user : PaymentController.JwtPayload)
    (dealId : string) (reason : option string) (s : Store) :
  PaymentController.role user ≠ "SUPER_ADMIN"%string →
  PaymentController.refundPayment pf env gateway (Some user) dealId reason s
  = (errorResponse 403 "Only admins can process refunds" "FORBIDDEN", s).
Proof.
  intros Hrole. unfold PaymentController.refundPayment, asyncHandler.
  apply String.eqb_neq in Hrole. by rewrite Hrole.
Qed.

Lemma refund_endpoint_admin_only_witness :
  PaymentController.refundPayment SamplePayment.platform (Sample.at_ 6 "pay-4")
    (Ok {| refund_id := "rfnd_1" |}) (Some SamplePayment.user)
    "123e4567-e89b-42d3-a456-426614174000" None SamplePayment.paid
  = (errorResponse 403 "Only admins can process refunds" "FORBIDDEN",
     SamplePayment.paid).
Proof.
  apply (refund_endpoint_admin_only SamplePayment.platform (Sample.at_ 6 "pay-4")).
  vm_compute. congruence.
Defined.

Lemma refundPayment_rejected_run env gateway dealId reason s :
  match findPaymentByDeal dealId (payments s) with
  | None =>
      PaymentService.refundPayment env gateway dealId reason s
      = (Throw (Error "Payment not found"), s)
  | Some (_, p) =>
      (Payment.razorpayPaymentId p = None
       ∨ Payment.razorpayPaymentId p = Some ""%string →
       PaymentService.refundPayment env gateway dealId reason s
       = (Throw (Error "No Razorpay payment to refund"), s))
      ∧ (∀ rp, Payment.razorpayPaymentId p = Some rp → rp ≠ ""%string →
           Payment.status p ≠ COMPLETED →
           PaymentService.refundPayment env gateway dealId reason s
           = (Throw (Error "Can only refund completed payments"), s))
  end.
Proof.
  destruct (findPaymentByDeal dealId (payments s)) as [[id p]|] eqn:Hfind.
  - split.
    + intros Hrp. unfold PaymentService.refundPayment.
      rewrite try_catch_rethrow. unfold bind at 1. unfold gets at 1.
      rewrite Hfind. by destruct Hrp as [-> | ->].
    + intros rp Hrp Hne Hst. unfold PaymentService.refundPayment.
      rewrite try_catch_rethrow. unfold bind at 1. unfold gets at 1.
      rewrite Hfind, Hrp. destruct rp as [|a rp]; [done|].
      by rewrite (bool_decide_eq_false_2 _ Hst).
  - unfold PaymentService.refundPayment.
    rewrite try_catch_rethrow. unfold bind at 1. unfold gets at 1.
    by rewrite Hfind.
Qed.

(** For a SUPER_ADMIN and a well-formed deal id the refund endpoint maps
    the three refusals of the service: no payment row gives 404
    NOT_FOUND; a payment without a gateway payment id gives 400 with the
    service's own message; a payment that is not COMPLETED gives 400 "Can
    only refund completed payments". In each case the store is unchanged
    and nothing is sent to the gateway. *)
Theorem refund_endpoint_refusals (pf : Platform) (env : Env)
    (gateway : Outcome GatewayRefund) (user : PaymentController.JwtPayload)
    (dealId : string) (reason : option string) (s : Store) :
  PaymentController.role user = "SUPER_ADMIN"%string →
  isValidUUID dealId = true →
  let resp := PaymentController.refundPayment pf env gateway (Some user) dealId
                reason s in
  match findPaymentByDeal dealId (payments s) with
  | None => resp = (errorResponse 404 "Payment not found" "NOT_FOUND", s)
  | Some (_, p) =>
      (Payment.razorpayPaymentId p = None
       ∨ Payment.razorpayPaymentId p = Some ""%string →
       resp = (errorResponse 400 "No Razorpay payment to refund" "BAD_REQUEST", s))
      ∧ (∀ rp, Payment.razorpayPaymentId p = Some rp → rp ≠ ""%string →
           Payment.status p ≠ COMPLETED →
           resp = (errorResponse 400 "Can only refund completed payments"
                     "BAD_REQUEST", s))
  end.
Proof.
  intros Hrole Hu resp. subst resp.
  unfold PaymentController.refundPayment, asyncHandler.
  rewrite Hrole, Hu, String.eqb_refl. cbn [negb].
  unfold try_catch, bind. cbv beta.
  pose proof (refundPayment_rejected_run env gateway dealId reason s) as Hrun.
  destruct (findPaymentByDeal dealId (payments s)) as [[id p]|].
  - destruct Hrun as [H1 H2]. split.
    + intros Hrp. by rewrite (H1 Hrp).
    + intros rp Hrp Hne Hst. by rewrite (H2 rp Hrp Hne Hst).
  - by rewrite Hrun.
Qed.

Lemma refund_endpoint_refusals_witness :
  let admin := {| PaymentController.userId := "admin-1";
                  PaymentController.email := "admin@rentalplatform.com";
                  PaymentController.role := "SUPER_ADMIN" |} in
  PaymentController.refundPayment SamplePayment.platform (Sample.at_ 6 "pay-4")
    (Ok {| refund_id := "rfnd_1" |}) (Some admin)
    "123e4567-e89b-42d3-a456-426614174000" None SamplePayment.paid
  = (errorResponse 404 "Payment not found" "NOT_FOUND", SamplePayment.paid).
Proof.
  intros admin.
  pose proof (refund_endpoint_refusals SamplePayment.platform
                (Sample.at_ 6 "pay-4") (Ok {| refund_id := "rfnd_1" |}) admin
                "123e4567-e89b-42d3-a456-426614174000" None SamplePayment.paid
                eq_refl eq_refl) as H.
  assert (findPaymentByDeal "123e4567-e89b-42d3-a456-426614174000"
            (payments SamplePayment.paid) = None) as Hnone
    by (vm_compute; reflexivity).
  rewrite Hnone in H. exact H.
Defined.

(** The verify endpoint, given a logged-in user, non-empty string fields
    and a well-formed deal id, answers a signature that fails the check
    with 400 "Payment verification failed: Invalid signature", and the
    audit row the service wrote before it threw is kept; a deal without a
    payment row gives 404, a foreign order id gives 400 "Order ID
    mismatch", both without any write. *)
Theorem verify_endpoint_answers (pf : Platform) (env : Env)
    (user : PaymentController.JwtPayload) (o p sig dealId : string) (s : Store) :
  o ≠ ""%string → p ≠ ""%string → sig ≠ ""%string → isValidUUID dealId = true →
  let resp := PaymentController.verifyPayment pf env (Some user) (Some o)
                (Some p) (Some sig) dealId s in
  match findPaymentByDeal dealId (payments s) with
  | None => resp = (errorResponse 404 "Payment not found" "NOT_FOUND", s)
  | Some (id, row) =>
      (Payment.razorpayOrderId row ≠ Some o →
       resp = (errorResponse 400 "Order ID mismatch" "BAD_REQUEST", s))
      ∧ (Payment.razorpayOrderId row = Some o →
         sig ≠ hmac_sha256_hex pf (keySecret pf) (o ++ "|" ++ p)%string →
         resp = (errorResponse 400 "Payment verification failed: Invalid signature"
                   "BAD_REQUEST",
                 set_paymentLogs (λ l, (l ++
                   [logRow env id "SIGNATURE_VERIFICATION_FAILED" LOG_FAILED None
                      (Some "Signature verification failed"%string)])%list) s))
  end.
Proof.
  intros Ho Hp Hsig Hu resp. subst resp.
  unfold PaymentController.verifyPayment, asyncHandler.
  destruct o as [|a o']; [done|]. destruct p as [|b p']; [done|].
  destruct sig as [|c sig']; [done|]. rewrite Hu. cbn [negb].
  unfold try_catch, bind. cbv beta.
  set (data := {| PaymentService.razorpayOrderId := String a o';
                  PaymentService.razorpayPaymentId := String b p';
                  PaymentService.razorpaySignature := String c sig';
                  PaymentService.dealId := dealId |}).
  destruct (findPaymentByDeal dealId (payments s)) as [[id row]|] eqn:Hfind.
  - split.
    + intros Hne.
      by rewrite (proj2 (verifyPayment_rejected_run pf env data s) id row
                    Hfind Hne).
    + intros Heq Hbad.
      by rewrite (verifyPayment_bad_signature_run pf env data s id row Hfind
                    Heq Hbad).
  - by rewrite (proj1 (verifyPayment_rejected_run pf env data s) Hfind).
Qed.

Lemma verify_endpoint_answers_witness :
  PaymentController.verifyPayment SamplePayment.platform (Sample.at_ 5 "pay-3")
    (Some SamplePayment.user) (Some "order_1"%string) (Some "pay_1"%string)
    (Some "0000"%string) "123e4567-e89b-42d3-a456-426614174000" SamplePayment.paid
  = (errorResponse 404 "Payment not found" "NOT_FOUND", SamplePayment.paid).
Proof.
  pose proof (verify_endpoint_answers SamplePayment.platform
                (Sample.at_ 5 "pay-3") SamplePayment.user "order_1" "pay_1"
                "0000" "123e4567-e89b-42d3-a456-426614174000" SamplePayment.paid
                ltac:(done) ltac:(done) ltac:(done) eq_refl) as H.
  assert (findPaymentByDeal "123e4567-e89b-42d3-a456-426614174000"
            (payments SamplePayment.paid) = None) as Hnone
    by (vm_compute; reflexivity).
  rewrite Hnone in H. exact H.
Defined.

(** The create-order endpoint refuses, with 400 and before the service is
    called, a deal id that is no UUID, an amount that is missing, not a
    number, zero or negative, and a missing or empty phone number; the
    store is unchanged and nothing is sent to the gateway. *)
Theorem createOrder_endpoint_validation (pf : Platform) (env : Env)
    (gateway : Outcome GatewayOrder) (user : PaymentController.JwtPayload)
    (dealId : string) (amount : PaymentController.BodyNumber)
    (description phone : option string) (s : Store) :
  let resp := PaymentController.createOrder pf env gateway (Some user) dealId
                amount description phone s in
  (isValidUUID dealId = false →
     resp = (errorResponse 400 "Invalid deal ID" "BAD_REQUEST", s))
  ∧ (isValidUUID dealId = true →
     match amount with
     | PaymentController.Number z => z ≤ 0
     | _ => True
     end →
     resp = (errorResponse 400 "Invalid amount" "BAD_REQUEST", s))
  ∧ (∀ z, isValidUUID dealId = true → amount = PaymentController.Number z →
       0 < z → phone = None ∨ phone = Some ""%string →
       resp = (errorResponse 400 "Phone number is required" "BAD_REQUEST", s)).
Proof.
  intros resp. subst resp.
  unfold PaymentController.createOrder, asyncHandler.
  split; [|split].
  - by intros ->.
  - intros -> Ha. cbn [negb].
    destruct amount as [| |z]; try done.
    by rewrite (proj2 (Z.leb_le z 0) Ha).
  - intros z -> -> Hz Hph. cbn [negb].
    rewrite (proj2 (Z.leb_gt z 0) Hz). by destruct Hph as [-> | ->].
Qed.

Lemma createOrder_endpoint_validation_witness :
  PaymentController.createOrder SamplePayment.platform (Sample.at_ 3 "pay-1")
    (Ok SamplePayment.order) (Some SamplePayment.user)
    "123e4567-e89b-42d3-a456-426614174000" (PaymentController.Number 0) None
    (Some "9999999999"%string) SamplePayment.paid
  = (errorResponse 400 "Invalid amount" "BAD_REQUEST", SamplePayment.paid).
Proof.
  apply (proj1 (proj2 (createOrder_endpoint_validation SamplePayment.platform
                         (Sample.at_ 3 "pay-1") (Ok SamplePayment.order)
                         SamplePayment.user
                         "123e4567-e89b-42d3-a456-426614174000"
                         (PaymentController.Number 0) None
                         (Some "9999999999"%string) SamplePayment.paid)));
    [reflexivity|simpl; lia].
Defined.

(** The create-order endpoint maps the refusals of the service: an
    unknown deal gives 404 DEAL_NOT_FOUND, a deal that is not COMPLETED
    and a payment that is already COMPLETED give 400; the store is
    unchanged and nothing is sent to the gateway. *)
Theorem createOrder_endpoint_refusals (pf : Platform) (env : Env)
    (gateway : Outcome GatewayOrder) (user : PaymentController.JwtPayload)
    (dealId : string) (z : Z) (description : option string) (phone : string)
    (s : Store) :
  isValidUUID dealId = true → 0 < z → phone ≠ ""%string →
  let resp := PaymentController.createOrder pf env gateway (Some user) dealId
                (PaymentController.Number z) description (Some phone) s in
  match deals s !! dealId with
  | None => resp = (errorResponse 404 "Deal not found" "DEAL_NOT_FOUND", s)
  | Some d =>
      (Deal.status d ≠ DEAL_COMPLETED →
       resp = (errorResponse 400
                 "Deal must be completed before processing payment"
                 "BAD_REQUEST", s))
      ∧ (∀ id p, Deal.status d = DEAL_COMPLETED →
           findPaymentByDeal dealId (payments s) = Some (id, p) →
           Payment.status p = COMPLETED →
           resp = (errorResponse 400 "Payment already completed for this deal"
                     "BAD_REQUEST", s))
  end.
Proof.
  intros Hu Hz Hph resp. subst resp.
  unfold PaymentController.createOrder, asyncHandler.
  rewrite Hu. cbn [negb]. rewrite (proj2 (Z.leb_gt z 0) Hz).
  destruct phone as [|a ph]; [done|].
  unfold try_catch, bind. cbv beta.
  match goal with
  | |- context [PaymentService.createPaymentOrder pf env gateway ?data s] =>
      pose proof (createPaymentOrder_rejected_run pf env gateway data s)
        as (H1 & H2 & H3)
  end.
  cbn [PaymentService.cpo_dealId] in H1, H2, H3.
  destruct (deals s !! dealId) as [d|].
  - split.
    + intros Hst. by rewrite (H2 d eq_refl Hst).
    + intros id p Hst Hfind Hp. by rewrite (H3 d id p eq_refl Hst Hfind Hp).
  - by rewrite (H1 eq_refl).
Qed.

Lemma createOrder_endpoint_refusals_witness :
  PaymentController.createOrder SamplePayment.platform (Sample.at_ 3 "pay-1")
    (Ok SamplePayment.order) (Some SamplePayment.user)
    "123e4567-e89b-42d3-a456-426614174000" (PaymentController.Number 299) None
    (Some "9999999999"%string) SamplePayment.paid
  = (errorResponse 404 "Deal not found" "DEAL_NOT_FOUND", SamplePayment.paid).
Proof.
  pose proof (createOrder_endpoint_refusals SamplePayment.platform
                (Sample.at_ 3 "pay-1") (Ok SamplePayment.order)
                SamplePayment.user "123e4567-e89b-42d3-a456-426614174000" 299
                None "9999999999" SamplePayment.paid eq_refl ltac:(lia)
                ltac:(done)) as H.
  assert (deals SamplePayment.paid !! "123e4567-e89b-42d3-a456-426614174000"
          = None) as Hnone by (vm_compute; reflexivity).
  rewrite Hnone in H. exact H.
Defined.

(** ** The deal endpoints *)

Lemma ownerConfirmDeal_stranger_run env c u rent s :
  (∀ cv, conversations s !! c = Some cv → Conversation.ownerId cv ≠ u) →
  DealService.ownerConfirmDeal env c u rent s
  = (Throw (Error "Conversation not found or you are not the owner"), s).
Proof.
  intros Ho. unfold DealService.ownerConfirmDeal, DealService.findConversation.
  unfold bind, gets.
  destruct (conversations s !! c) as [cv|] eqn:Hc; [|done].
  by rewrite (bool_decide_eq_false_2 _ (Ho cv eq_refl)).
Qed.

(** The owner-confirm endpoint answers 403 to a user whose role is not
    OWNER; for an owner and a well-formed conversation id it answers 400
    "Invalid agreed rent amount" to a rent that is not a number or lies
    outside 1000 to 10000000, so a rent of 0 never reaches the service
    through this endpoint; and it answers 404 CONVERSATION_NOT_FOUND when
    the user owns no conversation of that id. The store is unchanged in
    all three cases. *)
Theorem ownerConfirm_endpoint_refusals (pf : Platform) (env : Env)
    (user : PaymentController.JwtPayload) (c : string)
    (agreedRent : PaymentController.BodyNumber) (s : Store) :
  let resp := DealController.ownerConfirm pf env (Some user) c agreedRent s in
  (PaymentController.role user ≠ "OWNER"%string →
     resp = (errorResponse 403 "Only owners can confirm deals" "FORBIDDEN", s))
  ∧ (PaymentController.role user = "OWNER"%string → isValidUUID c = true →
     match agreedRent with
     | PaymentController.Undefined => False
     | PaymentController.NotNumber => True
     | PaymentController.Number z => z < 1000 ∨ 10000000 < z
     end →
     resp = (errorResponse 400 "Invalid agreed rent amount" "BAD_REQUEST", s))
  ∧ (PaymentController.role user = "OWNER"%string → isValidUUID c = true →
     match agreedRent with
     | PaymentController.Undefined => True
     | PaymentController.NotNumber => False
     | PaymentController.Number z => 1000 ≤ z ≤ 10000000
     end →
     (∀ cv, conversations s !! c = Some cv →
        Conversation.ownerId cv ≠ PaymentController.userId user) →
     resp = (errorResponse 404 "Conversation not found" "CONVERSATION_NOT_FOUND",
             s)).
Proof.
  intros resp. subst resp. unfold DealController.ownerConfirm, asyncHandler.
  split; [|split].
  - intros Hrole. apply String.eqb_neq in Hrole. by rewrite Hrole.
  - intros -> -> Hrent. rewrite String.eqb_refl. cbn [negb].
    destruct agreedRent as [| |z]; try done.
    unfold isValidRentAmount.
    replace ((1000 <=? z) && (z <=? 10000000)) with false; [done|].
    symmetry. apply andb_false_iff. rewrite Z.leb_gt, Z.leb_gt. lia.
  - intros -> -> Hrent Hno. rewrite String.eqb_refl. cbn [negb].
    destruct agreedRent as [| |z]; try done.
    + unfold try_catch, bind. cbv beta.
      by rewrite (ownerConfirmDeal_stranger_run env c _ None s Hno).
    + unfold isValidRentAmount.
      replace ((1000 <=? z) && (z <=? 10000000)) with true
        by (symmetry; apply andb_true_iff; rewrite !Z.leb_le; lia).
      cbn [negb]. unfold try_catch, bind. cbv beta.
      by rewrite (ownerConfirmDeal_stranger_run env c _ (Some z) s Hno).
Qed.

Lemma ownerConfirm_endpoint_refusals_witness :
  let owner := {| PaymentController.userId := "owner-1";
                  PaymentController.email := "asha@example.com";
                  PaymentController.role := "OWNER" |} in
  DealController.ownerConfirm SamplePayment.platform (Sample.at_ 1 "deal-1")
    (Some owner) "123e4567-e89b-42d3-a456-426614174000"
    (PaymentController.Number 0) Sample.store
  = (errorResponse 400 "Invalid agreed rent amount" "BAD_REQUEST", Sample.store).
Proof.
  intros owner.
  apply (proj1 (proj2 (ownerConfirm_endpoint_refusals SamplePayment.platform
                         (Sample.at_ 1 "deal-1") owner
                         "123e4567-e89b-42d3-a456-426614174000"
                         (PaymentController.Number 0) Sample.store)));
    [reflexivity|reflexivity|simpl; lia].
Defined.

(** The deal-lookup endpoint, for a logged-in user and a well-formed
    conversation id, always answers 200 and never writes. The body is
    null when the user is party to no deal of that conversation, so a
    stranger learns nothing and gets no error; a body that is not null is
    a stored deal of the conversation of which the user is the owner or
    the tenant, as [sanitizeData] leaves it: with an empty object in the
    place of every timestamp. *)
Theorem getDealByConversation_endpoint (pf : Platform)
    (user : PaymentController.JwtPayload) (c : string) (s : Store) :
  isValidUUID c = true →
  let resp := DealController.getDealByConversation pf (Some user) c s in
  resp.2 = s
  ∧ status resp.1 = 200 ∧ success resp.1 = true ∧ error resp.1 = None
  ∧ message resp.1 = None
  ∧ (data resp.1 = Some JsNull
     ∨ ∃ id d, data resp.1 = Some (withoutDates (jsDealRow id d))
               ∧ deals s !! id = Some d ∧ Deal.conversationId d = c
               ∧ (Deal.ownerId d = PaymentController.userId user
                  ∨ Deal.tenantId d = PaymentController.userId user))
  ∧ ((∀ id d, deals s !! id = Some d → Deal.conversationId d = c →
        Deal.ownerId d ≠ PaymentController.userId user
        ∧ Deal.tenantId d ≠ PaymentController.userId user) →
     data resp.1 = Some JsNull)
  ∧ (∀ id d, deals s !! id = Some d → Deal.conversationId d = c →
       Deal.ownerId d = PaymentController.userId user
       ∨ Deal.tenantId d = PaymentController.userId user →
       data resp.1 ≠ Some JsNull).
Proof.
  intros Hu resp. subst resp.
  unfold DealController.getDealByConversation, asyncHandler.
  rewrite Hu. cbn [negb].
  unfold try_catch, bind, DealService.getDealByConversation, gets, ret.
  cbv beta iota. cbn [fst snd].
  destruct (list_find _ (map_to_list (deals s))) as [[i [id d]]|] eqn:Hf;
    cbn [fmap option_fmap option_map snd].
  - rewrite sendSuccess_sanitized by (by apply plainKeys_jsDealRow || done).
    cbn [status success error message data].
    apply list_find_Some in Hf as (Hl & HP & _). cbn [snd] in HP.
    apply list_elem_of_lookup_2, elem_of_map_to_list in Hl.
    repeat (split; [done|]). split; [|split].
    + right. exists id, d. tauto.
    + intros Hno. destruct (Hno id d Hl (proj1 HP)). tauto.
    + intros _ _ _ _ _. done.
  - repeat (split; [done|]). split; [by left|]. split; [done|].
    intros id d Hd Hc Hparty _.
    apply list_find_None in Hf. rewrite Forall_forall in Hf.
    apply (Hf (id, d)); [by apply elem_of_map_to_list|done].
Qed.

Lemma getDealByConversation_endpoint_witness :
  let resp := DealController.getDealByConversation SamplePayment.platform
                (Some SamplePayment.user) "123e4567-e89b-42d3-a456-426614174000"
                Sample.store in
  status resp.1 = 200 ∧ data resp.1 = Some JsNull.
Proof.
  intros resp.
  destruct (getDealByConversation_endpoint SamplePayment.platform
              SamplePayment.user "123e4567-e89b-42d3-a456-426614174000"
              Sample.store eq_refl) as (_ & Hst & _ & _ & _ & _ & Hnull & _).
  split; [exact Hst|]. apply Hnull.
  intros id d Hd. vm_compute in Hd. done.
Defined.

(** ** Identifiers *)

Lemma matchClasses_spec pat l :
  matchClasses pat l = true →
  length l = length pat
  ∧ ∀ i p c, pat !! i = Some p → l !! i = Some c → p c = true.
Proof.
  revert l. induction pat as [|q pat IH]; intros [|x l] H; simpl in *; try done.
  apply andb_true_iff in H as [Hq Hrest]. destruct (IH l Hrest) as [Hlen Hall].
  split; [by rewrite Hlen|].
  intros [|i] p c Hp Hc; simpl in *.
  - by inversion Hp; inversion Hc; subst.
  - by eapply Hall.
Qed.

Lemma isOneOf_dash c : isOneOf "-" c = true → c = "-"%char.
Proof.
  unfold isOneOf. simpl. rewrite orb_false_r. intros H.
  by apply Ascii.eqb_eq in H.
Qed.

Lemma uuidPattern_ignores_case :
  Forall (λ p : ascii → bool, ∀ c, p (upperAscii c) = p c) uuidPattern.
Proof.
  assert (∀ c, isHexDigit (upperAscii c) = isHexDigit c) as Hhex
    by (intros [[] [] [] [] [] [] [] []]; reflexivity).
  assert (∀ c, isOneOf "-" (upperAscii c) = isOneOf "-" c) as Hdash
    by (intros [[] [] [] [] [] [] [] []]; reflexivity).
  assert (∀ c, isOneOf "12345" (upperAscii c) = isOneOf "12345" c) as Hver
    by (intros [[] [] [] [] [] [] [] []]; reflexivity).
  assert (∀ c, isOneOf "89abAB" (upperAscii c) = isOneOf "89abAB" c) as Hvar
    by (intros [[] [] [] [] [] [] [] []]; reflexivity).
  unfold uuidPattern. simpl. repeat constructor; assumption.
Qed.

Lemma matchClasses_map pat (f : ascii → ascii) l :
  Forall (λ p : ascii → bool, ∀ c, p (f c) = p c) pat →
  matchClasses pat (map f l) = matchClasses pat l.
Proof.
  intros Hpat. revert l. induction Hpat as [|p pat Hp _ IH]; intros [|x l];
    simpl; try done.
  by rewrite Hp, IH.
Qed.

(** An identifier that [isValidUUID] accepts has 36 characters with
    hyphens at positions 8, 13, 18 and 23 and a version digit from 1 to 5
    at position 14; and the check does not depend on the case of the
    letters: an identifier and its upper-case form are accepted or refused
    together. *)
Theorem isValidUUID_shape (uuid : string) :
  (isValidUUID uuid = true →
     String.length uuid = 36%nat
     ∧ (∀ i, i ∈ [8; 13; 18; 23]%nat →
          list_ascii_of_string uuid !! i = Some "-"%char)
     ∧ ∃ v, list_ascii_of_string uuid !! 14%nat = Some v
            ∧ isOneOf "12345" v = true)
  ∧ isValidUUID (upperString uuid) = isValidUUID uuid.
Proof.
  split.
  - unfold isValidUUID. intros H.
    apply matchClasses_spec in H as [Hlen Hall].
    assert (length (list_ascii_of_string uuid) = 36%nat) as Hlen' by exact Hlen.
    assert (∀ i, (i < 36)%nat → ∃ c, list_ascii_of_string uuid !! i = Some c)
      as Hget.
    { intros i Hi. apply lookup_lt_is_Some. lia. }
    split; [|split].
    + rewrite <- Hlen'. clear. induction uuid; simpl; congruence.
    + intros i Hi.
      assert (uuidPattern !! i = Some (isOneOf "-")) as Hp.
      { repeat (apply elem_of_cons in Hi as [->|Hi]; [reflexivity|]).
        by apply elem_of_nil in Hi. }
      destruct (Hget i) as [c Hc].
      { repeat (apply elem_of_cons in Hi as [->|Hi]; [lia|]).
        by apply elem_of_nil in Hi. }
      rewrite Hc. f_equal. apply isOneOf_dash. by eapply Hall.
    + destruct (Hget 14%nat) as [v Hv]; [lia|]. exists v. split; [done|].
      by apply (Hall 14%nat (isOneOf "12345") v).
  - unfold isValidUUID, upperString.
    rewrite list_ascii_of_string_of_list_ascii.
    apply matchClasses_map, uuidPattern_ignores_case.
Qed.

Lemma isValidUUID_shape_witness :
  isValidUUID (upperString "123e4567-e89b-42d3-a456-426614174000") = true
  ∧ String.length "123e4567-e89b-42d3-a456-426614174000" = 36%nat.
Proof.
  destruct (isValidUUID_shape "123e4567-e89b-42d3-a456-426614174000")
    as [Hshape Hcase].
  split; [rewrite Hcase; reflexivity|].
  apply Hshape. reflexivity.
Defined.

(** ** An owner confirmation that waits for the tenant *)

(** An owner confirmation of an existing deal the tenant has not confirmed
    writes that row only: the owner's flag and time, the rent (the
    supplied one, or the listed rent when none or 0 was supplied) and the
    status PENDING_TENANT, whatever the status was (PENDING_BOTH and
    CANCELLED included). No mail is handed to the mailer and the property
    is not written. *)
Theorem owner_confirmation_waits_for_tenant (env : Env) (c o : string)
    (rent : option Z) (s : Store) (cv : Conversation.t) (p : Property.t)
    (id : string) (d : Deal.t) :
  conversations s !! c = Some cv → Conversation.ownerId cv = o →
  properties s !! Conversation.propertyId cv = Some p →
  findDealByConversation c (deals s) = Some (id, d) →
  Deal.tenantConfirmed d = false →
  let rentAmount := match rent with
                    | Some x => if x =? 0 then Property.rentAmount p else x
                    | None => Property.rentAmount p
                    end in
  let d1 := Deal.set_status PENDING_TENANT
              (Deal.set_agreedRent rentAmount
                 (Deal.set_ownerConfirmedAt (Some (now env))
                    (Deal.set_ownerConfirmed true d))) in
  DealService.ownerConfirmDeal env c o rent s
  = (Ok (Some d1), set_deals (insert id d1) s).
Proof.
  intros Hcv Ho Hp Hfind Ht rentAmount d1.
  apply findDealByConversation_Some in Hfind as Hrow. destruct Hrow as [Hd _].
  unfold DealService.ownerConfirmDeal, DealService.findConversation.
  unfold bind at 1. unfold gets at 1. rewrite Hcv.
  rewrite (bool_decide_eq_true_2 _ Ho).
  assert (js_or rent (DealService.rentAmountOf (DealService.includeRelations c cv s)) s
          = (Ok rentAmount, s)) as Hjs.
  { unfold js_or, DealService.rentAmountOf, DealService.propertyOf, rentAmount.
    simpl. rewrite Hp. destruct rent as [x|]; [destruct (x =? 0)|]; done. }
  unfold bind at 1. rewrite Hjs.
  simpl DealService.deal. rewrite Hfind.
  unfold bind at 1. unfold deal_update at 1. rewrite Hd, Ht.
  rewrite bool_decide_eq_false_2 by done.
  unfold bind at 1. unfold ret at 1. cbn [fst snd]. fold d1.
  replace (Deal.ownerConfirmed d1 && Deal.tenantConfirmed d1) with false
    by (unfold d1; simpl; by rewrite Ht).
  unfold when, bind, ret, DealService.getDealWithDetails, gets. simpl.
  by rewrite lookup_insert_eq.
Qed.

Lemma owner_confirmation_waits_for_tenant_witness :
  let s := serveAll Sample.confirmThenCancel Sample.store in
  (Deal.status
     <$> deals (DealService.ownerConfirmDeal (Sample.at_ 3 "deal-3") "conv-1"
                  "owner-1" (Some 12000) s).2 !! "deal-1")
  = Some PENDING_TENANT.
Proof.
  intros s.
  assert (conversations s !! "conv-1"
          = Some (Conversation.mk "prop-1" "owner-1" "tenant-1")) as Hcv
    by (vm_compute; reflexivity).
  assert (properties s !! "prop-1"
          = Some (Property.mk "2BHK in Baner" 9000 ACTIVE)) as Hp
    by (vm_compute; reflexivity).
  assert (findDealByConversation "conv-1" (deals s)
          = Some ("deal-1"%string, Sample.cancelledDeal)) as Hfind
    by (vm_compute; reflexivity).
  clearbody s.
  rewrite (owner_confirmation_waits_for_tenant (Sample.at_ 3 "deal-3") "conv-1"
             "owner-1" (Some 12000) s _ _ "deal-1" Sample.cancelledDeal
             Hcv eq_refl Hp Hfind eq_refl).
  cbn [snd deals set_deals]. rewrite lookup_insert_eq. reflexivity.
Defined.

(** ** The tenant-confirm endpoint *)

(** When a tenant confirms, through the endpoint, a deal the owner has
    confirmed, the answer is 200 with the message "Deal completed! Both
    parties have confirmed."; the body is the completed deal as
    [sanitizeData] leaves it, that is with an empty object in the place of
    [ownerConfirmedAt], [tenantConfirmedAt] and [completedAt]; the store
    is the one the service leaves: deal COMPLETED, property RENTED,
    completion mails handed over. *)
Theorem tenantConfirm_endpoint_completes (pf : Platform) (env : Env)
    (user : PaymentController.JwtPayload) (c : string) (s : Store)
    (cv : Conversation.t) (id : string) (d : Deal.t) (p : Property.t) :
  PaymentController.role user = "TENANT"%string → isValidUUID c = true →
  conversations s !! c = Some cv →
  Conversation.tenantId cv = PaymentController.userId user →
  findDealByConversation c (deals s) = Some (id, d) →
  Deal.ownerConfirmed d = true →
  properties s !! Deal.propertyId d = Some p →
  let d' := completed env
              (Deal.set_status DEAL_COMPLETED
                 (Deal.set_tenantConfirmedAt (Some (now env))
                    (Deal.set_tenantConfirmed true d))) in
  DealController.tenantConfirm pf env (Some user) c s
  = ({| status := 200; success := true;
        message := Some "Deal completed! Both parties have confirmed."%string;
        data := Some (withoutDates (jsDeal d'));
        error := None |},
     set_outbox (λ o, (o ++ completionMails s d (Property.title p))%list)
       (set_properties (insert (Deal.propertyId d) (rented p))
          (set_deals (insert id d') s))).
Proof.
  intros Hrole Hu Hcv Ht Hfind Ho Hp d'.
  unfold DealController.tenantConfirm, asyncHandler.
  rewrite Hrole, Hu, String.eqb_refl. cbn [negb].
  unfold try_catch, bind. cbv beta.
  rewrite (tenantConfirmDeal_completes_run env c _ s cv id d p Hcv Ht Hfind Ho Hp).
  cbv beta iota zeta. unfold ret. cbn [nullable].
  rewrite sendSuccess_sanitized by (by apply plainKeys_jsDeal || done).
  reflexivity.
Qed.

(** The body of the answer in a sample run: the owner confirmed at time
    1, the tenant confirms at time 2. *)
Lemma tenantConfirm_endpoint_completes_witness :
  let c := "123e4567-e89b-42d3-a456-426614174000"%string in
  let tenant := {| PaymentController.userId := "tenant-1";
                   PaymentController.email := "ravi@example.com";
                   PaymentController.role := "TENANT" |} in
  let s0 := {| users := users Sample.store; properties := properties Sample.store;
               conversations := {[ c := Conversation.mk "prop-1" "owner-1" "tenant-1" ]};
               deals := ∅; payments := ∅; paymentLogs := []; outbox := [];
               gatewayCalls := [] |} in
  let s := serve (Sample.at_ 1 "deal-1") (OwnerConfirm c "owner-1" (Some 9000)) s0 in
  (DealController.tenantConfirm SamplePayment.platform
     (Sample.at_ 2 "deal-2") (Some tenant) c s).1
  = {| status := 200; success := true;
       message := Some "Deal completed! Both parties have confirmed."%string;
       data := Some (JsObject
         [ ("conversationId", JsString c);
           ("propertyId", JsString "prop-1");
           ("ownerId", JsString "owner-1");
           ("tenantId", JsString "tenant-1");
           ("agreedRent", JsNum (JsNumber.of_Z 9000));
           ("ownerConfirmed", JsBoolean true);
           ("ownerConfirmedAt", JsObject []);
           ("tenantConfirmed", JsBoolean true);
           ("tenantConfirmedAt", JsObject []);
           ("status", JsString "COMPLETED");
           ("successFeeAmount", JsNum (JsNumber.of_Z 299));
           ("completedAt", JsObject []);
           ("paymentStatus", JsString "UNPAID");
           ("paymentId", JsNull) ]);
       error := None |}.
Proof.
  intros c tenant s0 s.
  assert (conversations s !! c
          = Some (Conversation.mk "prop-1" "owner-1" "tenant-1")) as Hcv
    by (vm_compute; reflexivity).
  assert (properties s !! "prop-1"
          = Some (Property.mk "2BHK in Baner" 9000 ACTIVE)) as Hp
    by (vm_compute; reflexivity).
  destruct (findDealByConversation c (deals s)) as [[id d]|] eqn:Hfind;
    [|vm_compute in Hfind; done].
  assert (d = Deal.set_ownerConfirmedAt (Some 1)
                (Deal.set_ownerConfirmed true
                   (Deal.create c "prop-1" "owner-1" "tenant-1" 9000
                      PENDING_TENANT))) as ->
    by (vm_compute in Hfind; by inversion Hfind).
  clearbody s.
  rewrite (tenantConfirm_endpoint_completes SamplePayment.platform
             (Sample.at_ 2 "deal-2") tenant c s _ id _ _ eq_refl eq_refl
             Hcv eq_refl Hfind eq_refl Hp).
  cbn [fst]. vm_compute. reflexivity.
Defined.

(** ** Sanitising a response *)

Lemma sanitizeData_holdsKey (P : string → bool) k v :
  (∀ key, P key = true → copiesKey k key = false) →
  holdsKey P (sanitizeData k v) = false.
Proof.
  intros HP. revert v. fix IH 1.
  intros [| |b|x|t|t|t|items|entries]; try reflexivity.
  - simpl. induction items as [|i items IHi]; [reflexivity|].
    simpl. by rewrite IH, IHi.
  - simpl. induction entries as [|[key value] entries IHe]; [reflexivity|].
    destruct (copiesKey k key) eqn:Hk; [|exact IHe].
    simpl. rewrite IH, IHe, orb_false_r, orb_false_r.
    destruct (P key) eqn:HPk; [|done]. apply HP in HPk. congruence.
Qed.

Lemma sanitizeData_holdsDate k v : holdsDate (sanitizeData k v) = false.
Proof.
  revert v. fix IH 1.
  intros [| |b|x|t|t|t|items|entries]; try reflexivity.
  - simpl. induction items as [|i items IHi]; [reflexivity|].
    simpl. by rewrite IH, IHi.
  - simpl. induction entries as [|[key value] entries IHe]; [reflexivity|].
    destruct (copiesKey k key) eqn:Hk; [|exact IHe].
    simpl. by rewrite IH, IHe.
Qed.

(** [sanitizeData] is idempotent, and its result holds, at no depth, a
    credential key of [SENSITIVE_FIELDS], a key that starts with an
    underscore other than [_count], or, when timestamps are not kept, a
    key of [METADATA_FIELDS]. It holds no [Date] either: also with
    [keepTimestamps] set, every timestamp is replaced by the empty
    object. *)
Theorem sanitizeData_result (keepTimestamps : bool) (data : JsValue) :
  let sent := sanitizeData keepTimestamps data in
  sanitizeData keepTimestamps sent = sent
  ∧ holdsKey (λ key, bool_decide (key ∈ SENSITIVE_FIELDS)) sent = false
  ∧ holdsKey (λ key, String.prefix "_" key && negb (String.eqb key "_count"))
      sent = false
  ∧ holdsKey (λ key, negb keepTimestamps && bool_decide (key ∈ METADATA_FIELDS))
      sent = false
  ∧ holdsDate sent = false.
Proof.
  intros sent. subst sent. split; [apply sanitizeData_idempotent|].
  split; [|split; [|split]].
  - apply sanitizeData_holdsKey. intros key Hkey. unfold copiesKey.
    by rewrite Hkey.
  - apply sanitizeData_holdsKey. intros key Hkey. unfold copiesKey.
    rewrite Hkey. by rewrite !andb_false_r.
  - apply sanitizeData_holdsKey. intros key Hkey. unfold copiesKey.
    rewrite Hkey. by rewrite andb_false_r.
  - apply sanitizeData_holdsDate.
Qed.
